(** * data_extractor: the extraction data model, the snapshot store, the job
      lifecycle and the derived views of [main.py], embedded in Rocq.

    The Python program is translated function by function.  Calls into
    libraries (pydantic, pickle, pandas, the file system, the generative
    model client) are modelled at the interface the program uses; what a
    library computes and the program never inspects is left as an
    operation of a class ([PyFloat], [Externals]). *)

From Stdlib Require Import List String Ascii ZArith Bool Lia Arith.
From Stdlib Require Import Permutation Sorted DecimalString.
Import ListNotations.

Set Warnings "-register-all".

Local Open Scope string_scope.
Local Open Scope list_scope.

(* ------------------------------------------------------------------ *)
(** * Python builtins used by the program                               *)
(* ------------------------------------------------------------------ *)

Module Py.

(** [str(n)] for an [int]: decimal digits, with a leading minus sign. *)
Definition str_int (n : Z) : string := NilZero.string_of_int (Z.to_int n).

Definition TAB : string := String (ascii_of_nat 9) EmptyString.
Definition LF : string := String (ascii_of_nat 10) EmptyString.
Definition CR : string := String (ascii_of_nat 13) EmptyString.
Definition DQUOTE : string := String (ascii_of_nat 34) EmptyString.
Definition NUL : ascii := ascii_of_nat 0.

(** [sep.join(l)]. *)
Fixpoint join (sep : string) (l : list string) : string :=
  match l with
  | [] => EmptyString
  | [x] => x
  | x :: rest => append x (append sep (join sep rest))
  end.

(** [next(iterator, default)] on the list of the values the iterator yields. *)
Definition next {A : Type} (it : list A) (default : A) : A :=
  match it with
  | x :: _ => x
  | [] => default
  end.

(** [any(...)] on the list of the booleans the generator yields. *)
Definition any (l : list bool) : bool := existsb (fun b => b) l.

(** [set(l)] for integers: the distinct elements (Python leaves the
    iteration order of a set unspecified; every use below sorts it). *)
Definition set (l : list Z) : list Z := nodup Z.eq_dec l.

Fixpoint insort (x : Z) (l : list Z) : list Z :=
  match l with
  | [] => [x]
  | y :: rest => if (x <=? y)%Z then x :: l else y :: insort x rest
  end.

(** [sorted(l)]: ascending. *)
Definition sorted (l : list Z) : list Z := fold_right insort [] l.

(** [sub in s]. *)
Fixpoint contains (sub s : string) : bool :=
  if prefix sub s then true
  else match s with
       | EmptyString => false
       | String _ rest => contains sub rest
       end.

(** [c in s] for a single character. *)
Fixpoint has_char (c : ascii) (s : string) : bool :=
  match s with
  | EmptyString => false
  | String a rest => Ascii.eqb a c || has_char c rest
  end.

(** [s.replace(old, new)] for a one-character [old]. *)
Fixpoint replace_char (old : ascii) (new : string) (s : string) : string :=
  match s with
  | EmptyString => EmptyString
  | String a rest =>
      if Ascii.eqb a old then append new (replace_char old new rest)
      else String a (replace_char old new rest)
  end.

(** [s.endswith(suffix)]. *)
Definition endswith (s suffix : string) : bool :=
  (String.length suffix <=? String.length s)%nat &&
  String.eqb (substring (String.length s - String.length suffix)
                        (String.length suffix) s) suffix.

(** [s.split(c)] for a one-character separator: never the empty list. *)
Fixpoint split (c : ascii) (s : string) : list string :=
  match s with
  | EmptyString => [EmptyString]
  | String a rest =>
      if Ascii.eqb a c then EmptyString :: split c rest
      else match split c rest with
           | [] => [String a EmptyString]
           | w :: ws => String a w :: ws
           end
  end.

(** [s.rfind(c)] for a one-character [c]: [None] stands for [-1]. *)
Fixpoint rfind (c : ascii) (s : string) : option nat :=
  match s with
  | EmptyString => None
  | String a rest =>
      match rfind c rest with
      | Some i => Some (S i)
      | None => if Ascii.eqb a c then Some 0 else None
      end
  end.

End Py.

(* ------------------------------------------------------------------ *)
(** * The data models (pydantic classes)                                *)
(* ------------------------------------------------------------------ *)

(** A Python [float] and the two things the program does with one: it is
    printed ([str]) and pandas asks whether it is a NaN ([fillna]).  The
    program does no arithmetic on floats. *)
Class PyFloat : Type := {
  float : Type;
  str_float : float -> string;
  isnan : float -> bool
}.

Inductive Quality : Type := high | medium | low.

Inductive MetricType : Type := actual | forecast.

(** [class ExtractedData(BaseModel)]; its subclasses carry it as their
    first component. *)
Record ExtractedData : Type := {
  pages : list Z;
  quality : Quality
}.

(** [CompanyName], [CompanyDescription], [CompanyStrategy],
    [CompanyBusinessModel], [CompanyMarket], [CompanyClients] and
    [CompanyProducts] all are [ExtractedData] with one more field
    [value: str]. *)
Record ValueField : Type := {
  value_extracted : ExtractedData;
  value : string
}.

Definition CompanyName := ValueField.
Definition CompanyDescription := ValueField.
Definition CompanyStrategy := ValueField.
Definition CompanyBusinessModel := ValueField.
Definition CompanyMarket := ValueField.
Definition CompanyClients := ValueField.
Definition CompanyProducts := ValueField.

Record Employee : Type := {
  employee_extracted : ExtractedData;
  employee_name : string;
  employee_role : string;
  employee_description : string
}.

Record TopManagement : Type := {
  employees : list Employee;
  top_management_pages : list Z
}.

Section Models.
Context {PF : PyFloat}.

Record FinancialMetrics : Type := {
  year : Z;
  revenue : option float;
  ebitda : option float;
  margin : option float;
  debt : option float;
  type : MetricType
}.

Record FinancialData : Type := {
  financial_data_extracted : ExtractedData;
  data : list FinancialMetrics;
  currency : string
}.

Record Financials : Type := {
  financial_data : FinancialData
}.

Record CompanyBase : Type := {
  name : CompanyName;
  description : CompanyDescription;
  strategy : CompanyStrategy;
  business_model : CompanyBusinessModel;
  market : CompanyMarket;
  clients : CompanyClients;
  products : CompanyProducts;
  top_management : TopManagement;
  financials : Financials
}.

(** [class Company(CompanyBase)]: the base fields and [id]. *)
Record Company : Type := {
  company_base : CompanyBase;
  id : string
}.

End Models.

(* ------------------------------------------------------------------ *)
(** * FastHTML component trees                                           *)
(* ------------------------------------------------------------------ *)

(** What a component constructor call builds: the constructor's name, the
    positional children and the keyword attributes in the order written.
    MonsterUI's class constants ([TextT.info], ...) are kept by name. *)
Inductive FT : Type :=
  | Tag (tag : string) (children : list FT) (attrs : list (string * string))
  | Text (s : string).

Definition Th (s : string) : FT := Tag "Th" [Text s] [].
Definition Td (s : string) : FT := Tag "Td" [Text s] [].
Definition Tr (cells : list FT) : FT := Tag "Tr" cells [].
Definition Table (rows : list FT) (caption : string) : FT :=
  Tag "Table" rows [("caption", caption)].
Definition P (s : string) (cls : string) : FT := Tag "P" [Text s] [("cls", cls)].

Section Rendering.
Context {PF : PyFloat}.

(** The generator [(str(d.m) for d in self.data if d.year == y and d.m is
    not None)] of lines 145-148, as the list of what it yields. *)
Definition metric_texts (m : FinancialMetrics -> option float)
    (self_data : list FinancialMetrics) (y : Z) : list string :=
  flat_map (fun d =>
              if (year d =? y)%Z then
                match m d with
                | Some v => [str_float v]
                | None => []
                end
              else [])
           self_data.

(** One metric row: [Tr(Td(label), *[Td(next(..., "-")) for y in years])]. *)
Definition metric_row (label : string) (m : FinancialMetrics -> option float)
    (self_data : list FinancialMetrics) (years : list Z) : FT :=
  Tr (Td label :: map (fun y => Td (Py.next (metric_texts m self_data y) "-")) years).

(** The header cell of year [y]:
    [Th(f"{y}" + ("E" if any(d.type == "forecast" and d.year == y ...) else ""))]. *)
Definition is_forecast (t : MetricType) : bool :=
  match t with forecast => true | actual => false end.

Definition year_header (self_data : list FinancialMetrics) (y : Z) : FT :=
  Th (append (Py.str_int y)
        (if Py.any (map (fun d => is_forecast (type d) && (year d =? y)%Z) self_data)
         then "E" else "")).

(** [FinancialData.__ft__] (lines 140-150). *)
Definition FinancialData__ft__ (self : FinancialData) : FT :=
  let years := Py.sorted (Py.set (map year (data self))) in
  Table
    [ Tr (Th "Metric" :: map (year_header (data self)) years);
      metric_row "Revenue" revenue (data self) years;
      metric_row "EBITDA" ebitda (data self) years;
      metric_row "Margin" margin (data self) years;
      metric_row "Debt" debt (data self) years ]
    (append "All values in " (currency self)).

End Rendering.

(* ------------------------------------------------------------------ *)
(** * Exceptions                                                         *)
(* ------------------------------------------------------------------ *)

(** The exceptions the modelled calls raise; only the class is kept. *)
Inductive Exception : Type :=
  | KeyError
  | AttributeError
  | ValueError
  | FileNotFoundError
  | NotADirectoryError
  | IsADirectoryError
  | FileExistsError
  | OSError
  | UnpicklingError
  | ClientError.

(** The outcome of a call: a value, or an exception raised. *)
Inductive result (A : Type) : Type :=
  | Ok (a : A)
  | Raise (e : Exception).
Arguments Ok {A} a.
Arguments Raise {A} e.

(* ------------------------------------------------------------------ *)
(** * pandas, as far as [format_for_excel_clipboard] uses it            *)
(* ------------------------------------------------------------------ *)

Module pd.
Section Frames.
Context {PF : PyFloat}.

(** The objects a frame of this program holds: [None], integers (the
    years), floats (the metrics) and strings (the labels, the types and
    the filler). *)
Inductive object : Type :=
  | PyNone
  | PyInt (n : Z)
  | PyFloatObj (x : float)
  | PyStr (s : string).

(** A frame: row labels, column labels and the rows of cells. *)
Record DataFrame : Type := {
  index : list object;
  columns : list object;
  values : list (list object)
}.

(** [pd.DataFrame(records)] for a list of dicts that all have the same
    keys in the same order (as the dict display of lines 502-509 builds
    them); a dict is the list of its items.  The labels of the columns are
    the keys of the first record, the row labels are [0 .. n-1]; the empty
    list gives the frame without columns. *)
Definition DataFrame_of_records (records : list (list (string * object))) : DataFrame :=
  {| index := map (fun i => PyInt (Z.of_nat i)) (seq 0 (List.length records));
     columns := match records with
                | [] => []
                | r :: _ => map (fun kv => PyStr (fst kv)) r
                end;
     values := map (map snd) records |}.

Definition is_label (key : string) (o : object) : bool :=
  match o with
  | PyStr s => String.eqb s key
  | _ => false
  end.

Fixpoint position (key : string) (labels : list object) : option nat :=
  match labels with
  | [] => None
  | o :: rest =>
      if is_label key o then Some 0
      else match position key rest with
           | Some i => Some (S i)
           | None => None
           end
  end.

Fixpoint drop_nth {A : Type} (i : nat) (l : list A) : list A :=
  match l, i with
  | [], _ => []
  | _ :: rest, 0 => rest
  | x :: rest, S j => x :: drop_nth j rest
  end.

(** [df.set_index(key)]: the column [key] becomes the row labels and is
    dropped from the columns; [KeyError] when there is no such column. *)
Definition set_index (df : DataFrame) (key : string) : result DataFrame :=
  match position key (columns df) with
  | None => Raise KeyError
  | Some i =>
      Ok {| index := map (fun row => nth i row PyNone) (values df);
            columns := drop_nth i (columns df);
            values := map (drop_nth i) (values df) |}
  end.

(** [df.transpose()]. *)
Definition transpose (df : DataFrame) : DataFrame :=
  {| index := columns df;
     columns := index df;
     values := map (fun j => map (fun row => nth j row PyNone) (values df))
                   (seq 0 (List.length (columns df))) |}.

(** [pd.isna] on one cell: [None] and NaN. *)
Definition isna (o : object) : bool :=
  match o with
  | PyNone => true
  | PyFloatObj x => isnan x
  | _ => false
  end.

(** [df.fillna(filler)] with a string filler. *)
Definition fillna (df : DataFrame) (filler : string) : DataFrame :=
  {| index := index df;
     columns := columns df;
     values := map (map (fun o => if isna o then PyStr filler else o)) (values df) |}.

(** The text of one cell in [to_csv]: missing values as [na_rep = ''],
    everything else through [str]. *)
Definition to_text (o : object) : string :=
  if isna o then EmptyString
  else match o with
       | PyNone => EmptyString
       | PyInt n => Py.str_int n
       | PyFloatObj x => str_float x
       | PyStr s => s
       end.

(** The csv writer's minimal quoting: a field that holds the separator, a
    double quote or a line break is put in double quotes, with its own
    double quotes doubled. *)
Definition needs_quoting (sep : ascii) (s : string) : bool :=
  Py.has_char sep s || Py.has_char (ascii_of_nat 34) s ||
  Py.has_char (ascii_of_nat 10) s || Py.has_char (ascii_of_nat 13) s.

Definition csv_field (sep : ascii) (s : string) : string :=
  if needs_quoting sep s
  then append Py.DQUOTE
         (append (Py.replace_char (ascii_of_nat 34) (append Py.DQUOTE Py.DQUOTE) s)
                 Py.DQUOTE)
  else s.

Definition csv_line (sep : ascii) (fields : list string) : string :=
  append (Py.join (String sep EmptyString) (map (csv_field sep) fields)) Py.LF.

(** [df.to_csv(sep=sep)] returning the text: a header line (the corner
    cell is empty, the row labels having no name) and one line a row,
    each ended by a line feed (the POSIX line separator). *)
Definition to_csv (df : DataFrame) (sep : ascii) : string :=
  String.concat EmptyString
    (csv_line sep (EmptyString :: map to_text (columns df))
     :: map (fun lr => csv_line sep (to_text (fst lr) :: map to_text (snd lr)))
            (combine (index df) (values df))).

End Frames.
End pd.

Section Clipboard.
Context {PF : PyFloat}.

Definition type_str (t : MetricType) : string :=
  match t with actual => "actual" | forecast => "forecast" end.

Definition of_optional (v : option float) : pd.object :=
  match v with
  | Some x => pd.PyFloatObj x
  | None => pd.PyNone
  end.

(** [format_for_excel_clipboard] (lines 500-524). *)
Definition format_for_excel_clipboard (metrics_list : list FinancialMetrics)
  : result string :=
  let df := pd.DataFrame_of_records
              (map (fun m =>
                      [ ("year", pd.PyInt (year m));
                        ("revenue", of_optional (revenue m));
                        ("ebitda", of_optional (ebitda m));
                        ("margin", of_optional (margin m));
                        ("debt", match debt m with
                                 | Some x => pd.PyFloatObj x
                                 | None => pd.PyStr EmptyString
                                 end);
                        ("type", pd.PyStr (type_str (type m))) ])
                   metrics_list) in
  match pd.set_index df "year" with
  | Raise e => Raise e
  | Ok df_indexed =>
      let df_transposed := pd.transpose df_indexed in
      let df_transposed := pd.fillna df_transposed EmptyString in
      let excel_ready_string := pd.to_csv df_transposed (ascii_of_nat 9) in
      Ok excel_ready_string
  end.

End Clipboard.

(* ------------------------------------------------------------------ *)
(** * JSON values and the validation of the response schema             *)
(* ------------------------------------------------------------------ *)

(** A decoded JSON text.  A number keeps its literal: what pydantic makes
    of it depends on the field it lands in. *)
Inductive json : Type :=
  | JNull
  | JBool (b : bool)
  | JNumber (literal : string)
  | JString (s : string)
  | JArray (items : list json)
  | JObject (members : list (string * json)).

(** pydantic's validation of the three scalar types of the schema
    ([int], [float], [str]) from a JSON value, [None] for a validation
    error.  The nesting of the models, the required and the optional
    fields and the literals are modelled below from the class
    declarations. *)
Class Pydantic {PF : PyFloat} : Type := {
  validate_int : json -> option Z;
  validate_float : json -> option float;
  validate_str : json -> option string
}.

Module Option.
Definition bind {A B : Type} (o : option A) (f : A -> option B) : option B :=
  match o with
  | Some a => f a
  | None => None
  end.

Fixpoint mapM {A B : Type} (f : A -> option B) (l : list A) : option (list B) :=
  match l with
  | [] => Some []
  | x :: rest =>
      bind (f x) (fun y => bind (mapM f rest) (fun ys => Some (y :: ys)))
  end.
End Option.

Notation "x <-? c ; k" := (Option.bind c (fun x => k))
  (at level 61, c at next level, right associativity).

Section Validation.
Context {PF : PyFloat} {PD : Pydantic}.

(** The value of key [k] in an object; of two members with one key the
    later one counts. *)
Fixpoint member (k : string) (ms : list (string * json)) : option json :=
  match ms with
  | [] => None
  | kv :: rest =>
      match member k rest with
      | Some v => Some v
      | None => if String.eqb (fst kv) k then Some (snd kv) else None
      end
  end.

(** A field without default: its absence is a validation error. *)
Definition required {A : Type} (ms : list (string * json)) (k : string)
    (validate : json -> option A) : option A :=
  match member k ms with
  | Some j => validate j
  | None => None
  end.

(** A field [Optional[...] = Field(None, ...)]: absent or [null] gives
    [None]; a present value has to validate. *)
Definition optional {A : Type} (ms : list (string * json)) (k : string)
    (validate : json -> option A) : option (option A) :=
  match member k ms with
  | None => Some None
  | Some JNull => Some None
  | Some j => a <-? validate j; Some (Some a)
  end.

(** [List[...]]. *)
Definition validate_list {A : Type} (validate : json -> option A) (j : json)
  : option (list A) :=
  match j with
  | JArray items => Option.mapM validate items
  | _ => None
  end.

(** [Literal["high", "medium", "low"]]. *)
Definition validate_quality (j : json) : option Quality :=
  match j with
  | JString s =>
      if String.eqb s "high" then Some high
      else if String.eqb s "medium" then Some medium
      else if String.eqb s "low" then Some low
      else None
  | _ => None
  end.

(** [Literal["actual", "forecast"]]. *)
Definition validate_type (j : json) : option MetricType :=
  match j with
  | JString s =>
      if String.eqb s "actual" then Some actual
      else if String.eqb s "forecast" then Some forecast
      else None
  | _ => None
  end.

(** The two fields every [ExtractedData] has. *)
Definition validate_extracted (ms : list (string * json)) : option ExtractedData :=
  pages <-? required ms "pages" (validate_list validate_int);
  quality <-? required ms "quality" validate_quality;
  Some {| pages := pages; quality := quality |}.

Definition validate_ValueField (j : json) : option ValueField :=
  match j with
  | JObject ms =>
      e <-? validate_extracted ms;
      v <-? required ms "value" validate_str;
      Some {| value_extracted := e; value := v |}
  | _ => None
  end.

Definition validate_Employee (j : json) : option Employee :=
  match j with
  | JObject ms =>
      e <-? validate_extracted ms;
      n <-? required ms "name" validate_str;
      r <-? required ms "role" validate_str;
      d <-? required ms "description" validate_str;
      Some {| employee_extracted := e; employee_name := n;
              employee_role := r; employee_description := d |}
  | _ => None
  end.

Definition validate_TopManagement (j : json) : option TopManagement :=
  match j with
  | JObject ms =>
      es <-? required ms "employees" (validate_list validate_Employee);
      ps <-? required ms "pages" (validate_list validate_int);
      Some {| employees := es; top_management_pages := ps |}
  | _ => None
  end.

Definition validate_FinancialMetrics (j : json) : option FinancialMetrics :=
  match j with
  | JObject ms =>
      y <-? required ms "year" validate_int;
      r <-? optional ms "revenue" validate_float;
      e <-? optional ms "ebitda" validate_float;
      m <-? optional ms "margin" validate_float;
      d <-? optional ms "debt" validate_float;
      t <-? required ms "type" validate_type;
      Some {| year := y; revenue := r; ebitda := e; margin := m; debt := d;
              type := t |}
  | _ => None
  end.

Definition validate_FinancialData (j : json) : option FinancialData :=
  match j with
  | JObject ms =>
      e <-? validate_extracted ms;
      d <-? required ms "data" (validate_list validate_FinancialMetrics);
      c <-? required ms "currency" validate_str;
      Some {| financial_data_extracted := e; data := d; currency := c |}
  | _ => None
  end.

Definition validate_Financials (j : json) : option Financials :=
  match j with
  | JObject ms =>
      f <-? required ms "financial_data" validate_FinancialData;
      Some {| financial_data := f |}
  | _ => None
  end.

(** [CompanyBase.model_validate]: the schema handed to the model. *)
Definition validate_CompanyBase (j : json) : option CompanyBase :=
  match j with
  | JObject ms =>
      n <-? required ms "name" validate_ValueField;
      d <-? required ms "description" validate_ValueField;
      s <-? required ms "strategy" validate_ValueField;
      b <-? required ms "business_model" validate_ValueField;
      m <-? required ms "market" validate_ValueField;
      c <-? required ms "clients" validate_ValueField;
      p <-? required ms "products" validate_ValueField;
      t <-? required ms "top_management" validate_TopManagement;
      f <-? required ms "financials" validate_Financials;
      Some {| name := n; description := d; strategy := s; business_model := b;
              market := m; clients := c; products := p; top_management := t;
              financials := f |}
  | _ => None
  end.

(** [response.parsed] of the client library for a pydantic
    [response_schema]: the validated model, and [None] when the text of
    the response is not JSON or does not validate. *)
Definition parsed (response_text : option json) : option CompanyBase :=
  j <-? response_text; validate_CompanyBase j.

End Validation.

(* ------------------------------------------------------------------ *)
(** * The file system under the working directory                       *)
(* ------------------------------------------------------------------ *)

(** A tree of directories and regular files without links, rooted at the
    working directory (every path of the program is relative and starts
    with [data/]).  The entries of a directory are kept in the order in
    which the directory enumerates them.  What lies outside the working
    directory is not modelled ([..] at the root stays at the root), nor
    are permissions and the limits on the length of names. *)
Module os.
Section Tree.
Variable bytes : Type.

Inductive node : Type :=
  | File (content : bytes)
  | Dir (entries : list (string * node)).

Fixpoint lookup (k : string) (es : list (string * node)) : option node :=
  match es with
  | [] => None
  | e :: rest => if String.eqb (fst e) k then Some (snd e) else lookup k rest
  end.

(** Replace the entry named [k], or add it after the others. *)
Fixpoint update (k : string) (x : node) (es : list (string * node))
  : list (string * node) :=
  match es with
  | [] => [(k, x)]
  | e :: rest =>
      if String.eqb (fst e) k then (k, x) :: rest else e :: update k x rest
  end.

Fixpoint remove (k : string) (es : list (string * node)) : list (string * node) :=
  match es with
  | [] => []
  | e :: rest => if String.eqb (fst e) k then rest else e :: remove k rest
  end.

(** The node at a path given by its components. *)
Fixpoint get (n : node) (p : list string) : option node :=
  match p with
  | [] => Some n
  | c :: rest =>
      match n with
      | Dir es =>
          match lookup c es with
          | Some m => get m rest
          | None => None
          end
      | File _ => None
      end
  end.

(** Put [x] at path [p], whose parent has to be a directory. *)
Fixpoint put (n : node) (p : list string) (x : node) : option node :=
  match p with
  | [] => Some x
  | c :: rest =>
      match n with
      | Dir es =>
          match rest with
          | [] => Some (Dir (update c x es))
          | _ :: _ =>
              match lookup c es with
              | Some m =>
                  match put m rest x with
                  | Some m' => Some (Dir (update c m' es))
                  | None => None
                  end
              | None => None
              end
          end
      | File _ => None
      end
  end.

(** Take the entry at path [p] away. *)
Fixpoint del (n : node) (p : list string) : option node :=
  match p with
  | [] => None
  | c :: rest =>
      match n with
      | Dir es =>
          match rest with
          | [] => Some (Dir (remove c es))
          | _ :: _ =>
              match lookup c es with
              | Some m =>
                  match del m rest with
                  | Some m' => Some (Dir (update c m' es))
                  | None => None
                  end
              | None => None
              end
          end
      | File _ => None
      end
  end.

(** [os.path.isdir] on a path given by its components. *)
Definition is_dir (n : node) (p : list string) : bool :=
  match get n p with
  | Some (Dir _) => true
  | _ => false
  end.

Definition is_dot (c : string) : bool := String.eqb c "" || String.eqb c ".".
Definition is_dotdot (c : string) : bool := String.eqb c "..".

(** Path resolution, component by component: before a component is
    looked at, the path reached so far has to be a directory; an empty
    component and [.] stay, [..] goes to the parent (the root is its own
    parent).  The last component need not exist. *)
Fixpoint walk (root : node) (cur : list string) (comps : list string)
  : result (list string) :=
  match comps with
  | [] => Ok cur
  | c :: rest =>
      match get root cur with
      | Some (Dir _) =>
          if is_dot c then walk root cur rest
          else if is_dotdot c then walk root (removelast cur) rest
          else walk root (cur ++ [c]) rest
      | Some (File _) => Raise NotADirectoryError
      | None => Raise FileNotFoundError
      end
  end.

(** A path string with a NUL character is refused ([ValueError]). *)
Definition resolve (root : node) (path : string) : result (list string) :=
  if Py.has_char Py.NUL path then Raise ValueError
  else walk root [] (Py.split "/" path).

(** [os.path.exists(path)]: [False] also when the path cannot be
    resolved. *)
Definition path_exists (root : node) (path : string) : bool :=
  match resolve root path with
  | Ok p =>
      match get root p with
      | Some _ => true
      | None => false
      end
  | Raise _ => false
  end.

(** [os.path.isfile(path)]: [True] for a regular file, [False] for
    anything else, also when the path cannot be resolved. *)
Definition isfile (root : node) (path : string) : bool :=
  match resolve root path with
  | Ok p =>
      match get root p with
      | Some (File _) => true
      | _ => false
      end
  | Raise _ => false
  end.

(** [open(path, "rb")] and the reading of the whole file. *)
Definition read_file (root : node) (path : string) : result bytes :=
  match resolve root path with
  | Ok p =>
      match get root p with
      | Some (File content) => Ok content
      | Some (Dir _) => Raise IsADirectoryError
      | None => Raise FileNotFoundError
      end
  | Raise e => Raise e
  end.

(** [open(path, "wb")], the writing of [content] and the closing: the file
    is created or replaced. *)
Definition write_file (root : node) (path : string) (content : bytes)
  : result node :=
  match resolve root path with
  | Ok p =>
      match get root p with
      | Some (Dir _) => Raise IsADirectoryError
      | _ =>
          match put root p (File content) with
          | Some root' => Ok root'
          | None => Raise FileNotFoundError
          end
      end
  | Raise e => Raise e
  end.

(** [os.makedirs(path, exist_ok=True)] for a path of plain names: every
    missing directory on the way is created. *)
Fixpoint makedirs_from (root : node) (cur : list string) (comps : list string)
  : result node :=
  match comps with
  | [] => Ok root
  | c :: rest =>
      match get root (cur ++ [c]) with
      | Some (Dir _) => makedirs_from root (cur ++ [c]) rest
      | Some (File _) =>
          match rest with
          | [] => Raise FileExistsError
          | _ :: _ => Raise NotADirectoryError
          end
      | None =>
          match put root (cur ++ [c]) (Dir []) with
          | Some root' => makedirs_from root' (cur ++ [c]) rest
          | None => Raise NotADirectoryError
          end
      end
  end.

Definition makedirs (root : node) (path : string) : result node :=
  makedirs_from root [] (Py.split "/" path).

Fixpoint is_prefix (p q : list string) : bool :=
  match p, q with
  | [], _ => true
  | _ :: _, [] => false
  | a :: p', b :: q' => String.eqb a b && is_prefix p' q'
  end.

(** [os.rename(src, dst)]: a regular file replaces a regular file or takes
    a free name; a directory moves with what it holds, to a free name or
    onto an empty directory, and not into itself.  A source that ends in
    [.] or [..] is refused. *)
Definition rename (root : node) (src dst : string) : result node :=
  match resolve root src, resolve root dst with
  | Raise e, _ => Raise e
  | _, Raise e => Raise e
  | Ok p, Ok q =>
      let last := List.last (Py.split "/" src) EmptyString in
      if String.eqb last "." || String.eqb last ".." then Raise OSError
      else
        match get root p with
        | None => Raise FileNotFoundError
        | Some (File content) =>
            match get root q with
            | Some (Dir _) => Raise IsADirectoryError
            | _ =>
                if list_eq_dec string_dec p q then Ok root
                else
                  match del root p with
                  | Some root1 =>
                      match put root1 q (File content) with
                      | Some root2 => Ok root2
                      | None => Raise FileNotFoundError
                      end
                  | None => Raise OSError
                  end
            end
        | Some (Dir es) =>
            if list_eq_dec string_dec p q then Ok root
            else if is_prefix p q then Raise OSError
            else
              match get root q with
              | Some (File _) => Raise NotADirectoryError
              | Some (Dir (_ :: _)) => Raise OSError
              | _ =>
                  match del root p with
                  | Some root1 =>
                      match put root1 q (Dir es) with
                      | Some root2 => Ok root2
                      | None => Raise FileNotFoundError
                      end
                  | None => Raise OSError
                  end
              end
        end
  end.

(** [Path(dir).glob("*" + suffix)]: the names in [dir] that end in
    [suffix], in the directory's enumeration order; nothing when [dir] is
    no directory. *)
Definition glob_suffix (root : node) (dir : list string) (suffix : string)
  : list string :=
  match get root dir with
  | Some (Dir es) => filter (fun n => Py.endswith n suffix) (map fst es)
  | _ => []
  end.

End Tree.

(** [PurePath(name).stem]: the name without its last suffix; a suffix
    starts at the last dot when that dot is neither the first nor the last
    character of the name. *)
Definition stem (name : string) : string :=
  match Py.rfind "." name with
  | Some i =>
      if (0 <? i)%nat && (i <? String.length name - 1)%nat
      then substring 0 i name
      else name
  | None => name
  end.

End os.
Arguments os.File {bytes} content.
Arguments os.Dir {bytes} entries.

(* ------------------------------------------------------------------ *)
(** * The process: its state and the calls that change it               *)
(* ------------------------------------------------------------------ *)

(** What the program gets from outside: the contents of files (never
    looked into by the program itself), pickle, the random UUIDs and the
    client of the generative model. *)
Class Externals {PF : PyFloat} : Type := {
  bytes : Type;
  (** [pickle.dump] and [pickle.load] ([None]: the load raises) *)
  pickle_dumps : Company -> bytes;
  pickle_loads : bytes -> option Company;
  (** the 128-bit value of the [n]-th call of [uuid.uuid4()] *)
  uuid4 : nat -> N;
  (** [client.files.upload] on the contents of the file *)
  UploadedFile : Type;
  files_upload : bytes -> result UploadedFile;
  (** [client.models.generate_content]: the decoded text of the response,
      [None] when the text is no JSON *)
  generate_content : UploadedFile -> result (option json)
}.

Module uuid.

Definition hex_digit (n : N) : ascii :=
  nth (N.to_nat n)
    ["0"; "1"; "2"; "3"; "4"; "5"; "6"; "7"; "8"; "9"; "a"; "b"; "c"; "d"; "e"; "f"]%char
    "0"%char.

(** The last [k] hexadecimal digits of [n]. *)
Fixpoint hex (k : nat) (n : N) : string :=
  match k with
  | O => EmptyString
  | S k' => append (hex k' (n / 16)%N) (String (hex_digit (n mod 16)%N) EmptyString)
  end.

(** [str(u)] of a UUID: 8-4-4-4-12 hexadecimal digits. *)
Definition str (u : N) : string :=
  let h := hex 32 u in
  Py.join "-" [substring 0 8 h; substring 8 4 h; substring 12 4 h;
               substring 16 4 h; substring 20 12 h].

End uuid.

Section Process.
Context {PF : PyFloat} {PD : Pydantic} {EX : Externals}.

(** The state of the running server: the files, how many UUIDs were
    drawn, the extraction threads started and not yet run (by the
    identifier each was started with), and the clipboard.  The debug
    output on the console is not kept. *)
Record World : Type := {
  fs : os.node bytes;
  uuid_calls : nat;
  threads : list string;
  clipboard : option string
}.

(** A call: from a state to an outcome and the state it leaves (what was
    done before an exception stays done). *)
Definition M (A : Type) : Type := World -> result A * World.

Definition ret {A : Type} (a : A) : M A := fun w => (Ok a, w).
Definition raise {A : Type} (e : Exception) : M A := fun w => (Raise e, w).
Definition bind {A B : Type} (m : M A) (k : A -> M B) : M B :=
  fun w =>
    match m w with
    | (Ok a, w') => k a w'
    | (Raise e, w') => (Raise e, w')
    end.

Notation "x <- c ;; k" := (bind c (fun x => k))
  (at level 61, c at next level, right associativity).
Notation "c ;;; k" := (bind c (fun _ => k))
  (at level 61, right associativity).

Definition lift {A : Type} (r : result A) : M A := fun w => (r, w).

Definition with_fs (w : World) (root : os.node bytes) : World :=
  {| fs := root; uuid_calls := uuid_calls w; threads := threads w;
     clipboard := clipboard w |}.

Definition os_path_exists (path : string) : M bool :=
  fun w => (Ok (os.path_exists bytes (fs w) path), w).

Definition open_rb_read (path : string) : M bytes :=
  fun w => (os.read_file bytes (fs w) path, w).

Definition change_fs (op : os.node bytes -> result (os.node bytes)) : M unit :=
  fun w =>
    match op (fs w) with
    | Ok root => (Ok tt, with_fs w root)
    | Raise e => (Raise e, w)
    end.

Definition open_wb_write (path : string) (content : bytes) : M unit :=
  change_fs (fun root => os.write_file bytes root path content).

Definition os_makedirs (path : string) : M unit :=
  change_fs (fun root => os.makedirs bytes root path).

Definition os_rename (src dst : string) : M unit :=
  change_fs (fun root => os.rename bytes root src dst).

Definition uuid_uuid4 : M N :=
  fun w => (Ok (uuid4 (uuid_calls w)),
            {| fs := fs w; uuid_calls := S (uuid_calls w); threads := threads w;
               clipboard := clipboard w |}).

Definition pyperclip_copy (text : string) : M unit :=
  fun w => (Ok tt,
            {| fs := fs w; uuid_calls := uuid_calls w; threads := threads w;
               clipboard := Some text |}).

Definition os_path_isfile (path : string) : M bool :=
  fun w => (Ok (os.isfile bytes (fs w) path), w).

(** [client.files.upload(file=file_path)]: the client first asks
    [os.path.isfile(file_path)] and raises [FileNotFoundError] for
    anything that is no regular file; then the file is read and sent. *)
Definition client_files_upload (file_path : string) : M UploadedFile :=
  is_file <- os_path_isfile file_path ;;
  if is_file then
    content <- open_rb_read file_path ;;
    lift (files_upload content)
  else raise FileNotFoundError.

Definition client_models_generate_content (doc : UploadedFile) : M (option json) :=
  lift (generate_content doc).

(** [pickle.load(f)]; the classes of the exceptions that pickle raises
    are not told apart. *)
Definition pickle_load (content : bytes) : M Company :=
  match pickle_loads content with
  | Some c => ret c
  | None => raise UnpicklingError
  end.

(** Lines 116-122 of [extract_company_data]: the snapshot of [company]
    is written under the identifier [company_id]. *)
Definition save_company (company_id : string) (company : Company) : M unit :=
  os_makedirs "data/pkl" ;;;
  let filename_pkl := append "data/pkl/" (append company_id ".pkl") in
  open_wb_write filename_pkl (pickle_dumps company).

(** The body of [extract_company_data] (lines 106-124), as the thread
    runs it.  [response.parsed] is [None] for a response that does not
    validate, and [None.model_dump()] raises [AttributeError]. *)
Definition extract_company_data (company_id : string) : M string :=
  let file_path := append "data/pdf/" (append company_id ".pdf") in
  doc <- client_files_upload file_path ;;
  response <- client_models_generate_content doc ;;
  let company_base := parsed response in
  match company_base with
  | None => raise AttributeError
  | Some cb =>
      let company := {| company_base := cb; id := company_id |} in
      save_company company_id company ;;;
      ret company_id
  end.

(** The call [extract_company_data(company_id)] under [@threaded]: a
    thread is started and the call returns. *)
Definition threaded_extract_company_data (company_id : string) : M unit :=
  fun w => (Ok tt,
            {| fs := fs w; uuid_calls := uuid_calls w;
               threads := threads w ++ [company_id];
               clipboard := clipboard w |}).

(** [get_company_list] (lines 228-242). *)
Fixpoint load_entries (names : list string) : M (list (string * string)) :=
  match names with
  | [] => ret []
  | pkl_file :: rest =>
      content <- open_rb_read (append "data/pkl/" pkl_file) ;;
      company <- pickle_load content ;;
      company_data <- load_entries rest ;;
      ret ((value (name (company_base company)),
            append "/company/" (os.stem pkl_file)) :: company_data)
  end.

Definition get_company_list : M (list (string * string)) :=
  fun w => load_entries (os.glob_suffix bytes (fs w) ["data"; "pkl"] ".pkl") w.

(** [company(company_id)] (lines 244-257). *)
Definition company (company_id : string) : M Company :=
  content <- open_rb_read (append "data/pkl/" (append company_id ".pkl")) ;;
  pickle_load content.

Definition TextT_info : string := "TextT.info".
Definition TextT_error : string := "TextT.error".
Definition TextT_muted : string := "TextT.muted".
Definition TextT_success : string := "TextT.success".
Definition ButtonT_primary : string := "ButtonT.primary".

(** The two answers of [extract_company_data_status]. *)
Definition extraction_complete (company_id : string) : FT :=
  Tag "Div" [P "Extraction complete" TextT_info]
    [("id", "file-status");
     ("hx_get", append "/company/" company_id);
     ("hx_target", "body");
     ("hx_swap", "outerHTML");
     ("hx_trigger", "load")].

Definition extracting_data (company_id : string) : FT :=
  Tag "Div"
    [Tag "DivLAligned"
       [Tag "Loading" [] [("size", "20")]; P "Extracting data..." TextT_info] []]
    [("id", "file-status");
     ("hx_get", append "/extract-company-data/" company_id);
     ("hx_target", "#file-status");
     ("hx_swap", "innerHTML");
     ("hx_trigger", "every 5s")].

(** [extract_company_data_status] (lines 421-439). *)
Definition extract_company_data_status (company_id : string) : M FT :=
  complete <- os_path_exists (append "data/pkl/" (append company_id ".pkl")) ;;
  if complete then ret (extraction_complete company_id)
  else ret (extracting_data company_id).

(** [get] of the route [/extract-company-data/{company_id}] (lines 441-443). *)
Definition get_extract_company_data (company_id : string) : M FT :=
  extract_company_data_status company_id.

Definition file_status (text cls : string) : FT :=
  Tag "Div" [P text cls] [("id", "file-status")].

(** [handle_file_select] (lines 352-389), on the form field [pdf-file]:
    the name and the contents of the upload, if there is one. *)
Definition handle_file_select (file : option (string * bytes)) : M (list FT) :=
  match file with
  | None => ret [file_status "No file selected" TextT_muted]
  | Some (filename, file_content) =>
      if String.eqb filename "" then ret [file_status "No file selected" TextT_muted]
      else
        let temp_path := append "data/temp/" filename in
        os_makedirs "data/temp" ;;;
        open_wb_write temp_path file_content ;;;
        ret [ file_status (append "Selected file: " filename) TextT_success;
              Tag "Button" [Text "Start extraction"]
                [("id", "extraction-button");
                 ("cls", ButtonT_primary);
                 ("disabled", "False");
                 ("hx_post", append "/extract?filename=" filename);
                 ("hx_target", "#file-status");
                 ("hx_swap_oob", "true")] ]
  end.

(** [handle_extraction] (lines 391-419), on the query parameter
    [filename]. *)
Definition handle_extraction (filename : option string) : M FT :=
  match filename with
  | None => ret (file_status "Error: No file specified" TextT_error)
  | Some filename =>
      if String.eqb filename ""
      then ret (file_status "Error: No file specified" TextT_error)
      else
        let file_path := append "data/temp/" filename in
        found <- os_path_exists file_path ;;
        if negb found then ret (file_status "Error: File not found" TextT_error)
        else
          u <- uuid_uuid4 ;;
          let company_id := Py.replace_char "-" "" (uuid.str u) in
          let filename_pdf := append "data/pdf/" (append company_id ".pdf") in
          os_makedirs "data/pdf" ;;;
          os_rename file_path filename_pdf ;;;
          threaded_extract_company_data company_id ;;;
          extract_company_data_status company_id
  end.

(** What [getattr(company, field_name)] can be. *)
Inductive attribute : Type :=
  | AValueField (f : ValueField)
  | ATopManagement (t : TopManagement)
  | AFinancials (f : Financials)
  | AStr (s : string).

Definition getattr (c : Company) (field_name : string) : result attribute :=
  let b := company_base c in
  if String.eqb field_name "name" then Ok (AValueField (name b))
  else if String.eqb field_name "description" then Ok (AValueField (description b))
  else if String.eqb field_name "strategy" then Ok (AValueField (strategy b))
  else if String.eqb field_name "business_model" then Ok (AValueField (business_model b))
  else if String.eqb field_name "market" then Ok (AValueField (market b))
  else if String.eqb field_name "clients" then Ok (AValueField (clients b))
  else if String.eqb field_name "products" then Ok (AValueField (products b))
  else if String.eqb field_name "top_management" then Ok (ATopManagement (top_management b))
  else if String.eqb field_name "financials" then Ok (AFinancials (financials b))
  else if String.eqb field_name "id" then Ok (AStr (id c))
  else Raise AttributeError.

Definition check_icon (field_name : string) : FT :=
  Tag "UkIcon" [Text "check"]
    [("height", "15"); ("width", "15");
     ("hx_get", append "/restore-icon/" field_name);
     ("hx_target", append "#copy-button-" field_name);
     ("hx_swap", "innerHTML");
     ("hx_trigger", "load delay:1s")].

(** [get] of the route [/copy/{company_id}/{field_name}] (lines 445-454). *)
Definition get_copy (company_id field_name : string) : M FT :=
  c <- company company_id ;;
  field <- lift (getattr c field_name) ;;
  value <- lift (match field with
                 | AFinancials f => format_for_excel_clipboard (data (financial_data f))
                 | AValueField f => Ok (value f)
                 | ATopManagement _ => Raise AttributeError
                 | AStr _ => Raise AttributeError
                 end) ;;
  pyperclip_copy value ;;;
  ret (check_icon field_name).

(** What happens to the server, one event at a time: a request is
    answered, or one of the started threads runs to its end. *)
Inductive event : Type :=
  | POST_upload_file (file : option (string * bytes))
  | POST_extract (filename : option string)
  | GET_extract_company_data (company_id : string)
  | GET_company (company_id : string)
  | GET_company_list
  | GET_copy (company_id field_name : string)
  | thread_runs (n : nat).

Definition after {A : Type} (m : M A) (w : World) : World := snd (m w).

Definition run_thread (n : nat) (w : World) : World :=
  match nth_error (threads w) n with
  | None => w
  | Some company_id =>
      after (extract_company_data company_id)
        {| fs := fs w; uuid_calls := uuid_calls w;
           threads := firstn n (threads w) ++ skipn (S n) (threads w);
           clipboard := clipboard w |}
  end.

Definition step (e : event) (w : World) : World :=
  match e with
  | POST_upload_file file => after (handle_file_select file) w
  | POST_extract filename => after (handle_extraction filename) w
  | GET_extract_company_data company_id =>
      after (get_extract_company_data company_id) w
  | GET_company company_id => after (company company_id) w
  | GET_company_list => after get_company_list w
  | GET_copy company_id field_name => after (get_copy company_id field_name) w
  | thread_runs n => run_thread n w
  end.

Definition run (events : list event) (w : World) : World :=
  fold_left (fun w e => step e w) events w.

(** The answer of the status query in a state. *)
Definition status (w : World) (company_id : string) : result FT :=
  fst (extract_company_data_status company_id w).

End Process.

(* ------------------------------------------------------------------ *)
(** * The pages                                                          *)
(* ------------------------------------------------------------------ *)

(** In the trees below a child that is an object with [__ft__] (an
    employee, a financial data, a company) stands as what its [__ft__]
    returns, a tuple of children stands as its members, and a keyword
    whose value is a component ([brand]) is kept as a child. *)

Definition quality_str (q : Quality) : string :=
  match q with
  | high => "high"
  | medium => "medium"
  | low => "low"
  end.

(** [quality_indicator] (lines 152-157). *)
Definition quality_indicator (field : ExtractedData) : FT :=
  Tag "Div" []
    [("cls", append "w-3 h-3 rounded-full "
               (match quality field with
                | high => "bg-green-500"
                | medium => "bg-orange-500"
                | low => "bg-red-500"
                end));
     ("uk-tooltip", append "title: AI extraction confidence: "
                      (append (quality_str (quality field)) "; pos: top"))].

(** [Employee.__ft__] (lines 126-138). *)
Definition Employee__ft__ (self : Employee) : FT :=
  Tag "Card"
    [ Tag "Div"
        [ Tag "DivFullySpaced"
            [ Tag "H4" [Text (employee_name self)] [];
              quality_indicator (employee_extracted self) ] [];
          P (employee_role self) "italic" ] [];
      Tag "P" [Text (employee_description self)] [] ]
    [("cls", "mt-4 rounded-lg")].

Definition copy_icon : FT :=
  Tag "UkIcon" [Text "copy"] [("height", "15"); ("width", "15")].

(** [copy_button] (lines 314-315). *)
Definition copy_button (company_id field_name : string) : FT :=
  Tag "Button" [copy_icon]
    [("id", append "copy-button-" field_name);
     ("cls", "uk-btn-ghost p-2 rounded-lg");
     ("hx_get", append "/copy/" (append company_id (append "/" field_name)));
     ("hx_target", append "#copy-button-" field_name);
     ("hx_swap", "innerHTML")].

(** [get] of the route [/restore-icon/{field_name}] (lines 456-458). *)
Definition get_restore_icon (field_name : string) : FT := copy_icon.

(** A card of [Company.__ft__]: the heading with its copy button, the
    quality indicator, and the body. *)
Definition field_card (company_id heading field_name : string)
    (extracted : ExtractedData) (body : FT) : FT :=
  Tag "Card"
    [ Tag "DivFullySpaced"
        [ Tag "DivHStacked"
            [Tag "H3" [Text heading] []; copy_button company_id field_name] [];
          quality_indicator extracted ] [];
      body ]
    [("cls", "mt-4 rounded-lg")].

Section Pages.
Context {PF : PyFloat}.

(** [Company.__ft__] (lines 159-209). *)
Definition Company__ft__ (self : Company) : FT :=
  let b := company_base self in
  let title := Tag "H2" [Text (value (name b))] [("cls", "mt-4")] in
  let company_id := id self in
  let main :=
    [ field_card company_id "Description" "description"
        (value_extracted (description b))
        (Tag "Div"
           [Text (append (value (description b))
                    (append " (See pages: "
                       (append (Py.join ", "
                                  (map Py.str_int (pages (value_extracted (description b)))))
                               ")")))] []);
      field_card company_id "Business Model" "business_model"
        (value_extracted (business_model b))
        (Tag "Div" [Text (value (business_model b))] []);
      field_card company_id "Market" "market"
        (value_extracted (market b))
        (Tag "Div" [Text (value (market b))] []);
      field_card company_id "Clients" "clients"
        (value_extracted (clients b))
        (Tag "Div" [Text (value (clients b))] []);
      field_card company_id "Products" "products"
        (value_extracted (products b))
        (Tag "Div" [Text (value (products b))] []);
      Tag "Card"
        [ Tag "H3" [Text "Top Management"] [];
          Tag "Grid" (map Employee__ft__ (employees (top_management b)))
            [("cols_max", "3")] ]
        [("cls", "mt-4 rounded-lg")];
      field_card company_id "Financial Data" "financials"
        (financial_data_extracted (financial_data (financials b)))
        (Tag "Div" [FinancialData__ft__ (financial_data (financials b))] []) ] in
  Tag "Titled" (title :: main) [].

End Pages.

(** [clickable_logo] (lines 217-226). *)
Definition clickable_logo : FT :=
  Tag "A"
    [Tag "Img" []
       [("src", "/assets/images/aipe_logo_white.svg");
        ("alt", "AIPE Logo");
        ("cls", "h-8 w-auto")]]
    [("href", "/"); ("cls", "no-underline")].

(** [navbar] (lines 293-306). *)
Definition navbar : FT :=
  let toggle_button :=
    Tag "Button" [Tag "UkIcon" [Text "menu"] [("height", "30"); ("width", "30")]]
      [("cls", "ButtonT.primary uk-light"); ("uk_toggle", "target: #sidebar-nav")] in
  Tag "NavBar" [Tag "DivLAligned" [toggle_button; clickable_logo] []]
    [("cls", "bg-primary text-white")].

(** The item of the sidebar for one company of the list. *)
Definition company_item (entry : string * string) : FT :=
  Tag "Li" [Tag "A" [Text (fst entry)] [("href", snd entry)]] [].

Definition add_button : FT :=
  Tag "Li"
    [Tag "A"
       [Tag "DivLAligned"
          [Tag "UkIcon" [Text "circle-plus"] []; Tag "P" [Text "Add New"] []] []]
       [("href", "/company/new"); ("cls", "hover:text-primary")]]
    [].

(** The sidebar around its items. *)
Definition sidebar_of (company_items : list FT) : FT :=
  Tag "Div"
    [Tag "Div"
       [Tag "NavContainer"
          (Tag "NavHeaderLi" [Tag "H3" [Text "Companies"] []] [] :: company_items)
          [("cls", "NavT.secondary")]]
       [("cls", "uk-offcanvas-bar mt-16")]]
    [("id", "sidebar-nav"); ("uk_offcanvas", "mode: slide")].

(** [upload] (lines 317-350). *)
Definition upload : FT :=
  Tag "Div"
    [ Tag "Form"
        [Tag "UploadZone"
           [Tag "DivCentered"
              [Tag "Span" [Text "Upload Zone"] []; Tag "UkIcon" [Text "upload"] []] []]
           [("accept", ".pdf");
            ("name", "pdf-file");
            ("id", "upload-zone");
            ("hx_post", "/upload-file");
            ("hx_target", "#file-status");
            ("hx_trigger", "change")]]
        [("method", "POST");
         ("enctype", "multipart/form-data");
         ("hx_encoding", "multipart/form-data");
         ("id", "upload-form")];
      Tag "Div" [P "No file selected" "TextT.muted"] [("id", "file-status")];
      Tag "DivCentered"
        [Tag "Button" [Text "Start extraction"]
           [("type", "submit");
            ("id", "extraction-button");
            ("cls", "ButtonT.primary");
            ("disabled", "True")]]
        [("cls", "mt-4")] ]
    [("cls", "mt-4")].

Section Routes.
Context {PF : PyFloat} {PD : Pydantic} {EX : Externals}.

(** [company_sidebar] (lines 259-291). *)
Definition company_sidebar : M FT :=
  bind get_company_list (fun companies =>
  let company_items := map company_item companies in
  ret (sidebar_of (company_items ++ [add_button]))).

(** [nav] (lines 308-312). *)
Definition nav : M (list FT) :=
  bind company_sidebar (fun sidebar => ret [navbar; sidebar]).

(** [index] (lines 460-490). *)
Definition index : M (list FT) :=
  bind nav (fun n =>
  ret (n ++
       [Tag "Container"
          [ Tag "Div"
              [ Tag "H1" [Text "DataExtractPro"]
                  [("cls", "text-4xl font-bold text-primary text-center")];
                Tag "H3" [Text "Automated Company Information Extraction"]
                  [("cls", "text-xl text-gray-600 text-center mt-2")] ]
              [("cls", "mt-8 mb-6")];
            Tag "Img" []
              [("src", "/assets/images/cover_page.jpeg");
               ("alt", "Cover Image");
               ("cls", "w-3/4 mx-auto mt-4 rounded-lg shadow-lg")];
            Tag "DivCentered"
              [Tag "A"
                 [Tag "Button"
                    [Tag "DivLAligned"
                       [Tag "UkIcon" [Text "circle-plus"] [];
                        Tag "P" [Text "Create New Company"] []] []]
                    [("cls", "ButtonT.primary")]]
                 [("href", "/company/new"); ("cls", "no-underline mt-8")]]
              [] ]
          [("cls", "mx-auto max-w-5xl")]])).

(** [new_company] (lines 492-494). *)
Definition new_company : M (list FT) :=
  bind nav (fun n =>
  ret (n ++
       [Tag "Container"
          [ Tag "DivCentered"
              [ Tag "H3" [Text "Data Extraction"] [("cls", "mt-4")];
                P "Upload a pdf file (like an annual report or a CIM) and click on 'Start Extraction' to start the extraction process." "mt-4" ]
              [];
            upload ]
          [("cls", "mx-auto max-w-5xl")]])).

(** [company_page] (lines 496-498): the navigation is built first. *)
Definition company_page (company_id : string) : M (list FT) :=
  bind nav (fun n =>
  bind (company company_id) (fun c =>
  ret (n ++ [Tag "Container" [Company__ft__ c] [("cls", "mx-auto max-w-5xl")]]))).

End Routes.

(* ------------------------------------------------------------------ *)
(** * Vocabulary of the statements                                       *)
(* ------------------------------------------------------------------ *)

Definition children (t : FT) : list FT :=
  match t with
  | Tag _ cs _ => cs
  | Text _ => []
  end.

(** The cell in row [r] and column [c] of a rendered table. *)
Definition cell_at (t : FT) (r c : nat) : option FT :=
  match nth_error (children t) r with
  | Some row => nth_error (children row) c
  | None => None
  end.

Inductive Metric : Type := Revenue | EBITDA | Margin | Debt.

Section Vocabulary.
Context {PF : PyFloat}.

Definition metric_value (m : Metric) : FinancialMetrics -> option float :=
  match m with
  | Revenue => revenue
  | EBITDA => ebitda
  | Margin => margin
  | Debt => debt
  end.

(** The row of a metric in the display table (row 0 is the header). *)
Definition metric_row_index (m : Metric) : nat :=
  match m with
  | Revenue => 1
  | EBITDA => 2
  | Margin => 3
  | Debt => 4
  end.

(** The years of the columns of the display table. *)
Definition column_years (fd : FinancialData) : list Z :=
  Py.sorted (Py.set (map year (data fd))).

(** Tab-separated text of a grid of fields, as the specification words
    the export: one line a row, the fields of a row separated by tabs. *)
Definition spec_tsv (grid : list (list string)) : string :=
  String.concat EmptyString
    (map (fun fields => append (Py.join Py.TAB fields) Py.LF) grid).

(** An absent value is the empty string. *)
Definition spec_export_cell (v : option float) : string :=
  match v with
  | Some x => if isnan x then EmptyString else str_float x
  | None => EmptyString
  end.

(** The grid of the export as the specification words it, less the
    currency: the years head the columns, one column a stored point, and
    the rows are the metrics and the type. *)
Definition spec_export_grid (points : list FinancialMetrics) : list (list string) :=
  [ EmptyString :: map (fun m => Py.str_int (year m)) points;
    "revenue" :: map (fun m => spec_export_cell (revenue m)) points;
    "ebitda" :: map (fun m => spec_export_cell (ebitda m)) points;
    "margin" :: map (fun m => spec_export_cell (margin m)) points;
    "debt" :: map (fun m => spec_export_cell (debt m)) points;
    "type" :: map (fun m => type_str (type m)) points ].

(** The texts of the metric values of a point. *)
Definition metric_strs (m : FinancialMetrics) : list string :=
  flat_map (fun v => match v with Some x => [str_float x] | None => [] end)
           [revenue m; ebitda m; margin m; debt m].

(** A text the csv writer leaves as it is in a tab-separated line. *)
Definition unquoted (s : string) : Prop :=
  pd.needs_quoting (ascii_of_nat 9) s = false.

(** The metric values of the points print without tab, quote or line
    break (as every Python float does). *)
Definition plain_floats (points : list FinancialMetrics) : Prop :=
  Forall (fun m => Forall unquoted (metric_strs m)) points.

End Vocabulary.

Definition attributes (t : FT) : list (string * string) :=
  match t with
  | Tag _ _ attrs => attrs
  | Text _ => []
  end.

(** A name that can be the name of a file: no separator, no NUL. *)
Definition plain (s : string) : bool :=
  negb (Py.has_char "/" s) && negb (Py.has_char Py.NUL s).

Definition pkl_name (company_id : string) : string := append company_id ".pkl".
Definition pkl_path (company_id : string) : string :=
  append "data/pkl/" (append company_id ".pkl").

Section ProcessVocabulary.
Context {PF : PyFloat} {EX : Externals}.

(** The submission names no document, or none that is in [data/temp]. *)
Definition missing_document (root : os.node bytes) (filename : option string) : bool :=
  match filename with
  | None => true
  | Some f => String.eqb f "" || negb (os.path_exists bytes root (append "data/temp/" f))
  end.

(** The store can take a snapshot under [company_id]: [data] is a
    directory of the working directory, and [data/pkl] is not there yet or
    is a directory in which the name of the snapshot is not a directory. *)
Definition can_store (root : os.node bytes) (company_id : string) : Prop :=
  exists res des,
    root = os.Dir res /\
    os.lookup bytes "data" res = Some (os.Dir des) /\
    (os.lookup bytes "pkl" des = None \/
     exists es, os.lookup bytes "pkl" des = Some (os.Dir es) /\
                forall sub, os.lookup bytes (pkl_name company_id) es <> Some (os.Dir sub)).

(** The directory [data/pkl] holds the snapshots [snaps], identifier and
    company, in this order of enumeration, and nothing else. *)
Definition store_holds (root : os.node bytes) (snaps : list (string * Company)) : Prop :=
  os.get bytes root ["data"; "pkl"]
  = Some (os.Dir (map (fun ic => (pkl_name (fst ic), os.File (pickle_dumps (snd ic)))) snaps)).

(** The entries of the directory [data/pkl] whose names end in [.pkl]
    are the snapshots [snaps], identifier and company, in this order of
    enumeration; what else the directory holds is left open. *)
Definition store_lists (root : os.node bytes) (snaps : list (string * Company)) : Prop :=
  exists es,
    os.get bytes root ["data"; "pkl"] = Some (os.Dir es)
    /\ filter (fun e => Py.endswith (fst e) ".pkl") es
       = map (fun ic => (pkl_name (fst ic), os.File (pickle_dumps (snd ic)))) snaps.

(** What the specification says the list operation returns: the display
    name and the identifier of every snapshot. *)
Definition spec_list (snaps : list (string * Company)) : list (string * string) :=
  map (fun ic => (value (name (company_base (snd ic))), fst ic)) snaps.

End ProcessVocabulary.

(* ------------------------------------------------------------------ *)
(** * A concrete instance, for the examples                              *)
(* ------------------------------------------------------------------ *)

Module Demo.
Local Open Scope Z_scope.

(** The floats of integral value below 10^16 in magnitude (those of the
    examples of the specification), each given by its value: Python
    prints them as the digits of the integer followed by [.0], and none is
    a NaN. *)
Definition integral : PyFloat :=
  {| float := Z;
     str_float := fun z => append (Py.str_int z) ".0";
     isnan := fun _ => false |}.

(** The contents of a file: bytes as uploaded, or the pickle of a
    company, given by the company. *)
Inductive contents : Type :=
  | Raw (s : string)
  | Pickled (c : @Company integral).

(** Scalars: integer literals for [int] and [float], strings for [str]. *)
Definition integer_literal (j : json) : option Z :=
  match j with
  | JNumber literal =>
      match NilZero.int_of_string literal with
      | Some d => Some (Z.of_int d)
      | None => None
      end
  | _ => None
  end.

Definition pydantic : @Pydantic integral :=
  @Build_Pydantic integral integer_literal integer_literal
    (fun j => match j with JString s => Some s | _ => None end).

(** The client refuses an empty document and anything that is no upload;
    to every other document the model answers [response]. *)
Definition externals (response : result (option json)) : @Externals integral :=
  @Build_Externals integral
    contents
    Pickled
    (fun b => match b with Pickled c => Some c | Raw _ => None end)
    (fun n => (N.of_nat n + 81985529216486895)%N)
    string
    (fun b => match b with
              | Raw EmptyString => Raise ClientError
              | Raw s => Ok s
              | Pickled _ => Raise ClientError
              end)
    (fun _ => response).

Definition no_answer : @Externals integral := externals (Raise ClientError).

Definition extracted (ps : list Z) (q : Quality) : ExtractedData :=
  {| pages := ps; quality := q |}.

Definition field (ps : list Z) (q : Quality) (v : string) : ValueField :=
  {| value_extracted := extracted ps q; value := v |}.

Definition point (y : Z) (r e m d : option Z) (t : MetricType)
  : @FinancialMetrics integral :=
  @Build_FinancialMetrics integral y r e m d t.

Definition financial (points : list (@FinancialMetrics integral)) (cur : string)
  : @FinancialData integral :=
  @Build_FinancialData integral (extracted [12; 3] medium) points cur.

(** The example of the export: currency [USD m] and the one point
    (2022, revenue=50, ebitda=null, actual). *)
Definition usd_2022 : @FinancialData integral :=
  financial [point 2022 (Some 50) None None None actual] "USD m".

(** The example of the first-match rule. *)
Definition twice_2023 : @FinancialData integral :=
  financial [point 2023 (Some 100) None None None actual;
             point 2023 (Some 110) None None None forecast] "EUR".

(** The example of the header rule, in both orders. *)
Definition years_23_24 : @FinancialData integral :=
  financial [point 2023 (Some 100) None None None actual;
             point 2024 (Some 120) None None None forecast] "EUR".

Definition years_24_23 : @FinancialData integral :=
  financial [point 2024 (Some 120) None None None forecast;
             point 2023 (Some 100) None None None actual] "EUR".

Definition acme_base (fd : @FinancialData integral) : @CompanyBase integral :=
  @Build_CompanyBase integral
    (field [0] high "Acme")
    (field [1; 2] medium "Makes anvils.")
    (field [] low "Growth")
    (field [4] high "Sales")
    (field [5] medium "Deserts")
    (field [6] low "Coyotes")
    (field [7; 7] high "Anvils")
    {| employees := [ {| employee_extracted := extracted [9] high;
                         employee_name := "W. E. Coyote";
                         employee_role := "CEO";
                         employee_description := "Founder" |} ];
       top_management_pages := [9] |}
    (@Build_Financials integral fd).

Definition acme (company_id : string) : @Company integral :=
  @Build_Company integral (acme_base usd_2022) company_id.

Definition world (E : @Externals integral) (root : os.node (@bytes _ E))
  : @World integral E :=
  @Build_World integral E root 0%nat [] None.

(** The store holds the snapshot [abc], and [data/temp] is there. *)
Definition root_abc : os.node contents :=
  os.Dir [("data", os.Dir [("temp", os.Dir []);
                           ("pkl", os.Dir [("abc.pkl", os.File (Pickled (acme "abc")))])])].

(** A second company, named Zeta. *)
Definition zeta (company_id : string) : @Company integral :=
  @Build_Company integral
    (@Build_CompanyBase integral
       (field [1] high "Zeta")
       (field [] low "Sells clocks.")
       (field [] low "Hold")
       (field [] low "Retail")
       (field [] low "Towns")
       (field [] low "Commuters")
       (field [] low "Clocks")
       {| employees := []; top_management_pages := [] |}
       (@Build_Financials integral usd_2022))
    company_id.

(** The store enumerates the snapshot [zeta] before the snapshot [abc],
    and holds besides a text file, a directory and a file whose name only
    contains [.pkl]. *)
Definition root_mixed : os.node contents :=
  os.Dir [("data",
           os.Dir [("temp", os.Dir []);
                   ("pkl",
                    os.Dir [("notes.txt", os.File (Raw "to do"));
                            ("zeta.pkl", os.File (Pickled (zeta "zeta")));
                            ("old", os.Dir [("abc.pkl", os.File (Raw "junk"))]);
                            ("abc.pkl.bak", os.File (Raw "junk"));
                            ("abc.pkl", os.File (Pickled (acme "abc")))])])].

(** An upload [report.pdf] waits in [data/temp]; it is empty. *)
Definition root_empty_upload : os.node contents :=
  os.Dir [("data", os.Dir [("temp", os.Dir [("report.pdf", os.File (Raw ""))])])].

(** An upload [report.pdf] with some contents waits in [data/temp]. *)
Definition root_upload : os.node contents :=
  os.Dir [("data", os.Dir [("temp", os.Dir [("report.pdf", os.File (Raw "%PDF-1.7"))])])].

(** The identifier of the first submission. *)
Definition first_id : string :=
  Py.replace_char "-" "" (uuid.str (@uuid4 _ no_answer 0%nat)).

Definition jstr_list (l : list string) : json := JArray (map JNumber l).

Definition jfield (q : list (string * json)) (v : string) : json :=
  JObject ([("pages", jstr_list ["0"])] ++ q ++ [("value", JString v)]).

(** A response in which [name] has the quality [q] (as members of the
    object, so that the quality can be left out). *)
Definition response_with (q : list (string * json)) : json :=
  let ok := [("quality", JString "high")] in
  JObject
    [ ("name", jfield q "Acme");
      ("description", jfield ok "Makes anvils.");
      ("strategy", jfield ok "Growth");
      ("business_model", jfield ok "Sales");
      ("market", jfield ok "Deserts");
      ("clients", jfield ok "Coyotes");
      ("products", jfield ok "Anvils");
      ("top_management", JObject [("employees", JArray []); ("pages", jstr_list [])]);
      ("financials",
       JObject [("financial_data",
                 JObject [("pages", jstr_list ["3"]);
                          ("quality", JString "low");
                          ("data", JArray [JObject [("year", JNumber "2022");
                                                    ("revenue", JNumber "50");
                                                    ("type", JString "actual")]]);
                          ("currency", JString "USD m")])]) ].

(** The export of the example of the specification. *)
Definition usd_2022_export : string :=
  spec_tsv [ [""; "2022"]; ["revenue"; "50.0"]; ["ebitda"; ""]; ["margin"; ""];
             ["debt"; ""]; ["type"; "actual"] ].

(** The document of an extraction is in [data/pdf], and the model
    answers with a response in which [name] has no [quality]. *)
Definition root_pdf : os.node contents :=
  os.Dir [("data", os.Dir [("pdf", os.Dir [("job1.pdf", os.File (Raw "%PDF-1.7"))])])].

Definition answers_without_quality : @Externals integral :=
  externals (Ok (Some (response_with []))).

Definition answers_in_schema : @Externals integral :=
  externals (Ok (Some (response_with [("quality", JString "high")]))).

End Demo.

(* ------------------------------------------------------------------ *)
(** * More vocabulary                                                    *)
(* ------------------------------------------------------------------ *)

(** The identifier made of a UUID (line 410 of [handle_extraction]). *)
Definition minted (u : N) : string := Py.replace_char "-" "" (uuid.str u).

Definition hex_digits : string := "0123456789abcdef".

Module Fs.
Section Tree.
Variable bytes : Type.

(** [n'] has every path of [n], and every directory of [n] is still a
    directory in [n']. *)
Definition extends (n n' : os.node bytes) : Prop :=
  forall q, (os.is_dir bytes n q = true -> os.is_dir bytes n' q = true)
            /\ (os.get bytes n q <> None -> os.get bytes n' q <> None).

(** Directory, regular file, or nothing, at a path. *)
Definition kind (n : os.node bytes) (q : list string) : option bool :=
  match os.get bytes n q with
  | Some (os.Dir _) => Some true
  | Some (os.File _) => Some false
  | None => None
  end.

(** The two paths part at some component. *)
Fixpoint diverge (p q : list string) : bool :=
  match p, q with
  | a :: p', b :: q' => if String.eqb a b then diverge p' q' else true
  | _, _ => false
  end.

End Tree.
End Fs.

(** [l] is [l'] with some elements left out. *)
Inductive subseq {A : Type} : list A -> list A -> Prop :=
  | subseq_nil : subseq [] []
  | subseq_skip (x : A) (l l' : list A) : subseq l l' -> subseq l (x :: l')
  | subseq_keep (x : A) (l l' : list A) : subseq l l' -> subseq (x :: l) (x :: l').

Section MoreProcessVocabulary.
Context {PF : PyFloat} {PD : Pydantic} {EX : Externals}.

(** The other components of the state are the same. *)
Definition same_but_files (w w' : World) : Prop :=
  uuid_calls w' = uuid_calls w /\ threads w' = threads w /\ clipboard w' = clipboard w.

(** The state after the draw of an identifier. *)
Definition drew (w : World) (root : os.node bytes) (started : list string) : World :=
  {| fs := root; uuid_calls := S (uuid_calls w); threads := started;
     clipboard := clipboard w |}.

(** The store has an entry [<company_id>.pkl] in [data/pkl]. *)
Definition has_snapshot (root : os.node bytes) (company_id : string) : Prop :=
  os.get bytes root ["data"; "pkl"; pkl_name company_id] <> None.

(** The answer of the status query for the files [root]. *)
Definition status_view (root : os.node bytes) (company_id : string) : FT :=
  if os.path_exists bytes root (pkl_path company_id)
  then extraction_complete company_id
  else extracting_data company_id.

(** The state with [text] on the clipboard. *)
Definition copied (w : World) (text : string) : World :=
  {| fs := fs w; uuid_calls := uuid_calls w; threads := threads w;
     clipboard := Some text |}.

(** The names of the fields the copy route can serve. *)
Definition text_fields : list string :=
  ["name"; "description"; "strategy"; "business_model"; "market"; "clients";
   "products"].

(** The file name of a submission is a plain name. *)
Definition plain_submission (e : event) : bool :=
  match e with
  | POST_extract (Some f) => plain f
  | _ => true
  end.

(** The requests that only read. *)
Definition is_read (e : event) : bool :=
  match e with
  | GET_extract_company_data _ | GET_company _ | GET_company_list | GET_copy _ _ => true
  | _ => false
  end.

Definition is_submission (e : event) : bool :=
  match e with
  | POST_extract _ => true
  | _ => false
  end.

(** The identifiers of the first [n] draws, in the order of the draws. *)
Definition drawn (n : nat) : list string :=
  map (fun k => minted (uuid4 k)) (seq 0 n).

(** A company with another strategy. *)
Definition with_strategy (c : Company) (s : CompanyStrategy) : Company :=
  let b := company_base c in
  {| company_base :=
       {| name := name b; description := description b; strategy := s;
          business_model := business_model b; market := market b;
          clients := clients b; products := products b;
          top_management := top_management b; financials := financials b |};
     id := id c |}.

(** The company an extraction makes of a validated response. *)
Definition company_of (cb : CompanyBase) (company_id : string) : Company :=
  {| company_base := cb; id := company_id |}.

End MoreProcessVocabulary.

(* ------------------------------------------------------------------ *)
(** * More of the concrete instance                                      *)
(* ------------------------------------------------------------------ *)

Module MoreDemo.
Import Demo.

(** The store holds the snapshot [abc] and an upload waits. *)
Definition root_abc_upload : os.node contents :=
  os.Dir [("data", os.Dir [("temp", os.Dir [("report.pdf", os.File (Raw "%PDF-1.7"))]);
                           ("pkl", os.Dir [("abc.pkl", os.File (Pickled (acme "abc")))])])].

(** Beside the snapshot [abc] the store holds a file that is no pickle. *)
Definition root_bad_snapshot : os.node contents :=
  os.Dir [("data", os.Dir [("pkl", os.Dir [("abc.pkl", os.File (Pickled (acme "abc")));
                                           ("junk.pkl", os.File (Raw "junk"))])])].

(** The company of the examples with another strategy, other pages and
    another quality of the name. *)
Definition acme_rewritten : @Company integral :=
  @Build_Company integral
    (@Build_CompanyBase integral
       (field [40%Z] low "Acme")
       (field [1%Z; 2%Z] medium "Makes anvils.")
       (field [41%Z] high "Shrink")
       (field [42%Z] high "Sales")
       (field [] medium "Deserts")
       (field [43%Z; 44%Z] low "Coyotes")
       (field [] high "Anvils")
       {| employees := [ {| employee_extracted := extracted [9%Z] high;
                            employee_name := "W. E. Coyote";
                            employee_role := "CEO";
                            employee_description := "Founder" |} ];
          top_management_pages := [] |}
       (@Build_Financials integral usd_2022))
    "abc".

(** The members of a metric point with a null and with keys left out. *)
Definition point_members : list (string * json) :=
  [("year", JNumber "2022"); ("revenue", JNumber "0"); ("ebitda", JNull);
   ("type", JString "forecast")].

(** What happens in the examples: an upload, its submission, the run of
    its thread, and some reads. *)
Definition traffic : list (@event integral no_answer) :=
  [ @POST_upload_file integral no_answer (Some ("more.pdf", Raw "%PDF-1.4"));
    @POST_extract integral no_answer (Some "report.pdf");
    @POST_extract integral no_answer (Some "more.pdf");
    @thread_runs integral no_answer 0;
    @GET_company_list integral no_answer;
    @GET_copy integral no_answer "abc" "name";
    @GET_extract_company_data integral no_answer "abc" ].

Definition w_abc := world no_answer root_abc.
Definition w_abc_upload := world no_answer root_abc_upload.

Definition w_job : @World integral answers_in_schema :=
  world answers_in_schema root_pdf.

(** The state after the submission whose file name is [../pkl]: the
    directory of the store has been moved to [data/pdf/<id>.pdf]. *)
Definition w_store_submitted : @World integral no_answer :=
  @run integral pydantic no_answer [@POST_extract integral no_answer (Some "../pkl")] w_abc.

End MoreDemo.

(* ------------------------------------------------------------------ *)
(** * The display table: years, header marks and cells                  *)
(* ------------------------------------------------------------------ *)

Module SortedFacts.

Lemma insort_In (a x : Z) (l : list Z) :
  In x (Py.insort a l) <-> x = a \/ In x l.
Proof.
  induction l as [|b l IH]; simpl.
  - intuition.
  - destruct (a <=? b)%Z; simpl; rewrite ?IH; intuition.
Qed.

Lemma sorted_In (x : Z) (l : list Z) : In x (Py.sorted l) <-> In x l.
Proof.
  unfold Py.sorted. induction l as [|a l IH]; simpl.
  - tauto.
  - rewrite insort_In, IH. intuition.
Qed.

Lemma insort_ascending (a : Z) (l : list Z) :
  StronglySorted Z.lt l -> ~ In a l -> StronglySorted Z.lt (Py.insort a l).
Proof.
  induction l as [|b l IH]; simpl; intros Hs Hn.
  - repeat constructor.
  - inversion Hs as [|? ? Hl Hb]; subst.
    destruct (a <=? b)%Z eqn:E.
    + apply Z.leb_le in E.
      assert (a < b)%Z by (assert (b <> a) by tauto; lia).
      constructor; [assumption|].
      constructor; [assumption|].
      rewrite Forall_forall in *. intros y Hy. specialize (Hb y Hy). lia.
    + apply Z.leb_gt in E.
      constructor.
      * apply IH; tauto.
      * rewrite Forall_forall in *. intros y Hy.
        apply insort_In in Hy. destruct Hy as [->|Hy]; auto.
Qed.

Lemma sorted_ascending (l : list Z) :
  NoDup l -> StronglySorted Z.lt (Py.sorted l).
Proof.
  unfold Py.sorted. induction 1 as [|a l Hn Hd IH]; simpl.
  - constructor.
  - apply insort_ascending; [assumption|].
    intro Hin. apply Hn. apply (sorted_In a l). exact Hin.
Qed.

(** Two strictly ascending lists with the same elements are equal. *)
Lemma ascending_unique (l1 : list Z) :
  forall l2, StronglySorted Z.lt l1 -> StronglySorted Z.lt l2 ->
             (forall x, In x l1 <-> In x l2) -> l1 = l2.
Proof.
  induction l1 as [|a l1 IH]; intros [|b l2] H1 H2 Hiff.
  - reflexivity.
  - exfalso. apply (proj2 (Hiff b)). left; reflexivity.
  - exfalso. apply (proj1 (Hiff a)). left; reflexivity.
  - inversion H1 as [|? ? Hs1 Hf1]; inversion H2 as [|? ? Hs2 Hf2]; subst.
    rewrite Forall_forall in Hf1, Hf2.
    assert (a = b) as ->.
    { destruct (proj1 (Hiff a) (or_introl eq_refl)) as [E|Ha]; [congruence|].
      destruct (proj2 (Hiff b) (or_introl eq_refl)) as [E|Hb]; [congruence|].
      specialize (Hf1 b Hb). specialize (Hf2 a Ha). lia. }
    f_equal. apply IH; try assumption.
    intro x. split; intro Hx.
    + destruct (proj1 (Hiff x) (or_intror Hx)) as [E|Hx']; [|assumption].
      subst x. specialize (Hf1 b Hx). lia.
    + destruct (proj2 (Hiff x) (or_intror Hx)) as [E|Hx']; [|assumption].
      subst x. specialize (Hf2 b Hx). lia.
Qed.

Lemma years_In (l : list Z) (x : Z) : In x (Py.sorted (Py.set l)) <-> In x l.
Proof. rewrite sorted_In. unfold Py.set. apply nodup_In. Qed.

Lemma years_ascending (l : list Z) : StronglySorted Z.lt (Py.sorted (Py.set l)).
Proof. apply sorted_ascending. apply NoDup_nodup. Qed.

Lemma years_permutation (l l' : list Z) :
  Permutation l l' -> Py.sorted (Py.set l) = Py.sorted (Py.set l').
Proof.
  intro Hp. apply ascending_unique; try apply years_ascending.
  intro x. rewrite !years_In. split; apply Permutation_in; [|symmetry]; exact Hp.
Qed.

Lemma existsb_permutation {A : Type} (f : A -> bool) (l l' : list A) :
  Permutation l l' -> existsb f l = existsb f l'.
Proof.
  induction 1; simpl.
  - reflexivity.
  - now rewrite IHPermutation.
  - destruct (f x), (f y); reflexivity.
  - congruence.
Qed.

Lemma existsb_of_map {A B : Type} (f : B -> bool) (g : A -> B) (l : list A) :
  existsb f (map g l) = existsb (fun x => f (g x)) l.
Proof. induction l as [|a l IH]; simpl; [reflexivity | now rewrite IH]. Qed.

End SortedFacts.

Section Display.
Context {PF : PyFloat}.

Lemma any_forecast_iff (points : list FinancialMetrics) (y : Z) :
  Py.any (map (fun d => is_forecast (type d) && (year d =? y)%Z) points) = true
  <-> exists d, In d points /\ type d = forecast /\ year d = y.
Proof.
  unfold Py.any. rewrite existsb_exists. split.
  - intros [b [Hin Hb]]. subst b. apply in_map_iff in Hin.
    destruct Hin as [d [Hd Hin]]. exists d.
    apply andb_true_iff in Hd. destruct Hd as [Ht Hy].
    apply Z.eqb_eq in Hy. destruct (type d); simpl in Ht; try discriminate.
    auto.
  - intros [d [Hin [Ht Hy]]]. exists true. split; [|reflexivity].
    apply in_map_iff. exists d. split; [|assumption].
    rewrite Ht. simpl. now apply Z.eqb_eq.
Qed.

Lemma year_header_permutation (points points' : list FinancialMetrics) (y : Z) :
  Permutation points points' -> year_header points y = year_header points' y.
Proof.
  intro Hp. unfold year_header, Py.any. rewrite !SortedFacts.existsb_of_map.
  now rewrite (SortedFacts.existsb_permutation _ _ _ Hp).
Qed.

(** The header row of the rendered table. *)
Lemma header_row (fd : FinancialData) :
  nth_error (children (FinancialData__ft__ fd)) 0
  = Some (Tr (Th "Metric" :: map (year_header (data fd)) (column_years fd))).
Proof. reflexivity. Qed.

(** The texts a metric's generator yields for a year, when the first
    stored point of that year that has the metric is [d]. *)
Lemma metric_texts_first (m : FinancialMetrics -> option float)
    (before after : list FinancialMetrics) (d : FinancialMetrics) (v : float) :
  m d = Some v ->
  (forall d', In d' before -> year d' = year d -> m d' = None) ->
  exists rest, metric_texts m (before ++ d :: after) (year d) = str_float v :: rest.
Proof.
  intros Hv. unfold metric_texts.
  induction before as [|b before IH]; intros Hnone; simpl.
  - rewrite Z.eqb_refl, Hv. simpl. eauto.
  - destruct (IH (fun d' Hin => Hnone d' (or_intror Hin))) as [rest Hrest].
    rewrite Hrest.
    destruct (year b =? year d)%Z eqn:E.
    + apply Z.eqb_eq in E. rewrite (Hnone b (or_introl eq_refl) E). simpl. eauto.
    + simpl. eauto.
Qed.

Lemma metric_texts_none (m : FinancialMetrics -> option float)
    (points : list FinancialMetrics) (y : Z) :
  (forall d, In d points -> year d = y -> m d = None) ->
  metric_texts m points y = [].
Proof.
  unfold metric_texts.
  induction points as [|b points IH]; intros Hnone; simpl.
  - reflexivity.
  - rewrite IH by (intros; apply Hnone; simpl; auto).
    destruct (year b =? y)%Z eqn:E.
    + apply Z.eqb_eq in E. now rewrite (Hnone b (or_introl eq_refl) E).
    + reflexivity.
Qed.

Lemma metric_cell (fd : FinancialData) (m : Metric) (i : nat) (y : Z) :
  nth_error (column_years fd) i = Some y ->
  cell_at (FinancialData__ft__ fd) (metric_row_index m) (S i)
  = Some (Td (Py.next (metric_texts (metric_value m) (data fd) y) "-")).
Proof.
  intro Hy. unfold column_years in Hy.
  destruct m; unfold cell_at; simpl;
    rewrite nth_error_map, Hy; reflexivity.
Qed.

Lemma ascending_NoDup (l : list Z) : StronglySorted Z.lt l -> NoDup l.
Proof.
  induction 1 as [|a l Hs IH Hf]; constructor; [|assumption].
  intro Hin. rewrite Forall_forall in Hf. specialize (Hf a Hin). lia.
Qed.

(** C4: in the display table the cell of a metric and a year shows the
    first non-null value of that metric among the stored points of that
    year, in stored order: when the stored points are [before ++ d ::
    after], [d] has the value [v] for the metric, and no point of the year
    of [d] in [before] has the metric, then the year of [d] has its one
    column, and the cell of the metric in that column is the text of [v],
    whatever [after] holds (no later point, no merge, no average). *)
Theorem C4_first_non_null_in_stored_order
    (fd : FinancialData) (m : Metric)
    (before after : list FinancialMetrics) (d : FinancialMetrics) (v : float) :
  data fd = before ++ d :: after ->
  metric_value m d = Some v ->
  (forall d', In d' before -> year d' = year d -> metric_value m d' = None) ->
  exists i,
    nth_error (column_years fd) i = Some (year d)
    /\ (forall j, nth_error (column_years fd) j = Some (year d) -> j = i)
    /\ cell_at (FinancialData__ft__ fd) (metric_row_index m) (S i)
       = Some (Td (str_float v)).
Proof.
  intros Hdata Hv Hnone.
  assert (Hin : In (year d) (column_years fd)).
  { unfold column_years. apply SortedFacts.years_In. rewrite Hdata, map_app.
    apply in_or_app. right. now left. }
  destruct (In_nth_error _ _ Hin) as [i Hi]. exists i.
  split; [exact Hi|]. split.
  - intros j Hj.
    assert (Hnd : NoDup (column_years fd))
      by (apply ascending_NoDup, SortedFacts.years_ascending).
    rewrite NoDup_nth_error in Hnd. symmetry. apply Hnd.
    + apply nth_error_Some. congruence.
    + congruence.
  - rewrite (metric_cell fd m i (year d) Hi), Hdata.
    destruct (metric_texts_first (metric_value m) before after d v Hv Hnone)
      as [rest ->].
    reflexivity.
Qed.

(** A year none of whose points has the metric shows a dash. *)
Lemma metric_cell_dash (fd : FinancialData) (m : Metric) (i : nat) (y : Z) :
  nth_error (column_years fd) i = Some y ->
  (forall d, In d (data fd) -> year d = y -> metric_value m d = None) ->
  cell_at (FinancialData__ft__ fd) (metric_row_index m) (S i) = Some (Td "-").
Proof.
  intros Hy Hnone. rewrite (metric_cell fd m i y Hy).
  now rewrite (metric_texts_none _ _ _ Hnone).
Qed.

(** C5: the years of the columns of the display table are the years of
    the stored points, ascending and each once; the header of a year ends
    in the mark [E] exactly when a stored point of that year is a
    forecast; and the header row is the same for every order in which the
    points are stored. *)
Theorem C5_years_and_forecast_marks (fd : FinancialData) :
  nth_error (children (FinancialData__ft__ fd)) 0
    = Some (Tr (Th "Metric" :: map (year_header (data fd)) (column_years fd)))
  /\ StronglySorted Z.lt (column_years fd)
  /\ (forall y, In y (column_years fd) <-> exists d, In d (data fd) /\ year d = y)
  /\ (forall y,
        (year_header (data fd) y = Th (append (Py.str_int y) "E")
         /\ exists d, In d (data fd) /\ type d = forecast /\ year d = y)
        \/ (year_header (data fd) y = Th (append (Py.str_int y) "")
            /\ ~ exists d, In d (data fd) /\ type d = forecast /\ year d = y))
  /\ (forall fd', Permutation (data fd) (data fd') ->
        nth_error (children (FinancialData__ft__ fd')) 0
        = nth_error (children (FinancialData__ft__ fd)) 0).
Proof.
  split; [apply header_row|].
  split; [apply SortedFacts.years_ascending|].
  split.
  { intro y. unfold column_years. rewrite SortedFacts.years_In, in_map_iff.
    split; intros [d H]; exists d; tauto. }
  split.
  { intro y. unfold year_header.
    destruct (Py.any _) eqn:E.
    - left. split; [reflexivity|]. now apply any_forecast_iff.
    - right. split; [reflexivity|]. intro H. apply any_forecast_iff in H.
      congruence. }
  intros fd' Hp. rewrite !header_row. unfold column_years.
  rewrite (SortedFacts.years_permutation _ _ (Permutation_map year Hp)).
  do 3 f_equal. apply map_ext. intro y. symmetry.
  now apply year_header_permutation.
Qed.

End Display.

(* ------------------------------------------------------------------ *)
(** * The clipboard export                                               *)
(* ------------------------------------------------------------------ *)

Module TextFacts.

Lemma has_char_append (c : ascii) (s t : string) :
  Py.has_char c (append s t) = Py.has_char c s || Py.has_char c t.
Proof.
  induction s as [|a s IH]; simpl.
  - reflexivity.
  - now rewrite IH, orb_assoc.
Qed.

(** The decimal text of an integer holds digits and the minus sign only. *)
Lemma has_char_digits (c : ascii) (u : Decimal.uint) :
  Py.has_char c "0123456789-" = false ->
  Py.has_char c (NilEmpty.string_of_uint u) = false.
Proof.
  intro H. cbn [Py.has_char] in H.
  repeat (apply orb_false_elim in H; destruct H as [? H]).
  induction u; cbn [NilEmpty.string_of_uint Py.has_char]; rewrite ?IHu;
    repeat match goal with E : Ascii.eqb _ c = false |- _ => rewrite E; clear E end;
    reflexivity.
Qed.

Lemma has_char_uint (c : ascii) (u : Decimal.uint) :
  Py.has_char c "0123456789-" = false ->
  Py.has_char c (NilZero.string_of_uint u) = false.
Proof.
  intro H. pose proof (has_char_digits c u H) as Hd.
  destruct u; try exact Hd.
  cbn [NilZero.string_of_uint Py.has_char].
  cbn [Py.has_char] in H. apply orb_false_elim in H. destruct H as [H _].
  now rewrite H.
Qed.

Lemma has_char_str_int (c : ascii) (n : Z) :
  Py.has_char c "0123456789-" = false -> Py.has_char c (Py.str_int n) = false.
Proof.
  intro H. unfold Py.str_int.
  destruct (Z.to_int n) as [u|u]; cbn [NilZero.string_of_int Py.has_char].
  - now apply has_char_uint.
  - rewrite (has_char_uint c u H).
    cbn [Py.has_char] in H.
    do 10 (apply orb_false_elim in H; destruct H as [_ H]).
    apply orb_false_elim in H. destruct H as [H _]. now rewrite H.
Qed.

End TextFacts.

Section ExportFacts.
Context {PF : PyFloat}.

Lemma unquoted_str_int (n : Z) : unquoted (Py.str_int n).
Proof.
  unfold unquoted, pd.needs_quoting.
  now rewrite !TextFacts.has_char_str_int.
Qed.

Lemma unquoted_type_str (t : MetricType) : unquoted (type_str t).
Proof. destruct t; reflexivity. Qed.

Lemma unquoted_export_cell (v : option float) :
  (forall x, v = Some x -> unquoted (str_float x)) -> unquoted (spec_export_cell v).
Proof.
  intro H. destruct v as [x|]; simpl; [|reflexivity].
  destruct (isnan x); [reflexivity | now apply H].
Qed.

Lemma csv_line_unquoted (fields : list string) :
  Forall unquoted fields ->
  pd.csv_line (ascii_of_nat 9) fields = append (Py.join Py.TAB fields) Py.LF.
Proof.
  intro H. unfold pd.csv_line. f_equal. f_equal.
  rewrite <- (map_id fields) at 2. apply map_ext_in.
  intros s Hs. rewrite Forall_forall in H. specialize (H s Hs).
  unfold pd.csv_field. unfold unquoted in H. now rewrite H.
Qed.

Lemma filled_cell_text (v : option float) :
  pd.to_text (if pd.isna (of_optional v) then pd.PyStr "" else of_optional v)
  = spec_export_cell v.
Proof.
  destruct v as [x|]; simpl; [|reflexivity].
  destruct (isnan x) eqn:E; simpl; [reflexivity|].
  unfold pd.to_text. simpl. now rewrite E.
Qed.

Lemma filled_debt_text (v : option float) :
  pd.to_text (if pd.isna match v with
                         | Some x => pd.PyFloatObj x
                         | None => pd.PyStr ""
                         end
              then pd.PyStr ""
              else match v with
                   | Some x => pd.PyFloatObj x
                   | None => pd.PyStr ""
                   end)
  = spec_export_cell v.
Proof.
  destruct v as [x|]; simpl; [|reflexivity].
  destruct (isnan x) eqn:E; simpl; [reflexivity|].
  unfold pd.to_text. simpl. now rewrite E.
Qed.

Lemma plain_floats_cells (points : list FinancialMetrics)
    (get : FinancialMetrics -> option float) :
  (forall m x, get m = Some x -> In (str_float x) (metric_strs m)) ->
  plain_floats points ->
  Forall unquoted (map (fun m => spec_export_cell (get m)) points).
Proof.
  intros Hget H. apply Forall_map. unfold plain_floats in H.
  rewrite Forall_forall in *. intros m Hm.
  apply unquoted_export_cell. intros x Hx.
  specialize (H m Hm). rewrite Forall_forall in H. apply H. now apply Hget.
Qed.

Lemma in_metric_strs (m : FinancialMetrics) (x : float) :
  (revenue m = Some x \/ ebitda m = Some x \/ margin m = Some x \/ debt m = Some x) ->
  In (str_float x) (metric_strs m).
Proof.
  unfold metric_strs. simpl.
  intros [H|[H|[H|H]]]; rewrite H; simpl;
    destruct (revenue m), (ebitda m), (margin m), (debt m); simpl; tauto.
Qed.

(** The export of at least one point, in closed form. *)
Lemma export_closed_form (points : list FinancialMetrics) :
  points <> [] ->
  plain_floats points ->
  format_for_excel_clipboard points = Ok (spec_tsv (spec_export_grid points)).
Proof.
  intros Hne Hplain.
  unfold format_for_excel_clipboard, pd.set_index, pd.DataFrame_of_records.
  cbn [pd.columns pd.values pd.index].
  match goal with |- context [map ?f points] =>
    assert (Hcols : match map f points with
                    | [] => []
                    | r :: _ => map (fun kv : string * pd.object => pd.PyStr (fst kv)) r
                    end = [pd.PyStr "year"; pd.PyStr "revenue"; pd.PyStr "ebitda";
                           pd.PyStr "margin"; pd.PyStr "debt"; pd.PyStr "type"])
      by (destruct points; [congruence | reflexivity])
  end.
  rewrite Hcols. clear Hcols.
  cbn [pd.position pd.is_label String.eqb Ascii.eqb Bool.eqb].
  cbv beta iota.
  unfold pd.to_csv, pd.fillna, pd.transpose.
  cbn [pd.columns pd.values pd.index pd.drop_nth List.length seq map].
  rewrite !map_map.
  cbn [pd.drop_nth map snd nth combine fst].
  rewrite !map_map.
  unfold spec_tsv, spec_export_grid. cbn [map].
  rewrite (map_ext _ _ (fun m => filled_cell_text (revenue m))).
  rewrite (map_ext _ _ (fun m => filled_cell_text (ebitda m))).
  rewrite (map_ext _ _ (fun m => filled_cell_text (margin m))).
  rewrite (map_ext _ _ (fun m => filled_debt_text (debt m))).
  rewrite !csv_line_unquoted; [reflexivity | ..];
    (constructor; [reflexivity|]);
    first [ apply plain_floats_cells;
            [intros m x H; apply in_metric_strs; tauto | assumption]
          | apply Forall_map, Forall_forall; intros m _;
            first [apply unquoted_str_int | apply unquoted_type_str] ].
Qed.

(** Without a point there is no column [year] to index by. *)
Lemma export_of_no_point : format_for_excel_clipboard [] = Raise KeyError.
Proof. reflexivity. Qed.

End ExportFacts.

(* ------------------------------------------------------------------ *)
(** * Facts about the file system                                        *)
(* ------------------------------------------------------------------ *)

Module FsFacts.
Section Tree.
Variable bytes : Type.

(** A path is a regular file exactly when it can be opened and read. *)
Lemma read_file_isfile (root : os.node bytes) (path : string) (content : bytes) :
  os.read_file bytes root path = Ok content -> os.isfile bytes root path = true.
Proof.
  unfold os.read_file, os.isfile.
  destruct (os.resolve bytes root path) as [p|e]; [|discriminate].
  destruct (os.get bytes root p) as [[c|es]|]; [reflexivity | discriminate | discriminate].
Qed.

Lemma isfile_read_file (root : os.node bytes) (path : string) :
  os.isfile bytes root path = true ->
  exists content, os.read_file bytes root path = Ok content.
Proof.
  unfold os.read_file, os.isfile.
  destruct (os.resolve bytes root path) as [p|e]; [|discriminate].
  destruct (os.get bytes root p) as [[c|es]|]; [eauto | discriminate | discriminate].
Qed.

Lemma lookup_update_same (k : string) (x : os.node bytes) (es : list (string * os.node bytes)) :
  os.lookup bytes k (os.update bytes k x es) = Some x.
Proof.
  induction es as [|e es IH]; simpl.
  - now rewrite String.eqb_refl.
  - destruct (String.eqb (fst e) k) eqn:E; simpl.
    + now rewrite String.eqb_refl.
    + now rewrite E.
Qed.

Lemma lookup_update_other (k k' : string) (x : os.node bytes) (es : list (string * os.node bytes)) :
  k' <> k ->
  os.lookup bytes k' (os.update bytes k x es) = os.lookup bytes k' es.
Proof.
  intro Hne. induction es as [|e es IH]; simpl.
  - destruct (String.eqb k k') eqn:E; [|reflexivity].
    apply String.eqb_eq in E. congruence.
  - destruct (String.eqb (fst e) k) eqn:E; simpl.
    + apply String.eqb_eq in E.
      destruct (String.eqb k k') eqn:E1;
        [apply String.eqb_eq in E1; congruence|].
      destruct (String.eqb (fst e) k') eqn:E2;
        [apply String.eqb_eq in E2; congruence | reflexivity].
    + destruct (String.eqb (fst e) k'); [reflexivity | exact IH].
Qed.

(** What is put at a path is found there. *)
Lemma get_put_same (p : list string) :
  forall (n n' x : os.node bytes), os.put bytes n p x = Some n' -> os.get bytes n' p = Some x.
Proof.
  induction p as [|c rest IH]; intros n n' x H; simpl in H.
  - now inversion H.
  - destruct n as [content|es]; [discriminate|].
    destruct rest as [|c' rest'].
    + inversion H; subst. simpl. now rewrite lookup_update_same.
    + destruct (os.lookup bytes c es) as [m|] eqn:El; [|discriminate].
      destruct (os.put bytes m (c' :: rest') x) as [m'|] eqn:Ep; [|discriminate].
      inversion H; subst. cbn [os.get]. rewrite lookup_update_same.
      now apply (IH m m' x).
Qed.

Lemma get_below_file (content : bytes) (q : list string) :
  os.is_dir bytes (os.File content) q = false.
Proof. destruct q; reflexivity. Qed.

(** Writing a regular file where no directory is leaves every directory
    a directory and makes no new one. *)
Lemma is_dir_put_file (p : list string) :
  forall (n n' : os.node bytes) (content : bytes),
    os.put bytes n p (os.File content) = Some n' ->
    os.is_dir bytes n p = false ->
    forall q, os.is_dir bytes n' q = os.is_dir bytes n q.
Proof.
  induction p as [|c rest IH]; intros n n' content H Hnd q.
  - simpl in H. inversion H; subst. unfold os.is_dir in Hnd. simpl in Hnd.
    destruct n as [b|es]; [|discriminate].
    now rewrite !get_below_file.
  - simpl in H. destruct n as [b|es]; [discriminate|].
    destruct rest as [|c' rest'].
    + inversion H; subst. destruct q as [|k q']; [reflexivity|].
      unfold os.is_dir in *. cbn [os.get] in *.
      destruct (string_dec k c) as [->|Hk].
      * rewrite lookup_update_same.
        destruct (os.lookup bytes c es) as [[b|sub]|].
        -- destruct q'; reflexivity.
        -- discriminate.
        -- destruct q'; reflexivity.
      * now rewrite lookup_update_other.
    + destruct (os.lookup bytes c es) as [m|] eqn:El; [|discriminate].
      destruct (os.put bytes m (c' :: rest') (os.File content)) as [m'|] eqn:Ep;
        [|discriminate].
      inversion H; subst. destruct q as [|k q']; [reflexivity|].
      unfold os.is_dir in *. cbn [os.get] in Hnd |- *. rewrite El in Hnd.
      destruct (string_dec k c) as [->|Hk].
      * rewrite lookup_update_same, El.
        apply (IH m m' content Ep Hnd q').
      * now rewrite lookup_update_other.
Qed.

Lemma walk_is_dir (root root' : os.node bytes) (comps : list string) :
  (forall q, os.is_dir bytes root' q = os.is_dir bytes root q) ->
  forall cur p, os.walk bytes root cur comps = Ok p ->
                os.walk bytes root' cur comps = Ok p.
Proof.
  intro Hd. induction comps as [|c rest IH]; intros cur p H; simpl in *.
  - exact H.
  - specialize (Hd cur). unfold os.is_dir in Hd.
    destruct (os.get bytes root cur) as [[b|es]|]; try discriminate.
    destruct (os.get bytes root' cur) as [[b'|es']|]; try discriminate.
    destruct (os.is_dot c); [now apply IH|].
    destruct (os.is_dotdot c); now apply IH.
Qed.

(** A file that was written is read back, by the same path. *)
Lemma read_after_write (root root' : os.node bytes) (path : string) (content : bytes) :
  os.write_file bytes root path content = Ok root' ->
  os.read_file bytes root' path = Ok content.
Proof.
  unfold os.write_file, os.read_file, os.resolve.
  destruct (Py.has_char Py.NUL path); [discriminate|].
  destruct (os.walk bytes root [] (Py.split "/" path)) as [p|e] eqn:Ew;
    [|discriminate].
  intro H.
  assert (Hnd : os.is_dir bytes root p = false).
  { unfold os.is_dir. destruct (os.get bytes root p) as [[b|es]|];
      [reflexivity | discriminate | reflexivity]. }
  assert (Hput : os.put bytes root p (os.File content) = Some root').
  { destruct (os.get bytes root p) as [[b|es]|]; try discriminate;
      destruct (os.put bytes root p (os.File content)); congruence. }
  rewrite (walk_is_dir root root' _ (is_dir_put_file p root root' content Hput Hnd) _ _ Ew).
  now rewrite (get_put_same p root root' _ Hput).
Qed.

(** [makedirs] of directories that are there changes nothing. *)
Lemma makedirs_present (root : os.node bytes) (des es : list (string * os.node bytes))
    (res : list (string * os.node bytes)) (a b : string) :
  root = os.Dir res ->
  os.lookup bytes a res = Some (os.Dir des) ->
  os.lookup bytes b des = Some (os.Dir es) ->
  os.makedirs_from bytes root [] [a; b] = Ok root.
Proof.
  intros -> Ha Hb. simpl. now rewrite Ha, Hb.
Qed.

End Tree.
End FsFacts.

Module PathFacts.

Lemma split_plain (c : ascii) (s : string) :
  Py.has_char c s = false -> Py.split c s = [s].
Proof.
  induction s as [|a s IH]; simpl; intro H.
  - reflexivity.
  - apply orb_false_elim in H. destruct H as [Ha Hs].
    rewrite Ha, (IH Hs). reflexivity.
Qed.

Lemma length_append (s t : string) :
  String.length (append s t) = String.length s + String.length t.
Proof. induction s as [|a s IH]; simpl; [reflexivity | now rewrite IH]. Qed.

Lemma substring_append_right (s t : string) :
  substring (String.length s) (String.length t) (append s t) = t.
Proof.
  induction s as [|a s IH]; simpl.
  - induction t as [|b t IHt]; simpl; [reflexivity | now rewrite IHt].
  - exact IH.
Qed.

Lemma substring_append_left (s t : string) :
  substring 0 (String.length s) (append s t) = s.
Proof.
  induction s as [|a s IH]; simpl.
  - destruct t; reflexivity.
  - now rewrite IH.
Qed.

Lemma endswith_append (s suffix : string) :
  Py.endswith (append s suffix) suffix = true.
Proof.
  unfold Py.endswith. rewrite length_append.
  replace (String.length s + String.length suffix - String.length suffix)
    with (String.length s) by lia.
  rewrite substring_append_right, String.eqb_refl.
  rewrite andb_true_r. apply Nat.leb_le. lia.
Qed.

Lemma rfind_append (c : ascii) (s t : string) (j : nat) :
  Py.rfind c t = Some j -> Py.rfind c (append s t) = Some (String.length s + j).
Proof.
  intro H. induction s as [|a s IH]; simpl.
  - exact H.
  - now rewrite IH.
Qed.

(** The stem of [<id>.pkl] is [<id>], for a non-empty identifier. *)
Lemma stem_pkl_name (company_id : string) :
  company_id <> EmptyString -> os.stem (pkl_name company_id) = company_id.
Proof.
  intro Hne. unfold os.stem, pkl_name.
  rewrite (rfind_append "." company_id ".pkl" 0 eq_refl).
  rewrite Nat.add_0_r, length_append. simpl String.length.
  assert (0 < String.length company_id) by (destruct company_id; simpl; [congruence | lia]).
  replace (0 <? String.length company_id)%nat with true by (symmetry; apply Nat.ltb_lt; lia).
  replace (String.length company_id <? String.length company_id + 4 - 1)%nat with true
    by (symmetry; apply Nat.ltb_lt; lia).
  simpl. apply substring_append_left.
Qed.

Lemma pkl_name_not_special (company_id : string) :
  os.is_dot (pkl_name company_id) = false /\ os.is_dotdot (pkl_name company_id) = false.
Proof.
  assert (L : forall s, String.length s < 4 -> String.eqb (pkl_name company_id) s = false).
  { intros s Hs. apply String.eqb_neq. intro E.
    apply (f_equal String.length) in E. unfold pkl_name in E.
    rewrite length_append in E. simpl in E. lia. }
  unfold os.is_dot, os.is_dotdot.
  rewrite !L by (simpl; lia). auto.
Qed.

(** The path of a snapshot with a plain identifier has three components. *)
Lemma split_pkl_path (company_id : string) :
  plain company_id = true ->
  Py.split "/" (pkl_path company_id) = ["data"; "pkl"; pkl_name company_id]
  /\ Py.has_char Py.NUL (pkl_path company_id) = false.
Proof.
  unfold plain. intro H. apply andb_true_iff in H. destruct H as [Hs Hn].
  apply negb_true_iff in Hs, Hn.
  assert (Hs' : Py.has_char "/" (pkl_name company_id) = false).
  { unfold pkl_name. now rewrite TextFacts.has_char_append, Hs. }
  assert (Hn' : Py.has_char Py.NUL (pkl_name company_id) = false).
  { unfold pkl_name. now rewrite TextFacts.has_char_append, Hn. }
  split.
  - unfold pkl_path. fold (pkl_name company_id).
    cbn -[pkl_name]. now rewrite (split_plain "/" _ Hs').
  - unfold pkl_path. fold (pkl_name company_id).
    rewrite TextFacts.has_char_append, Hn'. reflexivity.
Qed.

End PathFacts.

(* ------------------------------------------------------------------ *)
(** * The status query                                                   *)
(* ------------------------------------------------------------------ *)

Section StatusQuery.
Context {PF : PyFloat} {PD : Pydantic} {EX : Externals}.

Lemma status_query (w : World) (company_id : string) :
  extract_company_data_status company_id w
  = (Ok (if os.path_exists bytes (fs w) (pkl_path company_id)
         then extraction_complete company_id
         else extracting_data company_id), w).
Proof.
  unfold extract_company_data_status, bind, os_path_exists, ret, pkl_path.
  destruct (os.path_exists bytes (fs w) _); reflexivity.
Qed.

Lemma answers_differ (a b : string) : extraction_complete a <> extracting_data b.
Proof. unfold extraction_complete, extracting_data. discriminate. Qed.

(** C2: the status query answers "complete" exactly when the path of the
    snapshot of the identifier exists in the store, and "extracting"
    exactly when it does not; it leaves the state as it was, and its
    answer is the same in any two states with the same files. *)
Theorem C2_status_is_the_existence_check (w : World) (company_id : string) :
  (status w company_id = Ok (extraction_complete company_id)
   <-> os.path_exists bytes (fs w) (pkl_path company_id) = true)
  /\ (status w company_id = Ok (extracting_data company_id)
      <-> os.path_exists bytes (fs w) (pkl_path company_id) = false)
  /\ after (extract_company_data_status company_id) w = w
  /\ (forall w', fs w' = fs w -> status w' company_id = status w company_id).
Proof.
  unfold status, after. rewrite status_query. cbn [fst snd].
  split; [|split; [|split]].
  - split.
    + destruct (os.path_exists bytes (fs w) _); [reflexivity|].
      intro H. exfalso. apply (answers_differ company_id company_id). congruence.
    + now intros ->.
  - split.
    + destruct (os.path_exists bytes (fs w) _); [|reflexivity].
      intro H. exfalso. apply (answers_differ company_id company_id). congruence.
    + now intros ->.
  - reflexivity.
  - intros w' E. rewrite status_query. cbn [fst]. now rewrite E.
Qed.

(** C10: for an identifier without snapshot the status query answers
    "Extracting data..." and has the client ask again every five seconds;
    whatever the identifier and the state, the query raises nothing and
    gives one of its two answers (there is no answer for "not found" or
    "failed"); and the answer does not depend on the threads that were
    started. *)
Theorem C10_no_snapshot_reads_as_running (w : World) (company_id : string) :
  os.path_exists bytes (fs w) (pkl_path company_id) = false ->
  extract_company_data_status company_id w = (Ok (extracting_data company_id), w)
  /\ children (extracting_data company_id)
     = [Tag "DivLAligned"
          [Tag "Loading" [] [("size", "20")]; P "Extracting data..." TextT_info] []]
  /\ In ("hx_get", append "/extract-company-data/" company_id)
        (attributes (extracting_data company_id))
  /\ In ("hx_trigger", "every 5s") (attributes (extracting_data company_id))
  /\ (forall w' i, status w' i = Ok (extraction_complete i)
                   \/ status w' i = Ok (extracting_data i))
  /\ (forall started,
        status {| fs := fs w; uuid_calls := uuid_calls w; threads := started;
                  clipboard := clipboard w |} company_id
        = Ok (extracting_data company_id)).
Proof.
  intro H. rewrite status_query, H.
  split; [reflexivity|]. split; [reflexivity|].
  split; [simpl; tauto|]. split; [simpl; tauto|]. split.
  - intros w' i. unfold status. rewrite status_query. cbn [fst].
    destruct (os.path_exists bytes (fs w') _); auto.
  - intro started. unfold status. rewrite status_query. cbn [fst fs].
    now rewrite H.
Qed.

End StatusQuery.

(* ------------------------------------------------------------------ *)
(** * The snapshot store                                                 *)
(* ------------------------------------------------------------------ *)

Section Store.
Context {PF : PyFloat} {PD : Pydantic} {EX : Externals}.

Lemma company_reads (w : World) (company_id : string) (c : Company) :
  os.read_file bytes (fs w) (pkl_path company_id) = Ok (pickle_dumps c) ->
  pickle_loads (pickle_dumps c) = Some c ->
  company company_id w = (Ok c, w).
Proof.
  intros Hr Hl. unfold company, bind, open_rb_read, pickle_load.
  fold (pkl_path company_id). rewrite Hr, Hl. reflexivity.
Qed.

(** A load leaves the state as it was. *)
Lemma company_pure (w : World) (company_id : string) :
  after (company company_id) w = w.
Proof.
  unfold after, company, bind, open_rb_read, pickle_load.
  destruct (os.read_file bytes (fs w) _) as [content|e]; [|reflexivity].
  destruct (pickle_loads content); reflexivity.
Qed.

Lemma save_then_load (w w' : World) (c : Company) :
  pickle_loads (pickle_dumps c) = Some c ->
  save_company (id c) c w = (Ok tt, w') ->
  company (id c) w' = (Ok c, w').
Proof.
  intros Hl H. apply company_reads; [|exact Hl].
  unfold save_company, bind, os_makedirs, open_wb_write, change_fs in H.
  destruct (os.makedirs bytes (fs w) "data/pkl") as [root1|e]; [|discriminate].
  cbn [fs with_fs] in H.
  destruct (os.write_file bytes root1 _ (pickle_dumps c)) as [root2|e] eqn:Ew;
    [|discriminate].
  inversion H; subst. cbn [fs with_fs].
  exact (FsFacts.read_after_write bytes root1 root2 _ _ Ew).
Qed.

Lemma write_snapshot_succeeds (root : os.node bytes) (res des es : list (string * os.node bytes))
    (company_id : string) (content : bytes) :
  plain company_id = true ->
  root = os.Dir res ->
  os.lookup bytes "data" res = Some (os.Dir des) ->
  os.lookup bytes "pkl" des = Some (os.Dir es) ->
  (forall sub, os.lookup bytes (pkl_name company_id) es <> Some (os.Dir sub)) ->
  exists root', os.write_file bytes root (pkl_path company_id) content = Ok root'.
Proof.
  intros Hplain -> Hdata Hpkl Hfree.
  destruct (PathFacts.split_pkl_path company_id Hplain) as [Hsplit Hnul].
  destruct (PathFacts.pkl_name_not_special company_id) as [Hdot Hdd].
  unfold os.write_file, os.resolve. rewrite Hnul, Hsplit.
  cbn [os.walk os.get app]. 
  change (os.is_dot "data") with false. change (os.is_dotdot "data") with false.
  cbn iota. cbn [os.walk os.get app]. rewrite Hdata.
  change (os.is_dot "pkl") with false. change (os.is_dotdot "pkl") with false.
  cbn iota. cbn [os.walk os.get app]. rewrite ?Hdata, ?Hpkl, Hdot, Hdd.
  cbn [os.walk os.get app os.put]. rewrite ?Hdata, ?Hpkl.
  destruct (os.lookup bytes (pkl_name company_id) es) as [[b|sub]|] eqn:El.
  - eauto.
  - exfalso. now apply (Hfree sub).
  - eauto.
Qed.

Lemma save_succeeds (w : World) (c : Company) :
  plain (id c) = true ->
  can_store (fs w) (id c) ->
  exists w', save_company (id c) c w = (Ok tt, w').
Proof.
  intros Hplain (res & des & Hroot & Hdata & Hpkl).
  unfold save_company, bind, os_makedirs, open_wb_write, change_fs.
  fold (pkl_path (id c)).
  unfold os.makedirs. cbn [Py.split Ascii.eqb Bool.eqb].
  rewrite Hroot. cbn [os.makedirs_from app os.get]. rewrite Hdata.
  destruct Hpkl as [Hnone | (es & Hsome & Hfree)].
  - rewrite Hnone. cbn [os.put]. rewrite Hdata.
    cbn [os.makedirs_from app os.get fs with_fs].
    destruct (write_snapshot_succeeds _ _ _ [] (id c) (pickle_dumps c) Hplain eq_refl
                (FsFacts.lookup_update_same bytes "data" _ res)
                (FsFacts.lookup_update_same bytes "pkl" _ des)) as [root' ->].
    + intros sub. simpl. discriminate.
    + eauto.
  - rewrite Hsome. cbn [os.makedirs_from fs with_fs].
    destruct (write_snapshot_succeeds _ _ _ _ (id c) (pickle_dumps c) Hplain Hroot
                Hdata Hsome Hfree) as [root' Hw].
    rewrite <- Hroot, Hw. eauto.
Qed.

(** C3: with a pickle that loads what it dumped, whenever the snapshot
    of a company was saved under its identifier, the load of that
    identifier returns the company itself, equal in every field (Rocq's
    equality of records), and changes nothing; and the save does succeed
    for an identifier that is a plain file name, in a store that can take
    it. *)
Theorem C3_save_then_load_round_trip (c : Company) (w : World) :
  (forall c', pickle_loads (pickle_dumps c') = Some c') ->
  (forall w', save_company (id c) c w = (Ok tt, w') ->
              company (id c) w' = (Ok c, w'))
  /\ (plain (id c) = true -> can_store (fs w) (id c) ->
      exists w', save_company (id c) c w = (Ok tt, w')
                 /\ company (id c) w' = (Ok c, w')).
Proof.
  intro Hl. split.
  - intros w' H. exact (save_then_load w w' c (Hl c) H).
  - intros Hp Hs. destruct (save_succeeds w c Hp Hs) as [w' H].
    exists w'. split; [exact H|]. exact (save_then_load w w' c (Hl c) H).
Qed.

End Store.

(* ------------------------------------------------------------------ *)
(** * Listing the store                                                  *)
(* ------------------------------------------------------------------ *)

Module ListFacts.

Lemma append_inj_left (t : string) :
  forall s s', append s t = append s' t -> s = s'.
Proof.
  induction s as [|a s IH]; intros [|a' s'] H; simpl in H.
  - reflexivity.
  - exfalso. apply (f_equal String.length) in H. simpl in H.
    rewrite PathFacts.length_append in H. lia.
  - exfalso. apply (f_equal String.length) in H. simpl in H.
    rewrite PathFacts.length_append in H. lia.
  - inversion H; subst. f_equal. now apply IH.
Qed.

Lemma filter_all {A : Type} (f : A -> bool) (l : list A) :
  (forall x, In x l -> f x = true) -> filter f l = l.
Proof.
  induction l as [|a l IH]; intro H; simpl.
  - reflexivity.
  - rewrite (H a (or_introl eq_refl)). f_equal. apply IH.
    intros x Hx. apply H. now right.
Qed.

End ListFacts.

Section Listing.
Context {PF : PyFloat} {PD : Pydantic} {EX : Externals}.

Lemma resolve_pkl_path (root : os.node bytes) (es : list (string * os.node bytes))
    (company_id : string) :
  plain company_id = true ->
  os.get bytes root ["data"; "pkl"] = Some (os.Dir es) ->
  os.resolve bytes root (pkl_path company_id) = Ok ["data"; "pkl"; pkl_name company_id].
Proof.
  intros Hplain Hget.
  destruct (PathFacts.split_pkl_path company_id Hplain) as [Hsplit Hnul].
  destruct (PathFacts.pkl_name_not_special company_id) as [Hdot Hdd].
  unfold os.resolve. rewrite Hnul, Hsplit.
  cbn [os.get] in Hget.
  destruct root as [b|res]; [discriminate|].
  destruct (os.lookup bytes "data" res) as [[b|des]|] eqn:Hdata; try discriminate.
  destruct (os.lookup bytes "pkl" des) as [m|] eqn:Hpkl; [|discriminate].
  inversion Hget; subst m.
  cbn [os.walk os.get app].
  change (os.is_dot "data") with false. change (os.is_dotdot "data") with false.
  cbn iota. cbn [os.walk os.get app]. rewrite ?Hdata.
  change (os.is_dot "pkl") with false. change (os.is_dotdot "pkl") with false.
  cbn iota. cbn [os.walk os.get app]. rewrite ?Hdata, ?Hpkl, Hdot, Hdd.
  reflexivity.
Qed.

Lemma lookup_snapshot (snaps : list (string * Company)) (i : string) (c : Company) :
  NoDup (map fst snaps) ->
  In (i, c) snaps ->
  os.lookup bytes (pkl_name i)
    (map (fun ic => (pkl_name (fst ic), os.File (pickle_dumps (snd ic)))) snaps)
  = Some (os.File (pickle_dumps c)).
Proof.
  induction snaps as [|[i0 c0] snaps IH]; intros Hnd Hin; simpl in *.
  - contradiction.
  - inversion Hnd as [|? ? Hnotin Hnd']; subst.
    destruct Hin as [E|Hin].
    + inversion E; subst. now rewrite String.eqb_refl.
    + destruct (String.eqb (pkl_name i0) (pkl_name i)) eqn:E.
      * exfalso. apply String.eqb_eq in E. unfold pkl_name in E.
        apply ListFacts.append_inj_left in E. subst i0.
        apply Hnotin. apply in_map_iff. exists (i, c). auto.
      * now apply IH.
Qed.

Lemma read_snapshot (root : os.node bytes) (snaps : list (string * Company))
    (i : string) (c : Company) :
  store_holds root snaps ->
  NoDup (map fst snaps) ->
  In (i, c) snaps ->
  plain i = true ->
  os.read_file bytes root (pkl_path i) = Ok (pickle_dumps c).
Proof.
  intros Hstore Hnd Hin Hplain. unfold store_holds in Hstore.
  unfold os.read_file. rewrite (resolve_pkl_path root _ i Hplain Hstore).
  change ["data"; "pkl"; pkl_name i] with (["data"; "pkl"] ++ [pkl_name i]).
  assert (Hget : forall (p q : list string) (n m : os.node bytes),
             os.get bytes n p = Some m -> os.get bytes n (p ++ q) = os.get bytes m q).
  { induction p as [|k p IHp]; intros q n m H; simpl in *.
    - now inversion H.
    - destruct n as [b|ents]; [discriminate|].
      destruct (os.lookup bytes k ents); [|discriminate]. now apply IHp. }
  rewrite (Hget _ [pkl_name i] _ _ Hstore). cbn [os.get].
  now rewrite (lookup_snapshot snaps i c Hnd Hin).
Qed.

Lemma glob_snapshots (root : os.node bytes) (snaps : list (string * Company)) :
  store_holds root snaps ->
  os.glob_suffix bytes root ["data"; "pkl"] ".pkl"
  = map (fun ic => pkl_name (fst ic)) snaps.
Proof.
  intro Hstore. unfold os.glob_suffix, store_holds in *. rewrite Hstore.
  rewrite map_map. cbn [fst]. apply ListFacts.filter_all.
  intros x Hx. apply in_map_iff in Hx. destruct Hx as [ic [<- _]].
  apply PathFacts.endswith_append.
Qed.

Lemma lookup_filter (f : string -> bool) (k : string)
    (es : list (string * os.node bytes)) :
  f k = true ->
  os.lookup bytes k es = os.lookup bytes k (filter (fun e => f (fst e)) es).
Proof.
  intro Hk. induction es as [|[n x] es IH]; cbn [filter os.lookup fst snd].
  - reflexivity.
  - destruct (String.eqb n k) eqn:E.
    + apply String.eqb_eq in E. subst n. rewrite Hk.
      cbn [os.lookup fst snd]. now rewrite String.eqb_refl.
    + destruct (f n); cbn [os.lookup fst snd]; [rewrite E|]; exact IH.
Qed.

(** A directory that holds the snapshots and nothing else is one whose
    [*.pkl] entries are the snapshots. *)
Lemma store_holds_lists (root : os.node bytes) (snaps : list (string * Company)) :
  store_holds root snaps -> store_lists root snaps.
Proof.
  intro H. eexists. split; [exact H|].
  apply ListFacts.filter_all. intros x Hx. apply in_map_iff in Hx.
  destruct Hx as [ic [<- _]]. apply PathFacts.endswith_append.
Qed.

(** A snapshot among the [*.pkl] entries is read back, whatever else the
    directory holds. *)
Lemma read_listed_snapshot (root : os.node bytes) (snaps : list (string * Company))
    (i : string) (c : Company) :
  store_lists root snaps ->
  NoDup (map fst snaps) ->
  In (i, c) snaps ->
  plain i = true ->
  os.read_file bytes root (pkl_path i) = Ok (pickle_dumps c).
Proof.
  intros (es & Hstore & Hpkl) Hnd Hin Hplain.
  unfold os.read_file. rewrite (resolve_pkl_path root _ i Hplain Hstore).
  change ["data"; "pkl"; pkl_name i] with (["data"; "pkl"] ++ [pkl_name i]).
  assert (Hget : forall (p q : list string) (n m : os.node bytes),
             os.get bytes n p = Some m -> os.get bytes n (p ++ q) = os.get bytes m q).
  { induction p as [|k p IHp]; intros q n m H; simpl in *.
    - now inversion H.
    - destruct n as [b|ents]; [discriminate|].
      destruct (os.lookup bytes k ents); [|discriminate]. now apply IHp. }
  rewrite (Hget _ [pkl_name i] _ _ Hstore). cbn [os.get].
  rewrite (lookup_filter (fun n => Py.endswith n ".pkl") (pkl_name i) es
             (PathFacts.endswith_append i ".pkl")).
  rewrite Hpkl. now rewrite (lookup_snapshot snaps i c Hnd Hin).
Qed.

(** The glob keeps the [*.pkl] names and drops every other entry. *)
Lemma glob_listed_snapshots (root : os.node bytes) (snaps : list (string * Company)) :
  store_lists root snaps ->
  os.glob_suffix bytes root ["data"; "pkl"] ".pkl"
  = map (fun ic => pkl_name (fst ic)) snaps.
Proof.
  intros (es & Hstore & Hpkl). unfold os.glob_suffix. rewrite Hstore.
  assert (Hf : forall l : list (string * os.node bytes),
             filter (fun n => Py.endswith n ".pkl") (map fst l)
             = map fst (filter (fun e => Py.endswith (fst e) ".pkl") l)).
  { induction l as [|e l IH]; simpl; [reflexivity|].
    destruct (Py.endswith (fst e) ".pkl"); simpl; now rewrite IH. }
  rewrite Hf, Hpkl, map_map. reflexivity.
Qed.

Lemma load_entries_snapshots (w : World) (l : list (string * Company)) :
  (forall c, pickle_loads (pickle_dumps c) = Some c) ->
  (forall i c, In (i, c) l ->
               os.read_file bytes (fs w) (pkl_path i) = Ok (pickle_dumps c)
               /\ i <> EmptyString) ->
  load_entries (map (fun ic => pkl_name (fst ic)) l) w
  = (Ok (map (fun ic => (value (name (company_base (snd ic))),
                         append "/company/" (fst ic))) l), w).
Proof.
  intros Hl. induction l as [|[i c] l IH]; intros H.
  - reflexivity.
  - destruct (H i c (or_introl eq_refl)) as [Hr Hne].
    cbn [map load_entries fst snd]. unfold bind at 1, open_rb_read at 1.
    change (append "data/pkl/" (pkl_name i)) with (pkl_path i).
    rewrite Hr. unfold bind at 1, pickle_load at 1. rewrite Hl.
    unfold ret at 1. unfold bind at 1.
    rewrite IH by (intros i' c' Hin; apply H; now right).
    unfold ret. now rewrite (PathFacts.stem_pkl_name i Hne).
Qed.

(** C9, as the code has it: when the [*.pkl] entries of the directory
    [data/pkl] are the snapshots [snaps] (distinct, non-empty plain
    identifiers), whatever else the directory holds, the list operation
    returns, in the order in which the directory enumerates them, one pair
    a snapshot: the display name of the company and the link
    [/company/<identifier>]; entries of other names are left out, and
    nothing is changed. *)
Theorem C9_list_gives_names_and_links (w : World) (snaps : list (string * Company)) :
  (forall c, pickle_loads (pickle_dumps c) = Some c) ->
  store_lists (fs w) snaps ->
  NoDup (map fst snaps) ->
  (forall i c, In (i, c) snaps -> plain i = true /\ i <> EmptyString) ->
  get_company_list w
  = (Ok (map (fun ic => (value (name (company_base (snd ic))),
                         append "/company/" (fst ic))) snaps), w).
Proof.
  intros Hl Hstore Hnd Hids. unfold get_company_list.
  rewrite (glob_listed_snapshots (fs w) snaps Hstore).
  apply load_entries_snapshots; [exact Hl|].
  intros i c Hin. destruct (Hids i c Hin) as [Hp Hne]. split; [|exact Hne].
  now apply (read_listed_snapshot (fs w) snaps i c).
Qed.

End Listing.

(* ------------------------------------------------------------------ *)
(** * Submission and extraction                                          *)
(* ------------------------------------------------------------------ *)

Section Jobs.
Context {PF : PyFloat} {PD : Pydantic} {EX : Externals}.

(** A required field that is absent fails the validation. *)
Lemma absent_quality_rejected (ms : list (string * json)) :
  member "quality" ms = None -> validate_extracted ms = None.
Proof.
  intro H. unfold validate_extracted, required at 2. rewrite H.
  destruct (required ms "pages" _); reflexivity.
Qed.

Lemma unknown_quality_rejected (s : string) :
  s <> "high" -> s <> "medium" -> s <> "low" -> validate_quality (JString s) = None.
Proof.
  intros H1 H2 H3. unfold validate_quality.
  apply String.eqb_neq in H1, H2, H3. now rewrite H1, H2, H3.
Qed.

Lemma unknown_type_rejected (s : string) :
  s <> "actual" -> s <> "forecast" -> validate_type (JString s) = None.
Proof.
  intros H1 H2. unfold validate_type.
  apply String.eqb_neq in H1, H2. now rewrite H1, H2.
Qed.

(** A response whose [name] has no [quality] does not validate. *)
Lemma response_without_quality_rejected (ms nms : list (string * json)) :
  member "name" ms = Some (JObject nms) ->
  member "quality" nms = None ->
  parsed (Some (JObject ms)) = None.
Proof.
  intros Hn Hq. unfold parsed. cbn [Option.bind]. unfold validate_CompanyBase.
  unfold required at 1. rewrite Hn. unfold validate_ValueField.
  now rewrite (absent_quality_rejected nms Hq).
Qed.

(** C6: an extraction whose response does not validate against the
    schema ([response.parsed] is [None]) ends in an exception and leaves
    the state, and with it the store, exactly as it was: no snapshot is
    written, for this identifier or any other. *)
Theorem C6_schema_violation_writes_nothing
    (w : World) (company_id : string) (content : bytes) (doc : UploadedFile)
    (response : option json) :
  os.read_file bytes (fs w) (append "data/pdf/" (append company_id ".pdf")) = Ok content ->
  files_upload content = Ok doc ->
  generate_content doc = Ok response ->
  parsed response = None ->
  extract_company_data company_id w = (Raise AttributeError, w)
  /\ (forall i, status (after (extract_company_data company_id) w) i = status w i).
Proof.
  intros Hr Hu Hg Hp.
  assert (E : extract_company_data company_id w = (Raise AttributeError, w)).
  { unfold extract_company_data, bind, client_files_upload, bind, os_path_isfile,
      open_rb_read, lift, client_models_generate_content, lift.
    rewrite (FsFacts.read_file_isfile bytes _ _ _ Hr), Hr, Hu, Hg, Hp. reflexivity. }
  split; [exact E|]. intro i. unfold after. now rewrite E.
Qed.

(** C7, as the code has it: a submission that names no document, or one
    that is not in [data/temp], is answered at once with an error, and
    the state is as before: no identifier was drawn, no thread started,
    no file touched. *)
Theorem C7_missing_document_rejected_at_once (w : World) (filename : option string) :
  missing_document (fs w) filename = true ->
  (exists message, handle_extraction filename w
                   = (Ok (file_status message TextT_error), w))
  /\ uuid_calls (after (handle_extraction filename) w) = uuid_calls w
  /\ threads (after (handle_extraction filename) w) = threads w
  /\ fs (after (handle_extraction filename) w) = fs w.
Proof.
  intro H.
  assert (E : exists message, handle_extraction filename w
                              = (Ok (file_status message TextT_error), w)).
  { unfold handle_extraction, missing_document in *.
    destruct filename as [f|]; [|eexists; reflexivity].
    destruct (String.eqb f ""); [eexists; reflexivity|].
    cbn [orb] in H. unfold bind, os_path_exists, ret.
    rewrite H. eexists; reflexivity. }
  split; [exact E|]. destruct E as [message E]. unfold after. rewrite E. auto.
Qed.

(** A document that is in [data/temp] is accepted whatever it holds: an
    identifier is drawn for it. *)
Lemma present_document_draws_identifier (w : World) (f : string) :
  missing_document (fs w) (Some f) = false ->
  uuid_calls (after (handle_extraction (Some f)) w) = S (uuid_calls w).
Proof.
  unfold missing_document. intro H. apply orb_false_elim in H.
  destruct H as [Hf He]. apply negb_false_iff in He.
  unfold after, handle_extraction. rewrite Hf.
  unfold bind at 1, os_path_exists at 1. rewrite He. cbn [negb].
  unfold bind at 1, uuid_uuid4 at 1.
  unfold bind at 1, os_makedirs, change_fs at 1. cbn [fs].
  destruct (os.makedirs bytes (fs w) "data/pdf"); [|reflexivity].
  unfold bind at 1, os_rename, change_fs at 1. cbn [fs with_fs].
  destruct (os.rename bytes _ _ _); [|reflexivity].
  unfold bind at 1, threaded_extract_company_data at 1.
  rewrite status_query. reflexivity.
Qed.

(** C1, as the code has it: for a stored company with at least one
    financial point, the copy of [financials] puts on the clipboard the
    tab-separated table whose first line heads one column a stored point
    with its year, and whose lines are the rows [revenue], [ebitda],
    [margin], [debt] and [type]; an absent value is the empty string.  The
    table is made from the points alone: the currency is not in it. *)
Theorem C1_clipboard_export_is_the_table_of_points
    (w : World) (company_id : string) (c : Company) :
  company company_id w = (Ok c, w) ->
  data (financial_data (financials (company_base c))) <> [] ->
  plain_floats (data (financial_data (financials (company_base c)))) ->
  get_copy company_id "financials" w
  = (Ok (check_icon "financials"),
     {| fs := fs w; uuid_calls := uuid_calls w; threads := threads w;
        clipboard :=
          Some (spec_tsv (spec_export_grid
                            (data (financial_data (financials (company_base c)))))) |}).
Proof.
  intros Hc Hne Hplain. unfold get_copy. unfold bind at 1. rewrite Hc.
  unfold bind at 1, lift at 1. cbn [getattr String.eqb Ascii.eqb Bool.eqb].
  unfold bind at 1, lift at 1.
  rewrite (export_closed_form _ Hne Hplain).
  reflexivity.
Qed.

End Jobs.

(* ------------------------------------------------------------------ *)
(** * The examples of the specification, on the concrete instance        *)
(* ------------------------------------------------------------------ *)

Module Examples.
Import Demo.

(** The first-match example: of the two points of 2023, the cell of the
    revenue shows the first (100, printed [100.0]). *)
Lemma C4_first_match_example :
  (forall d', In d' [] -> year d' = 2023%Z -> @metric_value integral Revenue d' = None)
  /\ exists i,
       nth_error (@column_years integral twice_2023) i = Some 2023%Z
       /\ cell_at (@FinancialData__ft__ integral twice_2023) 1 (S i)
          = Some (Td "100.0").
Proof.
  split; [intros d' []|].
  destruct (@C4_first_non_null_in_stored_order integral twice_2023 Revenue []
              [point 2023 (Some 110%Z) None None None forecast]
              (point 2023 (Some 100%Z) None None None actual) 100%Z
              eq_refl eq_refl (fun d' (H : In d' []) => match H with end))
    as [i [Hi [_ Hc]]].
  exists i. split; [exact Hi | exact Hc].
Defined.

(** The header example: 2023 is not marked, 2024 is, in both orders. *)
Lemma C5_header_example :
  Permutation (data years_23_24) (data years_24_23)
  /\ nth_error (children (@FinancialData__ft__ integral years_24_23)) 0
     = nth_error (children (@FinancialData__ft__ integral years_23_24)) 0
  /\ nth_error (children (@FinancialData__ft__ integral years_23_24)) 0
     = Some (Tr [Th "Metric"; Th "2023"; Th "2024E"]).
Proof.
  assert (Hp : Permutation (data years_23_24) (data years_24_23)) by apply perm_swap.
  split; [exact Hp|]. split.
  - exact (proj2 (proj2 (proj2 (proj2
             (@C5_years_and_forecast_marks integral years_23_24)))) years_24_23 Hp).
  - reflexivity.
Defined.

(** C1, as stated, fails: the export of the financial data with the
    currency [USD m] and the point (2022, revenue=50, ebitda=null, actual)
    is the table of the point, and [USD m] is nowhere in it, neither
    copied from the function nor through the route; and the export of
    financial data without a point is no table but a [KeyError]. *)
Lemma C1_export_carries_no_currency :
  currency usd_2022 = "USD m"
  /\ @format_for_excel_clipboard integral (data usd_2022) = Ok usd_2022_export
  /\ Py.contains "USD m" usd_2022_export = false
  /\ clipboard (after (@get_copy integral no_answer "abc" "financials")
                      (world no_answer root_abc)) = Some usd_2022_export
  /\ @format_for_excel_clipboard integral (data (financial [] "USD m")) = Raise KeyError.
Proof. repeat split; vm_compute; reflexivity. Defined.

Lemma C1_clipboard_export_example :
  @company integral no_answer "abc" (world no_answer root_abc)
    = (Ok (acme "abc"), world no_answer root_abc)
  /\ @get_copy integral no_answer "abc" "financials" (world no_answer root_abc)
     = (Ok (check_icon "financials"),
        @Build_World integral no_answer root_abc 0 [] (Some usd_2022_export)).
Proof.
  split; [reflexivity|].
  apply (@C1_clipboard_export_is_the_table_of_points integral no_answer
           (world no_answer root_abc) "abc" (acme "abc")).
  - reflexivity.
  - discriminate.
  - repeat constructor.
Defined.

Lemma C2_status_example :
  @status integral no_answer (world no_answer root_abc) "abc"
    = Ok (extraction_complete "abc")
  /\ @status integral no_answer (world no_answer root_abc) "abd"
     = Ok (extracting_data "abd").
Proof.
  split.
  - apply (proj1 (@C2_status_is_the_existence_check integral no_answer
                    (world no_answer root_abc) "abc")). reflexivity.
  - apply (proj1 (proj2 (@C2_status_is_the_existence_check integral no_answer
                           (world no_answer root_abc) "abd"))). reflexivity.
Defined.

Lemma C10_unknown_identifier_example :
  os.path_exists contents root_abc (pkl_path "never-submitted") = false
  /\ @extract_company_data_status integral no_answer "never-submitted"
       (world no_answer root_abc)
     = (Ok (extracting_data "never-submitted"), world no_answer root_abc).
Proof.
  split; [reflexivity|].
  apply (@C10_no_snapshot_reads_as_running integral no_answer
           (world no_answer root_abc) "never-submitted").
  reflexivity.
Defined.

Lemma demo_pickle_round_trip (E := no_answer) :
  forall c, @pickle_loads integral E (@pickle_dumps integral E c) = Some c.
Proof. reflexivity. Qed.

(** A second company is saved next to [abc] and loaded again. *)
Lemma C3_round_trip_example :
  plain "0123abcd" = true
  /\ exists w',
       @save_company integral no_answer "0123abcd" (acme "0123abcd")
         (world no_answer root_abc) = (Ok tt, w')
       /\ @company integral no_answer "0123abcd" w' = (Ok (acme "0123abcd"), w').
Proof.
  split; [reflexivity|].
  apply (proj2 (@C3_save_then_load_round_trip integral no_answer (acme "0123abcd")
                  (world no_answer root_abc) demo_pickle_round_trip)).
  - reflexivity.
  - eexists _, _. split; [reflexivity|]. split; [reflexivity|].
    right. eexists. split; [reflexivity|]. intros sub. discriminate.
Defined.

Lemma C6_quality_absent_example :
  @parsed integral pydantic (Some (response_with [])) = None
  /\ @extract_company_data integral pydantic answers_without_quality "job1"
       (world answers_without_quality root_pdf)
     = (Raise AttributeError, world answers_without_quality root_pdf)
  /\ @status integral answers_without_quality
       (@run integral pydantic answers_without_quality [thread_runs 0]
          (@Build_World integral answers_without_quality root_pdf 1 ["job1"] None))
       "job1"
     = Ok (extracting_data "job1")
  /\ @status integral answers_in_schema
       (@run integral pydantic answers_in_schema [thread_runs 0]
          (@Build_World integral answers_in_schema root_pdf 1 ["job1"] None))
       "job1"
     = Ok (extraction_complete "job1").
Proof.
  split; [reflexivity|]. split; [|split; reflexivity].
  apply (@C6_schema_violation_writes_nothing integral pydantic answers_without_quality
           (world answers_without_quality root_pdf) "job1" (Raw "%PDF-1.7")
           "%PDF-1.7" (Some (response_with []))); reflexivity.
Defined.

Lemma C7_missing_document_example :
  @missing_document integral no_answer root_abc (Some "report.pdf") = true
  /\ @handle_extraction integral no_answer (Some "report.pdf") (world no_answer root_abc)
     = (Ok (file_status "Error: File not found" TextT_error), world no_answer root_abc).
Proof.
  split; [reflexivity|].
  destruct (proj1 (@C7_missing_document_rejected_at_once integral no_answer
                     (world no_answer root_abc) (Some "report.pdf") eq_refl))
    as [message E].
  rewrite E. vm_compute in E. now inversion E.
Defined.

(** C7, as stated, fails for a document that is there and cannot be
    read: the upload [report.pdf] is an empty file, which the client of
    the model refuses; the submission is not rejected but answered with
    "Extracting data...", an identifier is drawn, the file is moved under
    it and a thread is started, which then calls the client and fails. *)
Lemma C7_unreadable_document_is_accepted :
  let w0 := world no_answer root_empty_upload in
  let w1 := after (@handle_extraction integral no_answer (Some "report.pdf")) w0 in
  os.read_file contents root_empty_upload "data/temp/report.pdf" = Ok (Raw "")
  /\ @files_upload integral no_answer (Raw "") = Raise ClientError
  /\ fst (@handle_extraction integral no_answer (Some "report.pdf") w0)
     = Ok (extracting_data first_id)
  /\ uuid_calls w1 = 1
  /\ threads w1 = [first_id]
  /\ os.read_file contents (fs w1) (append "data/pdf/" (append first_id ".pdf"))
     = Ok (Raw "")
  /\ fst (@extract_company_data integral pydantic no_answer first_id w1)
     = Raise ClientError.
Proof. repeat split; vm_compute; reflexivity. Defined.

(** C8 fails on the code: the snapshot [abc] is in the store and the
    status of [abc] is "complete"; the submission whose file name is
    [../pkl/abc.pkl] finds [data/temp/../pkl/abc.pkl], which is the
    snapshot, and moves it to [data/pdf]; from then on the status of [abc]
    is "Extracting data...". *)
Theorem C8_submission_can_take_a_snapshot_away :
  let w0 := world no_answer root_abc in
  let w1 := @run integral pydantic no_answer [POST_extract (Some "../pkl/abc.pkl")] w0 in
  @status integral no_answer w0 "abc" = Ok (extraction_complete "abc")
  /\ os.path_exists contents (fs w0) "data/temp/../pkl/abc.pkl" = true
  /\ @status integral no_answer w1 "abc" = Ok (extracting_data "abc")
  /\ os.read_file contents (fs w1) (append "data/pdf/" (append first_id ".pdf"))
     = Ok (Pickled (acme "abc"))
  /\ os.read_file contents (fs w1) (pkl_path "abc") = Raise FileNotFoundError.
Proof. repeat split; vm_compute; reflexivity. Qed.

(** C9, as stated, fails: for the store that holds the one snapshot
    [abc] of the company named Acme, the list is the pair of the name and
    of the link [/company/abc], not of the name and the identifier [abc]. *)
Lemma C9_list_gives_links_not_identifiers :
  @store_holds integral no_answer root_abc [("abc", acme "abc")]
  /\ fst (@get_company_list integral no_answer (world no_answer root_abc))
     = Ok [("Acme", "/company/abc")]
  /\ fst (@get_company_list integral no_answer (world no_answer root_abc))
     <> Ok (@spec_list integral [("abc", acme "abc")]).
Proof.
  split; [reflexivity|]. split; [reflexivity|]. vm_compute. discriminate.
Defined.

Lemma C9_list_example :
  @get_company_list integral no_answer (world no_answer root_mixed)
  = (Ok [("Zeta", "/company/zeta"); ("Acme", "/company/abc")],
     world no_answer root_mixed).
Proof.
  apply (@C9_list_gives_names_and_links integral no_answer (world no_answer root_mixed)
           [("zeta", zeta "zeta"); ("abc", acme "abc")] demo_pickle_round_trip).
  - eexists. split; reflexivity.
  - repeat constructor; simpl; intuition discriminate.
  - intros i c [E|[E|[]]]; inversion E; subst; split;
      first [reflexivity | discriminate].
Defined.

End Examples.

(* ------------------------------------------------------------------ *)
(** * The identifiers                                                    *)
(* ------------------------------------------------------------------ *)

Module IdFacts.

Lemma substring_split (n m : nat) :
  forall s, append (substring 0 n s) (substring n m s) = substring 0 (n + m) s.
Proof.
  induction n as [|n IH]; intros s.
  - simpl. destruct m, s; reflexivity.
  - destruct s as [|c s]; simpl.
    + reflexivity.
    + now rewrite IH.
Qed.

Lemma substring_all (s : string) : substring 0 (String.length s) s = s.
Proof. induction s as [|c s IH]; simpl; [reflexivity | now rewrite IH]. Qed.

Lemma has_char_substring (c : ascii) (n m : nat) :
  forall s, Py.has_char c s = false -> Py.has_char c (substring n m s) = false.
Proof.
  revert m. induction n as [|n IH]; intros m s H.
  - revert s H. induction m as [|m IHm]; intros s H.
    + destruct s; reflexivity.
    + destruct s as [|a s]; [reflexivity|].
      cbn [substring Py.has_char] in *. apply orb_false_elim in H.
      destruct H as [Ha Hs]. now rewrite Ha, IHm.
  - destruct s as [|a s]; [reflexivity|].
    cbn [substring]. cbn [Py.has_char] in H. apply orb_false_elim in H.
    apply IH. tauto.
Qed.

Lemma append_assoc (a b c : string) :
  append (append a b) c = append a (append b c).
Proof. induction a as [|x a IH]; cbn [append]; [reflexivity | now rewrite IH]. Qed.

Lemma replace_char_append (c : ascii) (new s t : string) :
  Py.replace_char c new (append s t)
  = append (Py.replace_char c new s) (Py.replace_char c new t).
Proof.
  induction s as [|a s IH]; cbn [append Py.replace_char].
  - reflexivity.
  - rewrite IH. destruct (Ascii.eqb a c); [|reflexivity].
    now rewrite append_assoc.
Qed.

Lemma replace_char_absent (c : ascii) (new s : string) :
  Py.has_char c s = false -> Py.replace_char c new s = s.
Proof.
  induction s as [|a s IH]; cbn [Py.has_char Py.replace_char]; intro H.
  - reflexivity.
  - apply orb_false_elim in H. destruct H as [Ha Hs]. now rewrite Ha, IH.
Qed.

Lemma hex_length (k : nat) : forall n, String.length (uuid.hex k n) = k.
Proof.
  induction k as [|k IH]; intro n; simpl.
  - reflexivity.
  - rewrite PathFacts.length_append, IH. simpl. lia.
Qed.

Lemma hex_digit_is_hex (n : N) (c : ascii) :
  Ascii.eqb (uuid.hex_digit n) c = true -> Py.has_char c hex_digits = true.
Proof.
  intro H. apply Ascii.eqb_eq in H. subst c. unfold uuid.hex_digit.
  remember (nth (N.to_nat n)
              ["0"; "1"; "2"; "3"; "4"; "5"; "6"; "7"; "8"; "9";
               "a"; "b"; "c"; "d"; "e"; "f"]%char "0"%char) as d eqn:Ed.
  assert (Hin : In d ["0"; "1"; "2"; "3"; "4"; "5"; "6"; "7"; "8"; "9";
                      "a"; "b"; "c"; "d"; "e"; "f"]%char).
  { subst d. destruct (nth_in_or_default (N.to_nat n)
              ["0"; "1"; "2"; "3"; "4"; "5"; "6"; "7"; "8"; "9";
               "a"; "b"; "c"; "d"; "e"; "f"]%char "0"%char) as [Hin | ->];
      [exact Hin | now left]. }
  clear Ed. cbn [In] in Hin.
  repeat (destruct Hin as [Hin | Hin]; [subst d; reflexivity|]).
  contradiction.
Qed.

Lemma hex_has_char (c : ascii) (k : nat) :
  forall n, Py.has_char c (uuid.hex k n) = true -> Py.has_char c hex_digits = true.
Proof.
  induction k as [|k IH]; intros n H; cbn [uuid.hex] in H.
  - discriminate.
  - rewrite TextFacts.has_char_append in H. apply orb_true_iff in H.
    destruct H as [H|H]; [now apply (IH _ H)|].
    cbn [Py.has_char] in H. rewrite orb_false_r in H.
    now apply (hex_digit_is_hex (n mod 16)).
Qed.

Lemma hex_lacks (c : ascii) (k : nat) (n : N) :
  Py.has_char c hex_digits = false -> Py.has_char c (uuid.hex k n) = false.
Proof.
  intro H. destruct (Py.has_char c (uuid.hex k n)) eqn:E; [|reflexivity].
  apply hex_has_char in E. congruence.
Qed.

(** Without its dashes the text of a UUID is its 32 hexadecimal digits. *)
Lemma minted_is_hex (u : N) : minted u = uuid.hex 32 u.
Proof.
  unfold minted, uuid.str. set (h := uuid.hex 32 u).
  assert (Hd : forall n m, Py.has_char "-" (substring n m h) = false).
  { intros n m. apply has_char_substring. now apply hex_lacks. }
  cbn [Py.join]. rewrite !replace_char_append.
  rewrite !(replace_char_absent "-" "" _ (Hd _ _)).
  change (Py.replace_char "-" "" "-") with EmptyString. cbn [append].
  rewrite <- !append_assoc.
  rewrite (substring_split 8 4 h). change (8 + 4) with 12.
  rewrite (substring_split 12 4 h). change (12 + 4) with 16.
  rewrite (substring_split 16 4 h). change (16 + 4) with 20.
  rewrite (substring_split 20 12 h).
  replace (20 + 12) with (String.length h) by (unfold h; now rewrite hex_length).
  apply substring_all.
Qed.

End IdFacts.

(** X1: the identifier made for a submission is 32 characters long, each
    of them a lowercase hexadecimal digit; so it holds no path separator
    and no NUL, and can be the name of a file. *)
Theorem X1_minted_identifier_is_32_hex_digits (u : N) :
  String.length (minted u) = 32
  /\ (forall c, Py.has_char c (minted u) = true -> Py.has_char c hex_digits = true)
  /\ plain (minted u) = true.
Proof.
  rewrite IdFacts.minted_is_hex. split; [apply IdFacts.hex_length|]. split.
  - intros c. apply IdFacts.hex_has_char.
  - unfold plain. now rewrite !IdFacts.hex_lacks.
Qed.

(* ------------------------------------------------------------------ *)
(** * What the requests and the threads keep                             *)
(* ------------------------------------------------------------------ *)

Module KeepFacts.
Section Tree.
Variable bytes : Type.

Lemma lookup_remove_other (k k' : string) (es : list (string * os.node bytes)) :
  k' <> k -> os.lookup bytes k' (os.remove bytes k es) = os.lookup bytes k' es.
Proof.
  intro Hne. induction es as [|e es IH]; simpl.
  - reflexivity.
  - destruct (String.eqb (fst e) k) eqn:E; simpl.
    + apply String.eqb_eq in E.
      destruct (String.eqb (fst e) k') eqn:E2;
        [apply String.eqb_eq in E2; congruence | reflexivity].
    + destruct (String.eqb (fst e) k'); [reflexivity | exact IH].
Qed.

Lemma extends_refl (n : os.node bytes) : Fs.extends bytes n n.
Proof. intro q. tauto. Qed.

Lemma extends_trans (n1 n2 n3 : os.node bytes) :
  Fs.extends bytes n1 n2 -> Fs.extends bytes n2 n3 -> Fs.extends bytes n1 n3.
Proof.
  intros H12 H23 q. destruct (H12 q) as [A B], (H23 q) as [C D]. split; auto.
Qed.

Lemma get_below_file_none (content : bytes) (q : list string) :
  os.get bytes (os.File content) q <> None -> q = [].
Proof. destruct q; simpl; congruence. Qed.

(** Putting something where no directory is loses nothing. *)
Lemma put_extends (p : list string) :
  forall (n n' x : os.node bytes),
    os.put bytes n p x = Some n' ->
    os.is_dir bytes n p = false ->
    Fs.extends bytes n n'.
Proof.
  induction p as [|c rest IH]; intros n n' x H Hnd q.
  - simpl in H. inversion H; subst n'. unfold os.is_dir in Hnd. simpl in Hnd.
    destruct n as [b|es]; [|discriminate]. split.
    + now rewrite FsFacts.get_below_file.
    + intro Hq. apply get_below_file_none in Hq. subst q. simpl. congruence.
  - simpl in H. destruct n as [b|es]; [discriminate|].
    destruct rest as [|c' rest'].
    + inversion H; subst n'. destruct q as [|k q'].
      * split; [reflexivity | simpl; congruence].
      * unfold os.is_dir in *. cbn [os.get] in *.
        destruct (string_dec k c) as [->|Hk].
        -- rewrite FsFacts.lookup_update_same.
           destruct (os.lookup bytes c es) as [[b|sub]|].
           ++ split.
              ** destruct q'; simpl; discriminate.
              ** intro Hq. apply get_below_file_none in Hq. subst q'. simpl. congruence.
           ++ discriminate.
           ++ split; [discriminate | congruence].
        -- rewrite (FsFacts.lookup_update_other bytes c k x es Hk). tauto.
    + destruct (os.lookup bytes c es) as [m|] eqn:El; [|discriminate].
      destruct (os.put bytes m (c' :: rest') x) as [m'|] eqn:Ep; [|discriminate].
      inversion H; subst n'. destruct q as [|k q'].
      * split; [reflexivity | simpl; congruence].
      * unfold os.is_dir in Hnd. cbn [os.get] in Hnd. rewrite El in Hnd.
        unfold os.is_dir. cbn [os.get].
        destruct (string_dec k c) as [->|Hk].
        -- rewrite FsFacts.lookup_update_same, El.
           exact (IH m m' x Ep Hnd q').
        -- rewrite (FsFacts.lookup_update_other bytes c k (os.Dir _) es Hk) || idtac.
           rewrite (FsFacts.lookup_update_other bytes c k m' es Hk). tauto.
Qed.

Lemma walk_extends (root root' : os.node bytes) (comps : list string) :
  Fs.extends bytes root root' ->
  forall cur p, os.walk bytes root cur comps = Ok p ->
                os.walk bytes root' cur comps = Ok p.
Proof.
  intro He. induction comps as [|c rest IH]; intros cur p H; simpl in *.
  - exact H.
  - destruct (He cur) as [Hd _]. unfold os.is_dir in Hd.
    destruct (os.get bytes root cur) as [[b|es]|]; try discriminate.
    specialize (Hd eq_refl).
    destruct (os.get bytes root' cur) as [[b'|es']|]; try discriminate.
    destruct (os.is_dot c); [now apply IH|].
    destruct (os.is_dotdot c); now apply IH.
Qed.

(** A path that exists still exists in a tree that extends the tree. *)
Lemma path_exists_extends (root root' : os.node bytes) (path : string) :
  Fs.extends bytes root root' ->
  os.path_exists bytes root path = true ->
  os.path_exists bytes root' path = true.
Proof.
  intros He. unfold os.path_exists, os.resolve.
  destruct (Py.has_char Py.NUL path); [discriminate|].
  destruct (os.walk bytes root [] (Py.split "/" path)) as [p|e] eqn:Ew;
    [|discriminate].
  rewrite (walk_extends root root' _ He _ _ Ew).
  destruct (He p) as [_ Hg].
  destruct (os.get bytes root p); [|discriminate].
  intros _. destruct (os.get bytes root' p); [reflexivity|].
  exfalso. apply Hg; congruence.
Qed.

Lemma write_file_extends (root root' : os.node bytes) (path : string) (content : bytes) :
  os.write_file bytes root path content = Ok root' -> Fs.extends bytes root root'.
Proof.
  unfold os.write_file. destruct (os.resolve bytes root path) as [p|e]; [|discriminate].
  intro H.
  assert (Hnd : os.is_dir bytes root p = false).
  { unfold os.is_dir. destruct (os.get bytes root p) as [[b|es]|];
      [reflexivity | discriminate | reflexivity]. }
  assert (Hput : os.put bytes root p (os.File content) = Some root').
  { destruct (os.get bytes root p) as [[b|es]|]; try discriminate;
      destruct (os.put bytes root p (os.File content)); congruence. }
  exact (put_extends p root root' _ Hput Hnd).
Qed.

Lemma makedirs_from_extends (comps : list string) :
  forall (root root' : os.node bytes) (cur : list string),
    os.makedirs_from bytes root cur comps = Ok root' -> Fs.extends bytes root root'.
Proof.
  induction comps as [|c rest IH]; intros root root' cur H; simpl in H.
  - inversion H. apply extends_refl.
  - destruct (os.get bytes root (cur ++ [c])) as [[b|es]|] eqn:Eg.
    + destruct rest; discriminate.
    + exact (IH _ _ _ H).
    + destruct (os.put bytes root (cur ++ [c]) (os.Dir [])) as [r|] eqn:Ep;
        [|discriminate].
      apply (extends_trans root r root').
      * apply (put_extends (cur ++ [c]) root r _ Ep).
        unfold os.is_dir. now rewrite Eg.
      * exact (IH _ _ _ H).
Qed.

End Tree.
End KeepFacts.

Section Keeping.
Context {PF : PyFloat} {PD : Pydantic} {EX : Externals}.

Lemma change_fs_keeps (op : os.node bytes -> result (os.node bytes)) (w : World) :
  (forall root', op (fs w) = Ok root' -> Fs.extends bytes (fs w) root') ->
  Fs.extends bytes (fs w) (fs (snd (change_fs op w)))
  /\ same_but_files w (snd (change_fs op w)).
Proof.
  intro H. unfold change_fs, same_but_files.
  destruct (op (fs w)) as [root'|e] eqn:E; cbn [snd fs with_fs uuid_calls threads clipboard].
  - split; [now apply H | auto].
  - split; [apply KeepFacts.extends_refl | auto].
Qed.

Lemma save_company_keeps (company_id : string) (c : Company) (w : World) :
  Fs.extends bytes (fs w) (fs (after (save_company company_id c) w))
  /\ same_but_files w (after (save_company company_id c) w).
Proof.
  unfold after, save_company, bind, os_makedirs, open_wb_write.
  destruct (change_fs_keeps (fun root => os.makedirs bytes root "data/pkl") w)
    as [He1 Hs1].
  { intros root'. apply KeepFacts.makedirs_from_extends. }
  destruct (change_fs (fun root => os.makedirs bytes root "data/pkl") w)
    as [[[]|e] w1] eqn:E1; cbn [snd] in *; [|tauto].
  match goal with |- context [change_fs ?op w1] =>
    destruct (change_fs_keeps op w1) as [He2 Hs2]
  end.
  { intros root'. apply KeepFacts.write_file_extends. }
  unfold same_but_files in *. split.
  - eapply KeepFacts.extends_trans; eassumption.
  - intuition congruence.
Qed.

Lemma extract_company_data_keeps (company_id : string) (w : World) :
  Fs.extends bytes (fs w) (fs (after (extract_company_data company_id) w))
  /\ same_but_files w (after (extract_company_data company_id) w).
Proof.
  assert (Hsame : Fs.extends bytes (fs w) (fs w) /\ same_but_files w w).
  { split; [apply KeepFacts.extends_refl | unfold same_but_files; auto]. }
  assert (E : exists r, extract_company_data company_id w = (r, w)
                        \/ exists cb,
                             extract_company_data company_id w
                             = (r, after (save_company company_id
                                            {| company_base := cb; id := company_id |}) w)).
  { unfold extract_company_data, client_files_upload, os_path_isfile, open_rb_read,
      lift, client_models_generate_content, lift, bind.
    destruct (os.isfile bytes (fs w) _); [|unfold raise; eauto].
    destruct (os.read_file bytes (fs w) _) as [content|e]; [|eauto].
    destruct (files_upload content) as [doc|e]; [|eauto].
    destruct (generate_content doc) as [response|e]; [|eauto].
    destruct (parsed response) as [cb|]; [|unfold raise; eauto].
    unfold after, ret.
    destruct (save_company company_id _ w) as [[[]|e] w1] eqn:Es;
      eexists; right; exists cb; rewrite Es; reflexivity. }
  destruct E as [r [E | [cb E]]]; unfold after; rewrite E; cbn [snd].
  - exact Hsame.
  - apply save_company_keeps.
Qed.

Lemma handle_file_select_keeps (file : option (string * bytes)) (w : World) :
  Fs.extends bytes (fs w) (fs (after (handle_file_select file) w))
  /\ same_but_files w (after (handle_file_select file) w).
Proof.
  assert (Hsame : Fs.extends bytes (fs w) (fs w) /\ same_but_files w w).
  { split; [apply KeepFacts.extends_refl | unfold same_but_files; auto]. }
  unfold after, handle_file_select.
  destruct file as [[filename content]|]; [|exact Hsame].
  destruct (String.eqb filename ""); [exact Hsame|].
  unfold bind, os_makedirs, open_wb_write, ret.
  destruct (change_fs_keeps (fun root => os.makedirs bytes root "data/temp") w)
    as [He1 Hs1].
  { intros root'. apply KeepFacts.makedirs_from_extends. }
  destruct (change_fs (fun root => os.makedirs bytes root "data/temp") w)
    as [[[]|e] w1] eqn:E1; cbn [snd] in *; [|tauto].
  match goal with |- context [change_fs ?op w1] =>
    destruct (change_fs_keeps op w1) as [He2 Hs2]
  end.
  { intros root'. apply KeepFacts.write_file_extends. }
  match goal with |- context [change_fs ?op w1] =>
    destruct (change_fs op w1) as [[[]|e] w2]
  end; cbn [snd] in *; unfold same_but_files in *;
    (split; [eapply KeepFacts.extends_trans; eassumption | intuition congruence]).
Qed.

Lemma load_entries_pure (names : list string) (w : World) :
  after (load_entries names) w = w.
Proof.
  unfold after. induction names as [|n names IH]; cbn [load_entries].
  - reflexivity.
  - unfold bind at 1, open_rb_read.
    destruct (os.read_file bytes (fs w) _) as [content|e]; [|reflexivity].
    unfold bind at 1, pickle_load.
    destruct (pickle_loads content) as [c|]; [|reflexivity].
    unfold ret at 1, bind at 1.
    destruct (load_entries names w) as [[l|e] w1]; cbn [snd] in *; subst; reflexivity.
Qed.

Lemma get_company_list_pure (w : World) : after get_company_list w = w.
Proof. unfold after, get_company_list. apply load_entries_pure. Qed.

Lemma get_copy_shape (company_id field_name : string) (w : World) :
  exists r cl,
    get_copy company_id field_name w
    = (r, {| fs := fs w; uuid_calls := uuid_calls w; threads := threads w;
             clipboard := cl |}).
Proof.
  assert (Hw : w = {| fs := fs w; uuid_calls := uuid_calls w; threads := threads w;
                      clipboard := clipboard w |}) by (destruct w; reflexivity).
  unfold get_copy. unfold bind at 1.
  pose proof (company_pure w company_id) as Hc. unfold after in Hc.
  destruct (company company_id w) as [[c|e] w1]; cbn [snd] in *; subst w1.
  - unfold bind, lift, pyperclip_copy, ret.
    destruct (getattr c field_name) as [a|e].
    + destruct a as [f|t|f|s];
        try destruct (format_for_excel_clipboard (data (financial_data f)));
        try (eexists _, _; reflexivity); eexists _, _; rewrite Hw at 1; reflexivity.
    + eexists _, _; rewrite Hw at 1; reflexivity.
  - eexists _, _; rewrite Hw at 1; reflexivity.
Qed.

Lemma get_copy_keeps (company_id field_name : string) (w : World) :
  fs (after (get_copy company_id field_name) w) = fs w
  /\ uuid_calls (after (get_copy company_id field_name) w) = uuid_calls w
  /\ threads (after (get_copy company_id field_name) w) = threads w.
Proof.
  destruct (get_copy_shape company_id field_name w) as [r [cl E]].
  unfold after. rewrite E. auto.
Qed.

Lemma run_thread_keeps (n : nat) (w : World) :
  Fs.extends bytes (fs w) (fs (run_thread n w))
  /\ uuid_calls (run_thread n w) = uuid_calls w
  /\ clipboard (run_thread n w) = clipboard w.
Proof.
  unfold run_thread. destruct (nth_error (threads w) n) as [company_id|].
  - match goal with |- context [after _ ?w0] =>
      destruct (extract_company_data_keeps company_id w0) as [He [Hu [_ Hc]]]
    end.
    cbn [fs uuid_calls clipboard] in *. auto.
  - split; [apply KeepFacts.extends_refl | auto].
Qed.

(** Every event that is no submission leaves a tree that extends the
    tree. *)
Lemma step_extends (e : event) (w : World) :
  is_submission e = false -> Fs.extends bytes (fs w) (fs (step e w)).
Proof.
  destruct e; cbn [is_submission step]; intro H; try discriminate.
  - apply handle_file_select_keeps.
  - unfold get_extract_company_data, after. rewrite status_query. cbn [snd].
    apply KeepFacts.extends_refl.
  - rewrite company_pure. apply KeepFacts.extends_refl.
  - rewrite get_company_list_pure. apply KeepFacts.extends_refl.
  - destruct (get_copy_keeps company_id field_name w) as [-> _].
    apply KeepFacts.extends_refl.
  - apply run_thread_keeps.
Qed.

(** X2: whatever exists in the files still exists after an upload, a
    run of an extraction thread, a status query, a load, a list or a copy:
    of all the events only a submission (which moves a file) can make a
    path cease to exist. *)
Theorem X2_only_a_submission_removes_a_path
    (events : list event) (w : World) (path : string) :
  (forall e, In e events -> is_submission e = false) ->
  os.path_exists bytes (fs w) path = true ->
  os.path_exists bytes (fs (run events w)) path = true.
Proof.
  revert w. induction events as [|e events IH]; intros w Hev H.
  - exact H.
  - cbn [run fold_left]. apply IH.
    + intros e' Hin. apply Hev. now right.
    + apply (KeepFacts.path_exists_extends bytes (fs w)); [|exact H].
      apply step_extends. apply Hev. now left.
Qed.

(** X3: a status query, a load and a list leave the whole state as it
    was, and a copy changes nothing but the clipboard: no read touches the
    files, draws an identifier or starts a thread. *)
Theorem X3_reads_change_nothing_but_the_clipboard (e : event) (w : World) :
  is_read e = true ->
  fs (step e w) = fs w
  /\ uuid_calls (step e w) = uuid_calls w
  /\ threads (step e w) = threads w
  /\ ((forall company_id field_name, e <> GET_copy company_id field_name) ->
      step e w = w).
Proof.
  destruct e; cbn [is_read step]; intro H; try discriminate.
  - unfold get_extract_company_data, after. rewrite status_query. cbn [snd]. auto.
  - rewrite company_pure. auto.
  - rewrite get_company_list_pure. auto.
  - destruct (get_copy_keeps company_id field_name w) as [Hf [Hu Ht]].
    repeat split; try assumption.
    intro Hne. exfalso. now apply (Hne company_id field_name).
Qed.

End Keeping.

(* ------------------------------------------------------------------ *)
(** * Submissions                                                        *)
(* ------------------------------------------------------------------ *)

Module MoveFacts.
Section Tree.
Variable bytes : Type.

Lemma get_put_diverge (p : list string) :
  forall (n n' x : os.node bytes) (q : list string),
    os.put bytes n p x = Some n' ->
    Fs.diverge p q = true ->
    os.get bytes n' q = os.get bytes n q.
Proof.
  induction p as [|c rest IH]; intros n n' x q H Hd.
  - discriminate.
  - destruct q as [|k q']; [discriminate|].
    simpl in H. destruct n as [b|es]; [discriminate|].
    cbn [Fs.diverge] in Hd.
    destruct rest as [|c' rest'].
    + inversion H; subst n'. cbn [os.get].
      destruct (String.eqb c k) eqn:E; [destruct q'; discriminate|].
      apply String.eqb_neq in E.
      rewrite FsFacts.lookup_update_other; [reflexivity | congruence].
    + destruct (os.lookup bytes c es) as [m|] eqn:El; [|discriminate].
      destruct (os.put bytes m (c' :: rest') x) as [m'|] eqn:Ep; [|discriminate].
      inversion H; subst n'. cbn [os.get].
      destruct (String.eqb c k) eqn:E.
      * apply String.eqb_eq in E. subst k.
        rewrite FsFacts.lookup_update_same, El. exact (IH m m' x q' Ep Hd).
      * apply String.eqb_neq in E.
        rewrite FsFacts.lookup_update_other; [reflexivity | congruence].
Qed.

Lemma get_del_diverge (p : list string) :
  forall (n n' : os.node bytes) (q : list string),
    os.del bytes n p = Some n' ->
    Fs.diverge p q = true ->
    os.get bytes n' q = os.get bytes n q.
Proof.
  induction p as [|c rest IH]; intros n n' q H Hd.
  - discriminate.
  - destruct q as [|k q']; [discriminate|].
    simpl in H. destruct n as [b|es]; [discriminate|].
    cbn [Fs.diverge] in Hd.
    destruct rest as [|c' rest'].
    + inversion H; subst n'. cbn [os.get].
      destruct (String.eqb c k) eqn:E; [destruct q'; discriminate|].
      apply String.eqb_neq in E.
      rewrite KeepFacts.lookup_remove_other; [reflexivity | congruence].
    + destruct (os.lookup bytes c es) as [m|] eqn:El; [|discriminate].
      destruct (os.del bytes m (c' :: rest')) as [m'|] eqn:Ep; [|discriminate].
      inversion H; subst n'. cbn [os.get].
      destruct (String.eqb c k) eqn:E.
      * apply String.eqb_eq in E. subst k.
        rewrite FsFacts.lookup_update_same, El. exact (IH m m' q' Ep Hd).
      * apply String.eqb_neq in E.
        rewrite FsFacts.lookup_update_other; [reflexivity | congruence].
Qed.

(** What a rename that succeeds has done. *)
Lemma rename_shape (root root2 : os.node bytes) (src dst : string) :
  os.rename bytes root src dst = Ok root2 ->
  exists p q,
    os.resolve bytes root src = Ok p /\ os.resolve bytes root dst = Ok q
    /\ String.eqb (List.last (Py.split "/" src) EmptyString) "." = false
    /\ String.eqb (List.last (Py.split "/" src) EmptyString) ".." = false
    /\ ((root2 = root /\ p = q)
        \/ exists x r1,
             os.get bytes root p = Some x
             /\ os.del bytes root p = Some r1
             /\ os.put bytes r1 q x = Some root2).
Proof.
  unfold os.rename.
  destruct (os.resolve bytes root src) as [p|e]; [|discriminate].
  destruct (os.resolve bytes root dst) as [q|e]; [|discriminate].
  destruct (String.eqb (List.last (Py.split "/" src) EmptyString) ".") eqn:E1;
    [discriminate|].
  destruct (String.eqb (List.last (Py.split "/" src) EmptyString) "..") eqn:E2;
    [discriminate|].
  cbn [orb]. intro H. exists p, q. repeat split; try reflexivity.
  destruct (os.get bytes root p) as [[content|es]|] eqn:Eg; [| |discriminate].
  - destruct (os.get bytes root q) as [[b|sub]|]; try discriminate;
      (destruct (list_eq_dec string_dec p q); [left; split; congruence|];
       destruct (os.del bytes root p) as [r1|] eqn:Ed; [|discriminate];
       destruct (os.put bytes r1 q (os.File content)) as [r2|] eqn:Ep; [|discriminate];
       right; exists (os.File content), r1; repeat split; congruence).
  - destruct (list_eq_dec string_dec p q); [left; split; congruence|].
    destruct (os.is_prefix p q); [discriminate|].
    destruct (os.get bytes root q) as [[b|[|s sub]]|]; try discriminate;
      (destruct (os.del bytes root p) as [r1|] eqn:Ed; [|discriminate];
       destruct (os.put bytes r1 q (os.Dir es)) as [r2|] eqn:Ep; [|discriminate];
       right; exists (os.Dir es), r1; repeat split; congruence).
Qed.

(** The walk along two plain names below [data]. *)
Lemma walk_two_below_data (root : os.node bytes) (d f : string) (p : list string) :
  os.is_dot d = false -> os.is_dotdot d = false ->
  os.is_dot f = false -> os.is_dotdot f = false ->
  os.walk bytes root [] ["data"; d; f] = Ok p ->
  p = ["data"; d; f] /\ os.is_dir bytes root ["data"; d] = true.
Proof.
  intros Hd Hdd Hf Hff. cbn [os.walk].
  destruct (os.get bytes root []) as [[b|es]|]; try discriminate.
  change (os.is_dot "data") with false. change (os.is_dotdot "data") with false.
  cbn iota. cbn [app].
  destruct (os.get bytes root ["data"]) as [[b|des]|]; try discriminate.
  rewrite Hd, Hdd. cbn [app]. unfold os.is_dir.
  destruct (os.get bytes root ["data"; d]) as [[b|fes]|]; try discriminate.
  rewrite Hf, Hff. cbn [app]. intro H. inversion H. auto.
Qed.

Lemma del_succeeds (p : list string) :
  forall (n x : os.node bytes),
    p <> [] -> os.get bytes n p = Some x -> exists r, os.del bytes n p = Some r.
Proof.
  induction p as [|c rest IH]; intros n x Hne H; [congruence|].
  cbn [os.get] in H. destruct n as [b|es]; [discriminate|]. cbn [os.del].
  destruct (os.lookup bytes c es) as [m|] eqn:El; [|discriminate].
  destruct rest as [|c' rest']; [eauto|].
  destruct (IH m x) as [r Hr]; [discriminate | exact H|].
  rewrite Hr. eauto.
Qed.

Lemma put_succeeds (p : list string) (c : string) :
  forall (n x : os.node bytes),
    os.is_dir bytes n p = true -> exists n', os.put bytes n (p ++ [c]) x = Some n'.
Proof.
  induction p as [|k rest IH]; intros n x H; unfold os.is_dir in H.
  - cbn [os.get] in H. destruct n as [b|es]; [discriminate|]. simpl. eauto.
  - cbn [os.get] in H. destruct n as [b|es]; [discriminate|].
    destruct (os.lookup bytes k es) as [m|] eqn:El; [|discriminate].
    destruct (IH m x H) as [m' Hm]. cbn [app os.put]. rewrite El.
    destruct (rest ++ [c]) eqn:E; [destruct rest; discriminate|].
    rewrite Hm. eauto.
Qed.

(** What was taken away is not there, when its directory had the name
    once. *)
Lemma get_del_same (p : list string) (c : string) :
  forall (n n' : os.node bytes) (es : list (string * os.node bytes)),
    os.del bytes n (p ++ [c]) = Some n' ->
    os.get bytes n p = Some (os.Dir es) ->
    os.lookup bytes c (os.remove bytes c es) = None ->
    os.get bytes n' (p ++ [c]) = None.
Proof.
  induction p as [|k rest IH]; intros n n' es Hd Hg Hl.
  - cbn [os.get] in Hg. inversion Hg; subst n. cbn [app os.del] in Hd.
    inversion Hd; subst n'. cbn [app os.get]. now rewrite Hl.
  - cbn [os.get] in Hg. destruct n as [b|ents]; [discriminate|].
    destruct (os.lookup bytes k ents) as [m|] eqn:El; [|discriminate].
    cbn [app os.del] in Hd. rewrite El in Hd.
    destruct (rest ++ [c]) as [|y ys] eqn:E; [destruct rest; discriminate|].
    destruct (os.del bytes m (y :: ys)) as [m'|] eqn:Em; [|discriminate].
    inversion Hd; subst n'. cbn [app os.get]. rewrite E.
    change (os.get bytes (os.Dir (os.update bytes k m' ents)) (k :: y :: ys))
      with (match os.lookup bytes k (os.update bytes k m' ents) with
            | Some m0 => os.get bytes m0 (y :: ys)
            | None => None
            end).
    rewrite FsFacts.lookup_update_same.
    exact (IH m m' es Em Hg Hl).
Qed.

(** Above a path that exists there are directories. *)
Lemma get_prefix_dir (p : list string) (c : string) :
  forall (n x : os.node bytes),
    os.get bytes n (p ++ [c]) = Some x -> os.is_dir bytes n p = true.
Proof.
  induction p as [|k rest IH]; intros n x H; unfold os.is_dir.
  - cbn [app os.get] in *. destruct n; [discriminate | reflexivity].
  - cbn [app os.get] in *. destruct n as [b|es]; [discriminate|].
    destruct (os.lookup bytes k es) as [m|]; [|discriminate].
    exact (IH m x H).
Qed.

Lemma walk_two_forward (root : os.node bytes) (d f : string) :
  os.is_dot d = false -> os.is_dotdot d = false ->
  os.is_dot f = false -> os.is_dotdot f = false ->
  os.is_dir bytes root ["data"; d] = true ->
  os.walk bytes root [] ["data"; d; f] = Ok ["data"; d; f].
Proof.
  intros Hd Hdd Hf Hff H. unfold os.is_dir in H. cbn [os.walk].
  assert (H1 : os.is_dir bytes root ["data"] = true).
  { destruct (os.get bytes root ["data"; d]) as [x|] eqn:E; [|discriminate].
    exact (get_prefix_dir ["data"] d root x E). }
  assert (H0 : os.is_dir bytes root [] = true).
  { unfold os.is_dir in H1.
    destruct (os.get bytes root ["data"]) as [x|] eqn:E; [|discriminate].
    exact (get_prefix_dir [] "data" root x E). }
  unfold os.is_dir in H0, H1.
  destruct (os.get bytes root []) as [[b|es]|]; try discriminate.
  change (os.is_dot "data") with false. change (os.is_dotdot "data") with false.
  cbn iota. cbn [app].
  destruct (os.get bytes root ["data"]) as [[b|des]|]; try discriminate.
  rewrite Hd, Hdd. cbn [app].
  destruct (os.get bytes root ["data"; d]) as [[b|fes]|]; try discriminate.
  now rewrite Hf, Hff.
Qed.

End Tree.

Lemma split_sep (c : ascii) (s t : string) :
  Py.has_char c s = false ->
  Py.split c (append s (String c t)) = s :: Py.split c t.
Proof.
  induction s as [|a s IH]; cbn [append Py.has_char Py.split]; intro H.
  - now rewrite Ascii.eqb_refl.
  - apply orb_false_elim in H. destruct H as [Ha Hs].
    rewrite Ha, (IH Hs). reflexivity.
Qed.

(** The components of [data/<d>/<f>] for plain [d] and [f]. *)
Lemma split_two_below_data (d f : string) :
  plain d = true -> plain f = true ->
  Py.split "/" (append "data/" (append d (String "/" f))) = ["data"; d; f]
  /\ Py.has_char Py.NUL (append "data/" (append d (String "/" f))) = false.
Proof.
  unfold plain. intros Hd Hf.
  apply andb_true_iff in Hd, Hf. destruct Hd as [Hd1 Hd2], Hf as [Hf1 Hf2].
  apply negb_true_iff in Hd1, Hd2, Hf1, Hf2. split.
  - change (append "data/" (append d (String "/" f)))
      with (append "data" (String "/" (append d (String "/" f)))).
    rewrite (split_sep "/" "data" _ eq_refl), (split_sep "/" d f Hd1).
    now rewrite (PathFacts.split_plain "/" f Hf1).
  - rewrite !TextFacts.has_char_append. cbn [Py.has_char].
    rewrite Hd2, Hf2. reflexivity.
Qed.

Lemma last_of_three (a b c : string) : List.last [a; b; c] EmptyString = c.
Proof. reflexivity. Qed.

(** A name of three characters or more is neither [.] nor [..]. *)
Lemma long_name_not_special (s : string) :
  3 <= String.length s -> os.is_dot s = false /\ os.is_dotdot s = false.
Proof.
  intro H.
  assert (L : forall t, String.length t < 3 -> String.eqb s t = false).
  { intros t Ht. apply String.eqb_neq. intro E. subst t. lia. }
  unfold os.is_dot, os.is_dotdot. rewrite !L by (simpl; lia). auto.
Qed.

End MoveFacts.

Section Submissions.
Context {PF : PyFloat} {PD : Pydantic} {EX : Externals}.

Lemma minted_plain (u : N) : plain (minted u) = true.
Proof.
  rewrite IdFacts.minted_is_hex. unfold plain. now rewrite !IdFacts.hex_lacks.
Qed.

Lemma plain_append (s t : string) :
  plain s = true -> plain t = true -> plain (append s t) = true.
Proof.
  unfold plain. intros Hs Ht. apply andb_true_iff in Hs, Ht.
  destruct Hs as [Hs1 Hs2], Ht as [Ht1 Ht2].
  apply negb_true_iff in Hs1, Hs2, Ht1, Ht2.
  now rewrite !TextFacts.has_char_append, Hs1, Hs2, Ht1, Ht2.
Qed.

(** What a submission of a document that is found does, step by step. *)
Lemma handle_extraction_shape (f : string) (w : World) :
  String.eqb f "" = false ->
  os.path_exists bytes (fs w) (append "data/temp/" f) = true ->
  handle_extraction (Some f) w
  = match os.makedirs bytes (fs w) "data/pdf" with
    | Raise e => (Raise e, drew w (fs w) (threads w))
    | Ok root1 =>
        match os.rename bytes root1 (append "data/temp/" f)
                (append "data/pdf/" (append (minted (uuid4 (uuid_calls w))) ".pdf")) with
        | Raise e => (Raise e, drew w root1 (threads w))
        | Ok root2 =>
            (Ok (status_view root2 (minted (uuid4 (uuid_calls w)))),
             drew w root2 (threads w ++ [minted (uuid4 (uuid_calls w))]))
        end
    end.
Proof.
  intros Hf He. unfold handle_extraction. rewrite Hf.
  unfold bind, os_path_exists, uuid_uuid4, os_makedirs, os_rename, change_fs,
    threaded_extract_company_data, extract_company_data_status, ret, status_view,
    pkl_path, minted, drew.
  rewrite He. cbn [negb fs with_fs uuid_calls threads clipboard].
  destruct (os.makedirs bytes (fs w) "data/pdf") as [root1|e]; [|reflexivity].
  cbn [fs with_fs uuid_calls threads clipboard].
  destruct (os.rename bytes root1 _ _) as [root2|e]; [|reflexivity].
  unfold bind, os_path_exists, ret.
  cbn [fs with_fs uuid_calls threads clipboard].
  destruct (os.path_exists bytes root2 _); reflexivity.
Qed.

(** A submission that is rejected leaves the state as it was. *)
Lemma handle_extraction_rejects (filename : option string) (w : World) :
  missing_document (fs w) filename = true ->
  after (handle_extraction filename) w = w.
Proof.
  intro H. unfold after, handle_extraction, missing_document in *.
  destruct filename as [f|]; [|reflexivity].
  destruct (String.eqb f ""); [reflexivity|].
  cbn [orb] in H. unfold bind, os_path_exists, ret. now rewrite H.
Qed.

Lemma snapshot_iff_exists (root : os.node bytes) (company_id : string) :
  plain company_id = true ->
  (os.path_exists bytes root (pkl_path company_id) = true
   <-> has_snapshot root company_id).
Proof.
  intro Hp. unfold has_snapshot.
  destruct (PathFacts.split_pkl_path company_id Hp) as [Hsplit Hnul].
  destruct (PathFacts.pkl_name_not_special company_id) as [Hdot Hdd].
  split.
  - unfold os.path_exists, os.resolve. rewrite Hnul, Hsplit.
    destruct (os.walk bytes root [] _) as [p|e] eqn:Ew; [|discriminate].
    destruct (MoveFacts.walk_two_below_data bytes root "pkl" _ p
                eq_refl eq_refl Hdot Hdd Ew) as [-> _].
    destruct (os.get bytes root _); [congruence | discriminate].
  - intro H.
    destruct (os.get bytes root ["data"; "pkl"; pkl_name company_id]) as [x|] eqn:Eg;
      [|congruence].
    pose proof (MoveFacts.get_prefix_dir bytes ["data"; "pkl"] _ root x Eg) as Hd.
    unfold os.path_exists, os.resolve. rewrite Hnul, Hsplit.
    rewrite (MoveFacts.walk_two_forward bytes root "pkl" _ eq_refl eq_refl Hdot Hdd Hd).
    now rewrite Eg.
Qed.

Lemma extends_keeps_snapshot (root root' : os.node bytes) (company_id : string) :
  Fs.extends bytes root root' ->
  has_snapshot root company_id -> has_snapshot root' company_id.
Proof. intros He H. now apply He. Qed.

(** The resolution of [data/<d>/<f>], when it succeeds. *)
Lemma resolve_two_below_data (root : os.node bytes) (d f : string) (p : list string) :
  plain d = true -> os.is_dot d = false -> os.is_dotdot d = false ->
  plain f = true -> os.is_dot f = false -> os.is_dotdot f = false ->
  os.resolve bytes root (append "data/" (append d (String "/" f))) = Ok p ->
  p = ["data"; d; f].
Proof.
  intros Hd Hd1 Hd2 Hf Hf1 Hf2. unfold os.resolve.
  destruct (MoveFacts.split_two_below_data d f Hd Hf) as [-> ->].
  intro Hw.
  now destruct (MoveFacts.walk_two_below_data bytes root d f p Hd1 Hd2 Hf1 Hf2 Hw).
Qed.

Lemma pdf_name_facts (cid : string) :
  plain cid = true ->
  plain (append cid ".pdf") = true
  /\ os.is_dot (append cid ".pdf") = false
  /\ os.is_dotdot (append cid ".pdf") = false.
Proof.
  intro H. split; [now apply plain_append|].
  apply MoveFacts.long_name_not_special.
  rewrite PathFacts.length_append. simpl. lia.
Qed.

(** The move of a submission with a plain file name leaves the
    snapshots where they are. *)
Lemma rename_keeps_snapshot (root1 root2 : os.node bytes) (f cid company_id : string) :
  plain f = true -> String.eqb f "" = false -> plain cid = true ->
  os.rename bytes root1 (append "data/temp/" f)
    (append "data/pdf/" (append cid ".pdf")) = Ok root2 ->
  has_snapshot root1 company_id -> has_snapshot root2 company_id.
Proof.
  intros Hf Hne Hcid Hr Hs.
  destruct (MoveFacts.rename_shape bytes root1 root2 _ _ Hr)
    as (p & q & Hp & Hq & Hl1 & Hl2 & [[-> _] | (x & r1 & Hg & Hd & Hput)]);
    [exact Hs|].
  change (append "data/temp/" f) with (append "data/" (append "temp" (String "/" f)))
    in Hp, Hl1, Hl2.
  change (append "data/pdf/" (append cid ".pdf"))
    with (append "data/" (append "pdf" (String "/" (append cid ".pdf")))) in Hq.
  destruct (MoveFacts.split_two_below_data "temp" f eq_refl Hf) as [Hsplit _].
  rewrite Hsplit, MoveFacts.last_of_three in Hl1, Hl2.
  assert (Hdot : os.is_dot f = false) by (unfold os.is_dot; now rewrite Hne, Hl1).
  destruct (pdf_name_facts cid Hcid) as (Hg1 & Hg2 & Hg3).
  apply (resolve_two_below_data root1 "temp" f p eq_refl eq_refl eq_refl Hf Hdot Hl2)
    in Hp.
  apply (resolve_two_below_data root1 "pdf" _ q eq_refl eq_refl eq_refl Hg1 Hg2 Hg3)
    in Hq.
  subst p q. unfold has_snapshot in *.
  rewrite (MoveFacts.get_put_diverge bytes _ r1 root2 x
             ["data"; "pkl"; pkl_name company_id] Hput eq_refl).
  now rewrite (MoveFacts.get_del_diverge bytes _ root1 r1
                 ["data"; "pkl"; pkl_name company_id] Hd eq_refl).
Qed.

Lemma handle_extraction_keeps_snapshot (filename : option string) (w : World)
    (company_id : string) :
  plain_submission (POST_extract filename) = true ->
  has_snapshot (fs w) company_id ->
  has_snapshot (fs (after (handle_extraction filename) w)) company_id.
Proof.
  intros Hplain Hs.
  destruct (missing_document (fs w) filename) eqn:Em.
  - now rewrite handle_extraction_rejects.
  - destruct filename as [f|]; [|discriminate]. cbn [plain_submission] in Hplain.
    unfold missing_document in Em. apply orb_false_elim in Em.
    destruct Em as [Hne He]. apply negb_false_iff in He.
    unfold after. rewrite (handle_extraction_shape f w Hne He).
    destruct (os.makedirs bytes (fs w) "data/pdf") as [root1|e] eqn:E1.
    + assert (Hs1 : has_snapshot root1 company_id).
      { apply (extends_keeps_snapshot (fs w)); [|exact Hs].
        exact (KeepFacts.makedirs_from_extends bytes _ _ _ _ E1). }
      destruct (os.rename bytes root1 _ _) as [root2|e] eqn:E2;
        cbn [snd fs drew]; [|exact Hs1].
      exact (rename_keeps_snapshot root1 root2 f _ company_id Hplain Hne
               (minted_plain _) E2 Hs1).
    + exact Hs.
Qed.

Lemma step_keeps_snapshot (e : event) (w : World) (company_id : string) :
  plain_submission e = true ->
  has_snapshot (fs w) company_id -> has_snapshot (fs (step e w)) company_id.
Proof.
  intros Hp Hs. destruct (is_submission e) eqn:Es.
  - destruct e; try discriminate. cbn [step].
    now apply handle_extraction_keeps_snapshot.
  - apply (extends_keeps_snapshot (fs w)); [|exact Hs]. now apply step_extends.
Qed.

(** X4: status monotonicity for well-formed traffic.  For an identifier
    that is a plain name, once the status query answers "complete" it
    answers "complete" after every run of events (uploads, submissions,
    thread runs, status queries, loads, lists, copies) in which the file
    name of every submission is a plain name (no path separator). *)
Theorem X4_complete_stays_complete_under_plain_submissions
    (events : list event) (w : World) (company_id : string) :
  plain company_id = true ->
  (forall e, In e events -> plain_submission e = true) ->
  status w company_id = Ok (extraction_complete company_id) ->
  status (run events w) company_id = Ok (extraction_complete company_id).
Proof.
  intros Hid Hev Hst.
  assert (Hinv : forall w', has_snapshot (fs w') company_id ->
                            status w' company_id = Ok (extraction_complete company_id)).
  { intros w' H. unfold status. rewrite status_query. cbn [fst].
    now rewrite (proj2 (snapshot_iff_exists (fs w') company_id Hid) H). }
  apply Hinv.
  assert (H0 : has_snapshot (fs w) company_id).
  { apply (snapshot_iff_exists (fs w) company_id Hid).
    unfold status in Hst. rewrite status_query in Hst. cbn [fst] in Hst.
    destruct (os.path_exists bytes (fs w) _); [reflexivity|].
    exfalso. apply (answers_differ company_id company_id). congruence. }
  clear Hst Hinv. revert w H0.
  induction events as [|e events IH]; intros w H0; [exact H0|].
  cbn [run fold_left]. apply IH.
  - intros e' Hin. apply Hev. now right.
  - apply step_keeps_snapshot; [apply Hev; now left | exact H0].
Qed.

End Submissions.

Module MoveFacts2.
Section Tree.
Variable bytes : Type.

Lemma get_snoc (p : list string) (c : string) :
  forall (n : os.node bytes),
    os.get bytes n (p ++ [c])
    = match os.get bytes n p with
      | Some (os.Dir es) => os.lookup bytes c es
      | _ => None
      end.
Proof.
  induction p as [|k rest IH]; intro n.
  - cbn [app os.get]. destruct n as [b|es]; [reflexivity|].
    destruct (os.lookup bytes c es); reflexivity.
  - cbn [app os.get]. destruct n as [b|es]; [reflexivity|].
    destruct (os.lookup bytes k es) as [m|]; [apply IH | reflexivity].
Qed.

(** [makedirs("data/pdf")] where [data] is a directory and [data/pdf]
    is no regular file. *)
Lemma makedirs_pdf (root : os.node bytes) (g : string) :
  os.is_dir bytes root ["data"] = true ->
  (forall b, os.get bytes root ["data"; "pdf"] <> Some (os.File b)) ->
  os.is_dir bytes root ["data"; "pdf"; g] = false ->
  exists root1,
    os.makedirs bytes root "data/pdf" = Ok root1
    /\ (forall q, Fs.diverge ["data"; "pdf"] q = true ->
                  os.get bytes root1 q = os.get bytes root q)
    /\ os.is_dir bytes root1 ["data"; "pdf"] = true
    /\ os.is_dir bytes root1 ["data"; "pdf"; g] = false.
Proof.
  intros Hdata Hpdf Hfree. unfold os.makedirs.
  change (Py.split "/" "data/pdf") with ["data"; "pdf"].
  cbn [os.makedirs_from app]. unfold os.is_dir in Hdata.
  destruct (os.get bytes root ["data"]) as [[b|des]|] eqn:Ed; try discriminate.
  destruct (os.get bytes root ["data"; "pdf"]) as [[b|pes]|] eqn:Ep.
  - exfalso. now apply (Hpdf b).
  - exists root. repeat split; try assumption.
    unfold os.is_dir. now rewrite Ep.
  - destruct (MoveFacts.put_succeeds bytes ["data"] "pdf" root (os.Dir []))
      as [root1 Hput].
    { unfold os.is_dir. now rewrite Ed. }
    cbn [app] in Hput. rewrite Hput. exists root1.
    pose proof (FsFacts.get_put_same bytes _ _ _ _ Hput) as Hsame.
    split; [reflexivity|]. split.
    + intros q Hq. exact (MoveFacts.get_put_diverge bytes _ _ _ _ q Hput Hq).
    + unfold os.is_dir. rewrite Hsame. split; [reflexivity|].
      change ["data"; "pdf"; g] with (["data"; "pdf"] ++ [g]).
      rewrite get_snoc, Hsame. reflexivity.
Qed.

End Tree.
End MoveFacts2.

Section Documents.
Context {PF : PyFloat} {PD : Pydantic} {EX : Externals}.

Lemma resolve_two_forward (root : os.node bytes) (d f : string) :
  plain d = true -> os.is_dot d = false -> os.is_dotdot d = false ->
  plain f = true -> os.is_dot f = false -> os.is_dotdot f = false ->
  os.is_dir bytes root ["data"; d] = true ->
  os.resolve bytes root (append "data/" (append d (String "/" f))) = Ok ["data"; d; f].
Proof.
  intros Hd Hd1 Hd2 Hf Hf1 Hf2 Hdir. unfold os.resolve.
  destruct (MoveFacts.split_two_below_data d f Hd Hf) as [-> ->].
  now apply MoveFacts.walk_two_forward.
Qed.

Lemma not_dot_facts (f : string) :
  os.is_dot f = false -> os.is_dotdot f = false ->
  String.eqb f "" = false /\ String.eqb f "." = false /\ String.eqb f ".." = false.
Proof.
  unfold os.is_dot, os.is_dotdot. intros H1 H2.
  apply orb_false_elim in H1. tauto.
Qed.

(** The move of a regular file [data/temp/<f>] to [data/pdf/<g>]. *)
Lemma move_document (root1 : os.node bytes) (f g : string) (content : bytes)
    (tes : list (string * os.node bytes)) :
  plain f = true -> os.is_dot f = false -> os.is_dotdot f = false ->
  plain g = true -> os.is_dot g = false -> os.is_dotdot g = false ->
  os.get bytes root1 ["data"; "temp"] = Some (os.Dir tes) ->
  os.lookup bytes f tes = Some (os.File content) ->
  os.lookup bytes f (os.remove bytes f tes) = None ->
  os.is_dir bytes root1 ["data"; "pdf"] = true ->
  os.is_dir bytes root1 ["data"; "pdf"; g] = false ->
  exists root2,
    os.rename bytes root1 (append "data/temp/" f) (append "data/pdf/" g) = Ok root2
    /\ os.read_file bytes root2 (append "data/pdf/" g) = Ok content
    /\ os.path_exists bytes root2 (append "data/temp/" f) = false.
Proof.
  intros Hf Hf1 Hf2 Hg Hg1 Hg2 Htemp Hfile Honce Hpdf Hfree.
  destruct (not_dot_facts f Hf1 Hf2) as (_ & Hd1 & Hd2).
  assert (Hsrc : os.get bytes root1 ["data"; "temp"; f] = Some (os.File content)).
  { change ["data"; "temp"; f] with (["data"; "temp"] ++ [f]).
    now rewrite MoveFacts2.get_snoc, Htemp. }
  assert (Htd : os.is_dir bytes root1 ["data"; "temp"] = true).
  { unfold os.is_dir. now rewrite Htemp. }
  change (append "data/temp/" f) with (append "data/" (append "temp" (String "/" f))).
  change (append "data/pdf/" g) with (append "data/" (append "pdf" (String "/" g))).
  pose proof (resolve_two_forward root1 "temp" f eq_refl eq_refl eq_refl Hf Hf1 Hf2 Htd)
    as Hrs.
  pose proof (resolve_two_forward root1 "pdf" g eq_refl eq_refl eq_refl Hg Hg1 Hg2 Hpdf)
    as Hrd.
  destruct (MoveFacts.del_succeeds bytes ["data"; "temp"; f] root1 _
              ltac:(discriminate) Hsrc) as [r1 Hdel].
  assert (Hpdf1 : os.is_dir bytes r1 ["data"; "pdf"] = true).
  { unfold os.is_dir in *.
    now rewrite (MoveFacts.get_del_diverge bytes _ root1 r1 ["data"; "pdf"] Hdel eq_refl). }
  destruct (MoveFacts.put_succeeds bytes ["data"; "pdf"] g r1 (os.File content) Hpdf1)
    as [root2 Hput].
  cbn [app] in Hput.
  exists root2. split; [|split].
  - unfold os.rename. rewrite Hrs, Hrd.
    destruct (MoveFacts.split_two_below_data "temp" f eq_refl Hf) as [-> _].
    rewrite MoveFacts.last_of_three, Hd1, Hd2. cbn [orb]. rewrite Hsrc.
    unfold os.is_dir in Hfree.
    destruct (list_eq_dec string_dec ["data"; "temp"; f] ["data"; "pdf"; g])
      as [E|_]; [discriminate|].
    rewrite Hdel, Hput.
    destruct (os.get bytes root1 ["data"; "pdf"; g]) as [[b|sub]|];
      [reflexivity | discriminate | reflexivity].
  - pose proof (FsFacts.get_put_same bytes _ _ _ _ Hput) as Hsame.
    assert (Hpdf2 : os.is_dir bytes root2 ["data"; "pdf"] = true)
      by exact (MoveFacts.get_prefix_dir bytes ["data"; "pdf"] g root2 _ Hsame).
    unfold os.read_file.
    rewrite (resolve_two_forward root2 "pdf" g eq_refl eq_refl eq_refl Hg Hg1 Hg2 Hpdf2).
    now rewrite Hsame.
  - assert (Hgone : os.get bytes root2 ["data"; "temp"; f] = None).
    { rewrite (MoveFacts.get_put_diverge bytes _ r1 root2 _ ["data"; "temp"; f]
                 Hput eq_refl).
      exact (MoveFacts.get_del_same bytes ["data"; "temp"] f root1 r1 tes
               Hdel Htemp Honce). }
    unfold os.path_exists.
    destruct (os.resolve bytes root2 _) as [p|e] eqn:Er; [|reflexivity].
    apply (resolve_two_below_data root2 "temp" f p eq_refl eq_refl eq_refl Hf Hf1 Hf2)
      in Er.
    subst p. now rewrite Hgone.
Qed.

(** X5: a submission of a regular file [data/temp/<f>] with a plain
    name is answered with the status of a new identifier, draws that one
    identifier and starts one thread with it; the document is then in
    [data/pdf] under the identifier, with the same contents, and no
    longer in [data/temp], so that a second submission of the same file
    name is rejected as not found and changes nothing. *)
Theorem X5_submission_moves_the_document
    (w : World) (f : string) (content : bytes) (tes : list (string * os.node bytes)) :
  plain f = true -> os.is_dot f = false -> os.is_dotdot f = false ->
  os.get bytes (fs w) ["data"; "temp"] = Some (os.Dir tes) ->
  os.lookup bytes f tes = Some (os.File content) ->
  os.lookup bytes f (os.remove bytes f tes) = None ->
  (forall b, os.get bytes (fs w) ["data"; "pdf"] <> Some (os.File b)) ->
  os.is_dir bytes (fs w)
    ["data"; "pdf"; append (minted (uuid4 (uuid_calls w))) ".pdf"] = false ->
  exists root2,
    let cid := minted (uuid4 (uuid_calls w)) in
    let w2 := drew w root2 (threads w ++ [cid]) in
    handle_extraction (Some f) w = (Ok (status_view root2 cid), w2)
    /\ os.read_file bytes root2 (append "data/pdf/" (append cid ".pdf")) = Ok content
    /\ os.path_exists bytes root2 (append "data/temp/" f) = false
    /\ handle_extraction (Some f) w2
       = (Ok (file_status "Error: File not found" TextT_error), w2).
Proof.
  intros Hf Hf1 Hf2 Htemp Hfile Honce Hpdf Hfree.
  destruct (not_dot_facts f Hf1 Hf2) as (Hne & _ & _).
  destruct (pdf_name_facts _ (minted_plain (uuid4 (uuid_calls w)))) as (Hg & Hg1 & Hg2).
  assert (Hdata : os.is_dir bytes (fs w) ["data"] = true)
    by exact (MoveFacts.get_prefix_dir bytes ["data"] "temp" (fs w) _ Htemp).
  destruct (MoveFacts2.makedirs_pdf bytes (fs w) _ Hdata Hpdf Hfree)
    as (root1 & Hmk & Hsame & Hpdf1 & Hfree1).
  assert (Htemp1 : os.get bytes root1 ["data"; "temp"] = Some (os.Dir tes))
    by (rewrite (Hsame ["data"; "temp"] eq_refl); exact Htemp).
  destruct (move_document root1 f _ content tes Hf Hf1 Hf2 Hg Hg1 Hg2
              Htemp1 Hfile Honce Hpdf1 Hfree1) as (root2 & Hmv & Hread & Hgone).
  assert (Hfound : os.path_exists bytes (fs w) (append "data/temp/" f) = true).
  { unfold os.path_exists.
    change (append "data/temp/" f) with (append "data/" (append "temp" (String "/" f))).
    rewrite (resolve_two_forward (fs w) "temp" f eq_refl eq_refl eq_refl Hf Hf1 Hf2).
    - change ["data"; "temp"; f] with (["data"; "temp"] ++ [f]).
      now rewrite MoveFacts2.get_snoc, Htemp, Hfile.
    - unfold os.is_dir. now rewrite Htemp. }
  exists root2. cbv zeta. split; [|split; [exact Hread | split; [exact Hgone|]]].
  - rewrite (handle_extraction_shape f w Hne Hfound), Hmk, Hmv. reflexivity.
  - unfold handle_extraction. rewrite Hne.
    unfold bind, os_path_exists, ret. cbn [fs drew]. now rewrite Hgone.
Qed.

(** X6: when an upload is answered, the file it names in [data/temp]
    holds the uploaded contents, a submission of that name will find it,
    and nothing but the files has changed; the button sent back posts to
    [/extract?filename=<name>]. *)
Theorem X6_upload_can_be_submitted
    (w w' : World) (filename : string) (content : bytes) (views : list FT) :
  String.eqb filename "" = false ->
  handle_file_select (Some (filename, content)) w = (Ok views, w') ->
  os.read_file bytes (fs w') (append "data/temp/" filename) = Ok content
  /\ missing_document (fs w') (Some filename) = false
  /\ same_but_files w w'
  /\ (exists button,
        nth_error views 1 = Some button
        /\ In ("hx_post", append "/extract?filename=" filename) (attributes button)
        /\ In ("disabled", "False") (attributes button)).
Proof.
  intros Hne H. unfold handle_file_select in H. rewrite Hne in H.
  unfold bind, os_makedirs, open_wb_write, change_fs, ret in H.
  destruct (os.makedirs bytes (fs w) "data/temp") as [root1|e]; [|discriminate].
  cbn [fs with_fs] in H.
  destruct (os.write_file bytes root1 _ content) as [root2|e] eqn:Ew; [|discriminate].
  inversion H; subst views w'. clear H. cbn [fs with_fs].
  pose proof (FsFacts.read_after_write bytes root1 root2 _ _ Ew) as Hr.
  split; [exact Hr|]. split; [|split].
  - unfold missing_document. rewrite Hne. cbn [orb].
    unfold os.read_file in Hr. unfold os.path_exists.
    destruct (os.resolve bytes root2 _) as [p|e]; [|discriminate].
    destruct (os.get bytes root2 p); [reflexivity | discriminate].
  - unfold same_but_files. cbn. auto.
  - eexists. split; [reflexivity|]. cbn [attributes In]. tauto.
Qed.

End Documents.

(* ------------------------------------------------------------------ *)
(** * Extractions and their threads                                      *)
(* ------------------------------------------------------------------ *)

Section Extractions.
Context {PF : PyFloat} {PD : Pydantic} {EX : Externals}.

Lemma read_file_exists (root : os.node bytes) (path : string) (content : bytes) :
  os.read_file bytes root path = Ok content -> os.path_exists bytes root path = true.
Proof.
  unfold os.read_file, os.path_exists.
  destruct (os.resolve bytes root path) as [p|e]; [|discriminate].
  destruct (os.get bytes root p); [reflexivity | discriminate].
Qed.

(** The extraction, step by step. *)
Lemma extract_company_data_shape (company_id : string) (w : World) :
  extract_company_data company_id w
  = if os.isfile bytes (fs w) (append "data/pdf/" (append company_id ".pdf")) then
      match os.read_file bytes (fs w) (append "data/pdf/" (append company_id ".pdf")) with
      | Raise e => (Raise e, w)
      | Ok content =>
          match files_upload content with
          | Raise e => (Raise e, w)
          | Ok doc =>
              match generate_content doc with
              | Raise e => (Raise e, w)
              | Ok response =>
                  match parsed response with
                  | None => (Raise AttributeError, w)
                  | Some cb =>
                      match save_company company_id (company_of cb company_id) w with
                      | (Ok _, w') => (Ok company_id, w')
                      | (Raise e, w') => (Raise e, w')
                      end
                  end
              end
          end
      end
    else (Raise FileNotFoundError, w).
Proof.
  unfold extract_company_data, client_files_upload, os_path_isfile, open_rb_read, lift,
    client_models_generate_content, lift, bind, raise, ret, company_of.
  destruct (os.isfile bytes (fs w) _); [|reflexivity].
  destruct (os.read_file bytes (fs w) _) as [content|e]; [|reflexivity].
  destruct (files_upload content) as [doc|e]; [|reflexivity].
  destruct (generate_content doc) as [response|e]; [|reflexivity].
  destruct (parsed response) as [cb|]; reflexivity.
Qed.

(** X7: an extraction that returns has returned its own identifier and
    has saved the snapshot: the status of the identifier is "complete",
    and (with a pickle that loads what it dumped) the load gives the
    company made of the validated response and of the identifier.  It has
    drawn no identifier, started no thread and left the clipboard. *)
Theorem X7_extraction_that_returns_has_saved
    (w w' : World) (company_id r : string) :
  (forall c, pickle_loads (pickle_dumps c) = Some c) ->
  extract_company_data company_id w = (Ok r, w') ->
  r = company_id
  /\ same_but_files w w'
  /\ status w' company_id = Ok (extraction_complete company_id)
  /\ exists content doc response cb,
       os.read_file bytes (fs w) (append "data/pdf/" (append company_id ".pdf"))
         = Ok content
       /\ files_upload content = Ok doc
       /\ generate_content doc = Ok response
       /\ parsed response = Some cb
       /\ company company_id w' = (Ok (company_of cb company_id), w').
Proof.
  intros Hl H. rewrite extract_company_data_shape in H.
  destruct (os.isfile bytes (fs w) _); [|discriminate].
  destruct (os.read_file bytes (fs w) _) as [content|e] eqn:Er; [|discriminate].
  destruct (files_upload content) as [doc|e] eqn:Eu; [|discriminate].
  destruct (generate_content doc) as [response|e] eqn:Eg; [|discriminate].
  destruct (parsed response) as [cb|] eqn:Ep; [|discriminate].
  destruct (save_company company_id (company_of cb company_id) w)
    as [[[]|e] w1] eqn:Es; [|discriminate].
  inversion H; subst r w1. clear H.
  pose proof (save_then_load w w' (company_of cb company_id)
                (Hl _) Es) as Hload.
  cbn [id company_of] in Hload.
  split; [reflexivity|]. split; [|split].
  - pose proof (save_company_keeps company_id (company_of cb company_id) w) as Hk.
    unfold after in Hk. rewrite Es in Hk. apply Hk.
  - unfold status. rewrite status_query. cbn [fst].
    unfold company, bind, open_rb_read in Hload.
    fold (pkl_path company_id) in Hload.
    destruct (os.read_file bytes (fs w') (pkl_path company_id)) as [c|e] eqn:E;
      [|discriminate].
    now rewrite (read_file_exists _ _ _ E).
  - exists content, doc, response, cb. auto.
Qed.

(** X8: an extraction whose document can be read and uploaded, whose
    response validates, whose identifier is a plain name and whose store
    can take the snapshot, returns its identifier, and the status of the
    identifier is "complete" afterwards. *)
Theorem X8_extraction_of_a_valid_response_completes
    (w : World) (company_id : string) (content : bytes) (doc : UploadedFile)
    (response : option json) (cb : CompanyBase) :
  os.read_file bytes (fs w) (append "data/pdf/" (append company_id ".pdf")) = Ok content ->
  files_upload content = Ok doc ->
  generate_content doc = Ok response ->
  parsed response = Some cb ->
  plain company_id = true ->
  can_store (fs w) company_id ->
  exists w',
    extract_company_data company_id w = (Ok company_id, w')
    /\ os.read_file bytes (fs w') (pkl_path company_id)
       = Ok (pickle_dumps (company_of cb company_id))
    /\ status w' company_id = Ok (extraction_complete company_id).
Proof.
  intros Hr Hu Hg Hp Hplain Hstore.
  destruct (save_succeeds w (company_of cb company_id) Hplain Hstore) as [w' Hs].
  cbn [id company_of] in Hs. exists w'.
  rewrite extract_company_data_shape, (FsFacts.read_file_isfile bytes _ _ _ Hr),
    Hr, Hu, Hg, Hp, Hs.
  assert (Hread : os.read_file bytes (fs w') (pkl_path company_id)
                  = Ok (pickle_dumps (company_of cb company_id))).
  { unfold save_company, bind, os_makedirs, open_wb_write, change_fs in Hs.
    destruct (os.makedirs bytes (fs w) "data/pkl") as [root1|e]; [|discriminate].
    cbn [fs with_fs] in Hs.
    destruct (os.write_file bytes root1 _ _) as [root2|e] eqn:Ew; [|discriminate].
    inversion Hs; subst w'. cbn [fs with_fs].
    exact (FsFacts.read_after_write bytes root1 root2 _ _ Ew). }
  split; [reflexivity|]. split; [exact Hread|].
  unfold status. rewrite status_query. cbn [fst].
  now rewrite (read_file_exists _ _ _ Hread).
Qed.

(** X9: an extraction whose document is no regular file (nothing is at
    [data/pdf/<id>.pdf], or a directory is, or the path cannot be
    resolved) ends in [FileNotFoundError], whatever an [open] of the path
    would raise; one whose document is refused by the upload, or for which
    the generation fails, ends in that very exception.  In each case the
    state is left as it was. *)
Theorem X9_extraction_failure_before_the_response
    (w : World) (company_id : string) (e : Exception) :
  ((os.isfile bytes (fs w) (append "data/pdf/" (append company_id ".pdf")) = false
    /\ e = FileNotFoundError)
   \/ exists content,
        os.read_file bytes (fs w) (append "data/pdf/" (append company_id ".pdf"))
          = Ok content
        /\ (files_upload content = Raise e
            \/ exists doc, files_upload content = Ok doc
                           /\ generate_content doc = Raise e)) ->
  extract_company_data company_id w = (Raise e, w).
Proof.
  rewrite extract_company_data_shape.
  intros [[Hf ->] | (content & Hr & [Hu | (doc & Hu & Hg)])].
  - now rewrite Hf.
  - now rewrite (FsFacts.read_file_isfile bytes _ _ _ Hr), Hr, Hu.
  - now rewrite (FsFacts.read_file_isfile bytes _ _ _ Hr), Hr, Hu, Hg.
Qed.

End Extractions.

Module SubseqFacts.
Section Lists.
Context {A : Type}.

Lemma subseq_nil_l (l : list A) : subseq [] l.
Proof. induction l; [apply subseq_nil | now apply subseq_skip]. Qed.

Lemma subseq_refl (l : list A) : subseq l l.
Proof. induction l; [apply subseq_nil | now apply subseq_keep]. Qed.

Lemma subseq_trans (l1 l2 l3 : list A) :
  subseq l1 l2 -> subseq l2 l3 -> subseq l1 l3.
Proof.
  intros H12 H23. revert l1 H12.
  induction H23 as [|x l2 l3 H IH|x l2 l3 H IH]; intros l1 H12.
  - exact H12.
  - constructor. now apply IH.
  - inversion H12; subst.
    + apply subseq_skip. now apply IH.
    + apply subseq_keep. now apply IH.
Qed.

Lemma subseq_grow (l l' : list A) (x : A) : subseq l l' -> subseq l (l' ++ [x]).
Proof.
  induction 1; simpl.
  - apply subseq_skip, subseq_nil.
  - now apply subseq_skip.
  - now apply subseq_keep.
Qed.

Lemma subseq_snoc (l l' : list A) (x : A) :
  subseq l l' -> subseq (l ++ [x]) (l' ++ [x]).
Proof.
  induction 1; simpl.
  - apply subseq_keep, subseq_nil.
  - now apply subseq_skip.
  - now apply subseq_keep.
Qed.

Lemma subseq_without (n : nat) (l : list A) :
  subseq (firstn n l ++ skipn (S n) l) l.
Proof.
  revert n. induction l as [|a l IH]; intros [|n]; simpl.
  - apply subseq_nil.
  - apply subseq_nil.
  - apply subseq_skip, subseq_refl.
  - apply subseq_keep, IH.
Qed.

Lemma subseq_In (l l' : list A) (x : A) : subseq l l' -> In x l -> In x l'.
Proof.
  induction 1; simpl; intro Hin.
  - exact Hin.
  - right. now apply IHsubseq.
  - destruct Hin; [now left | right; now apply IHsubseq].
Qed.

Lemma subseq_NoDup (l l' : list A) : subseq l l' -> NoDup l' -> NoDup l.
Proof.
  induction 1 as [|x l l' H IH|x l l' H IH]; intro Hnd.
  - constructor.
  - inversion Hnd; subst. now apply IH.
  - inversion Hnd; subst. constructor; [|now apply IH].
    intro Hin. now apply (subseq_In l l' x H) in Hin.
Qed.

End Lists.
End SubseqFacts.

Section Threads.
Context {PF : PyFloat} {PD : Pydantic} {EX : Externals}.

Lemma drawn_S (n : nat) : drawn (S n) = drawn n ++ [minted (uuid4 n)].
Proof. unfold drawn. now rewrite seq_S, map_app. Qed.

(** What one event does to the count of the draws and to the threads. *)
Lemma step_threads (e : event) (w : World) :
  (uuid_calls (step e w) = uuid_calls w
   /\ subseq (threads (step e w)) (threads w))
  \/ (uuid_calls (step e w) = S (uuid_calls w)
      /\ (threads (step e w) = threads w
          \/ threads (step e w) = threads w ++ [minted (uuid4 (uuid_calls w))])).
Proof.
  destruct e; cbn [step].
  - left. destruct (handle_file_select_keeps file w) as [_ (Hu & Ht & _)].
    rewrite Hu, Ht. split; [reflexivity | apply SubseqFacts.subseq_refl].
  - destruct (missing_document (fs w) filename) eqn:Em.
    + left. rewrite (handle_extraction_rejects filename w Em).
      split; [reflexivity | apply SubseqFacts.subseq_refl].
    + right. destruct filename as [f|]; [|discriminate].
      unfold missing_document in Em. apply orb_false_elim in Em.
      destruct Em as [Hne He]. apply negb_false_iff in He.
      unfold after. rewrite (handle_extraction_shape f w Hne He).
      destruct (os.makedirs bytes (fs w) "data/pdf") as [root1|e];
        [destruct (os.rename bytes root1 _ _) as [root2|e]|];
        cbn [snd uuid_calls threads drew]; auto.
  - left. unfold get_extract_company_data, after. rewrite status_query. cbn [snd].
    split; [reflexivity | apply SubseqFacts.subseq_refl].
  - left. rewrite company_pure.
    split; [reflexivity | apply SubseqFacts.subseq_refl].
  - left. rewrite get_company_list_pure.
    split; [reflexivity | apply SubseqFacts.subseq_refl].
  - left. destruct (get_copy_keeps company_id field_name w) as (_ & Hu & Ht).
    rewrite Hu, Ht. split; [reflexivity | apply SubseqFacts.subseq_refl].
  - left. unfold run_thread.
    destruct (nth_error (threads w) n) as [company_id|];
      [|split; [reflexivity | apply SubseqFacts.subseq_refl]].
    match goal with |- context [after _ ?w0] =>
      destruct (extract_company_data_keeps company_id w0) as [_ (Hu & Ht & _)]
    end.
    rewrite Hu, Ht. cbn [uuid_calls threads].
    split; [reflexivity | apply SubseqFacts.subseq_without].
Qed.

(** X10: the threads are started for drawn identifiers only, each at
    most once and in the order of the draws: if the started threads are a
    subsequence of the identifiers drawn so far, they are so after every
    run of events; so when the drawn identifiers are distinct, no two
    threads have the same identifier. *)
Theorem X10_threads_are_of_drawn_identifiers (events : list event) (w : World) :
  subseq (threads w) (drawn (uuid_calls w)) ->
  subseq (threads (run events w)) (drawn (uuid_calls (run events w)))
  /\ (NoDup (drawn (uuid_calls (run events w))) -> NoDup (threads (run events w))).
Proof.
  intro H.
  assert (Hinv : subseq (threads (run events w)) (drawn (uuid_calls (run events w)))).
  { revert w H. induction events as [|e events IH]; intros w H; [exact H|].
    cbn [run fold_left]. apply IH.
    destruct (step_threads e w) as [[Hu Hs] | [Hu [Ht | Ht]]]; rewrite Hu.
    - exact (SubseqFacts.subseq_trans _ _ _ Hs H).
    - rewrite Ht, drawn_S. now apply SubseqFacts.subseq_grow.
    - rewrite Ht, drawn_S. now apply SubseqFacts.subseq_snoc. }
  split; [exact Hinv|]. intro Hnd. exact (SubseqFacts.subseq_NoDup _ _ Hinv Hnd).
Qed.

End Threads.

(* ------------------------------------------------------------------ *)
(** * The copy route and the pages                                       *)
(* ------------------------------------------------------------------ *)

Section Copies.
Context {PF : PyFloat} {PD : Pydantic} {EX : Externals}.

Lemma get_copy_of (company_id field_name : string) (w : World) (c : Company) :
  company company_id w = (Ok c, w) ->
  get_copy company_id field_name w
  = match getattr c field_name with
    | Ok (AValueField f) => (Ok (check_icon field_name), copied w (value f))
    | Ok (AFinancials f) =>
        match format_for_excel_clipboard (data (financial_data f)) with
        | Ok text => (Ok (check_icon field_name), copied w text)
        | Raise e => (Raise e, w)
        end
    | Ok (ATopManagement _) => (Raise AttributeError, w)
    | Ok (AStr _) => (Raise AttributeError, w)
    | Raise e => (Raise e, w)
    end.
Proof.
  intro Hc. unfold get_copy. unfold bind at 1. rewrite Hc.
  unfold bind, lift, pyperclip_copy, ret, copied.
  destruct (getattr c field_name) as [[f|t|f|s]|e];
    try destruct (format_for_excel_clipboard (data (financial_data f)));
    reflexivity.
Qed.

(** X11: for a stored company, the copy of each of the seven text
    fields puts exactly the value of that field on the clipboard, and
    changes nothing else. *)
Theorem X11_copy_of_a_text_field (w : World) (company_id : string) (c : Company) :
  company company_id w = (Ok c, w) ->
  let b := company_base c in
  forall field_name v,
    In (field_name, v)
       [("name", name b); ("description", description b); ("strategy", strategy b);
        ("business_model", business_model b); ("market", market b);
        ("clients", clients b); ("products", products b)] ->
    get_copy company_id field_name w
    = (Ok (check_icon field_name), copied w (value v)).
Proof.
  intros Hc b field_name v Hin. rewrite (get_copy_of _ _ _ _ Hc).
  cbn [In] in Hin.
  repeat (destruct Hin as [E | Hin]; [inversion E; subst; reflexivity|]).
  contradiction.
Qed.

Lemma getattr_other (c : Company) (field_name : string) :
  ~ In field_name text_fields -> field_name <> "financials" ->
  getattr c field_name = Raise AttributeError
  \/ (exists t, getattr c field_name = Ok (ATopManagement t))
  \/ (exists s, getattr c field_name = Ok (AStr s)).
Proof.
  intros Hn Hf. unfold getattr, text_fields in *. cbn [In] in Hn.
  repeat match goal with
         | |- context [String.eqb field_name ?s] =>
             let E := fresh "E" in
             destruct (String.eqb field_name s) eqn:E;
             [apply String.eqb_eq in E; subst field_name;
              first [ exfalso; apply Hn; auto 10; fail
                    | exfalso; now apply Hf
                    | right; left; eexists; reflexivity
                    | right; right; eexists; reflexivity ] |]
         end.
  now left.
Qed.

(** X12: a copy that cannot be served raises and leaves the state, the
    clipboard with it, as it was: when the company cannot be loaded (the
    exception of the load), when the field is none of the seven text
    fields nor [financials] (an [AttributeError], also for
    [top_management] and [id]), and when [financials] has no point (a
    [KeyError]). *)
Theorem X12_copy_that_fails_leaves_the_clipboard
    (w : World) (company_id field_name : string) :
  (forall e, fst (company company_id w) = Raise e ->
             get_copy company_id field_name w = (Raise e, w))
  /\ (forall c, company company_id w = (Ok c, w) ->
                ~ In field_name text_fields -> field_name <> "financials" ->
                get_copy company_id field_name w = (Raise AttributeError, w))
  /\ (forall c, company company_id w = (Ok c, w) ->
                data (financial_data (financials (company_base c))) = [] ->
                get_copy company_id "financials" w = (Raise KeyError, w)).
Proof.
  split; [|split].
  - intros e He. unfold get_copy. unfold bind at 1.
    pose proof (company_pure w company_id) as Hp. unfold after in Hp.
    destruct (company company_id w) as [[c|e'] w1]; cbn [fst snd] in *;
      [discriminate|].
    congruence.
  - intros c Hc Hn Hf. rewrite (get_copy_of _ _ _ _ Hc).
    destruct (getattr_other c field_name Hn Hf) as [-> | [[t ->] | [s ->]]];
      reflexivity.
  - intros c Hc Hd. rewrite (get_copy_of _ _ _ _ Hc).
    cbn [getattr String.eqb Ascii.eqb Bool.eqb]. now rewrite Hd.
Qed.

End Copies.

Section CompanyPage.
Context {PF : PyFloat}.

(** X13: the page of a company shows its identifier (in the copy
    links), the value of its name, its description with the pages, the
    values and the qualities of business model, market, clients and
    products, the employees and the financial data; two companies that
    agree on these have the same page.  Neither the strategy, nor the
    pages of the other fields, nor the quality of the name, nor the pages
    of the top management are on it. *)
Theorem X13_what_the_company_page_shows (c c' : Company) :
  let b := company_base c in
  let b' := company_base c' in
  id c = id c' ->
  value (name b) = value (name b') ->
  description b = description b' ->
  (forall get : CompanyBase -> ValueField,
     In get [business_model; market; clients; products] ->
     value (get b) = value (get b')
     /\ quality (value_extracted (get b)) = quality (value_extracted (get b'))) ->
  employees (top_management b) = employees (top_management b') ->
  financial_data (financials b) = financial_data (financials b') ->
  Company__ft__ c = Company__ft__ c'.
Proof.
  intros b b' Hid Hname Hdesc Hfields Hemp Hfin.
  destruct (Hfields business_model) as [Hb1 Hb2]; [simpl; tauto|].
  destruct (Hfields market) as [Hm1 Hm2]; [simpl; tauto|].
  destruct (Hfields clients) as [Hc1 Hc2]; [simpl; tauto|].
  destruct (Hfields products) as [Hp1 Hp2]; [simpl; tauto|].
  unfold Company__ft__, field_card, quality_indicator. fold b b'.
  rewrite Hid, Hname, Hdesc, Hb1, Hb2, Hm1, Hm2, Hc1, Hc2, Hp1, Hp2, Hemp, Hfin.
  reflexivity.
Qed.

End CompanyPage.

Section PageAndCopy.
Context {PF : PyFloat} {PD : Pydantic} {EX : Externals}.

(** X14: on the page of a company stored under its identifier, the
    cards of business model, market, clients and products show the text
    that their copy button copies: the button asks for
    [/copy/<id>/<field>], and the copy of that field puts the text of the
    card on the clipboard.  The card of the description shows the value
    followed by the pages, and its copy gives the value alone.  What a
    button holds at first is what the restore route gives back. *)
Theorem X14_copy_buttons_copy_what_the_cards_show (w : World) (c : Company) :
  company (id c) w = (Ok c, w) ->
  let b := company_base c in
  (forall k heading field_name v,
     In (k, heading, field_name, v)
        [(2, "Business Model", "business_model", business_model b);
         (3, "Market", "market", market b);
         (4, "Clients", "clients", clients b);
         (5, "Products", "products", products b)] ->
     nth_error (children (Company__ft__ c)) k
       = Some (field_card (id c) heading field_name (value_extracted v)
                 (Tag "Div" [Text (value v)] []))
     /\ In ("hx_get", append "/copy/" (append (id c) (append "/" field_name)))
           (attributes (copy_button (id c) field_name))
     /\ children (copy_button (id c) field_name) = [get_restore_icon field_name]
     /\ get_copy (id c) field_name w
        = (Ok (check_icon field_name), copied w (value v)))
  /\ nth_error (children (Company__ft__ c)) 1
     = Some (field_card (id c) "Description" "description"
               (value_extracted (description b))
               (Tag "Div"
                  [Text (append (value (description b))
                           (append " (See pages: "
                              (append (Py.join ", "
                                         (map Py.str_int
                                            (pages (value_extracted (description b)))))
                                      ")")))] []))
  /\ get_copy (id c) "description" w
     = (Ok (check_icon "description"), copied w (value (description b))).
Proof.
  intros Hc b. split; [|split].
  - intros k heading field_name v Hin. cbn [In] in Hin.
    repeat (destruct Hin as [E | Hin];
            [inversion E; subst;
             repeat split; try reflexivity;
             [cbn [attributes copy_button In]; tauto
             | rewrite (get_copy_of _ _ _ _ Hc); reflexivity] |]).
    contradiction.
  - reflexivity.
  - rewrite (get_copy_of _ _ _ _ Hc). reflexivity.
Qed.

End PageAndCopy.

Section Navigation.
Context {PF : PyFloat} {PD : Pydantic} {EX : Externals}.

(** X15: when the store holds the snapshots [snaps] (distinct,
    non-empty plain identifiers, a pickle that loads what it dumped), the
    sidebar has one item a snapshot, in the order of the store, which
    shows the name of the company and links to [/company/<identifier>],
    and after them the item "Add New"; the state is unchanged, and the
    company of every link loads. *)
Theorem X15_sidebar_lists_the_store (w : World) (snaps : list (string * Company)) :
  (forall c, pickle_loads (pickle_dumps c) = Some c) ->
  store_holds (fs w) snaps ->
  NoDup (map fst snaps) ->
  (forall i c, In (i, c) snaps -> plain i = true /\ i <> EmptyString) ->
  company_sidebar w
  = (Ok (sidebar_of
           (map (fun ic =>
                   Tag "Li"
                     [Tag "A" [Text (value (name (company_base (snd ic))))]
                        [("href", append "/company/" (fst ic))]] [])
                snaps
            ++ [add_button])), w)
  /\ (forall i c, In (i, c) snaps -> company i w = (Ok c, w)).
Proof.
  intros Hl Hstore Hnd Hids. split.
  - unfold company_sidebar, bind, get_company_list.
    rewrite (glob_snapshots (fs w) snaps Hstore).
    rewrite (load_entries_snapshots w snaps Hl).
    + unfold ret. rewrite map_map. reflexivity.
    + intros i c Hin. destruct (Hids i c Hin) as [Hp Hne]. split; [|exact Hne].
      now apply (read_snapshot (fs w) snaps i c).
  - intros i c Hin. destruct (Hids i c Hin) as [Hp _].
    apply company_reads; [|apply Hl].
    now apply (read_snapshot (fs w) snaps i c).
Qed.

Lemma load_entries_raises (w : World) (n : string) (names : list string) :
  In n names ->
  (forall content, os.read_file bytes (fs w) (append "data/pkl/" n) = Ok content ->
                   pickle_loads content = None) ->
  exists e, load_entries names w = (Raise e, w).
Proof.
  intros Hin Hbad. induction names as [|m names IH]; [contradiction|].
  cbn [load_entries]. unfold bind at 1, open_rb_read.
  destruct (os.read_file bytes (fs w) (append "data/pkl/" m)) as [content|e] eqn:Er;
    [|eauto].
  unfold bind at 1, pickle_load.
  destruct (pickle_loads content) as [c|] eqn:El; [|unfold raise; eauto].
  unfold ret at 1. unfold bind at 1.
  destruct Hin as [-> | Hin].
  - rewrite (Hbad content Er) in El. discriminate.
  - destruct (IH Hin) as [e He]. rewrite He. eauto.
Qed.

Lemma lookup_In (es : list (string * os.node bytes)) (n : string) (x : os.node bytes) :
  os.lookup bytes n es = Some x -> In n (map fst es).
Proof.
  induction es as [|e es IH]; simpl; [discriminate|].
  destruct (String.eqb (fst e) n) eqn:E.
  - apply String.eqb_eq in E. auto.
  - auto.
Qed.

(** X16: one entry of [data/pkl] whose name ends in [.pkl] and that is
    a directory, or a file that pickle cannot load, makes the list raise,
    and with the list the index page, the page for a new company and the
    page of every company, also of those whose snapshot is sound; the
    state is unchanged. *)
Theorem X16_one_bad_snapshot_fails_every_page
    (w : World) (es : list (string * os.node bytes)) (n : string) (x : os.node bytes) :
  os.get bytes (fs w) ["data"; "pkl"] = Some (os.Dir es) ->
  os.lookup bytes n es = Some x ->
  Py.endswith n ".pkl" = true ->
  plain n = true ->
  (forall content, x = os.File content -> pickle_loads content = None) ->
  exists e,
    get_company_list w = (Raise e, w)
    /\ index w = (Raise e, w)
    /\ new_company w = (Raise e, w)
    /\ forall company_id, company_page company_id w = (Raise e, w).
Proof.
  intros Hdir Hx Hend Hplain Hbad.
  assert (Hdots : os.is_dot n = false /\ os.is_dotdot n = false).
  { apply MoveFacts.long_name_not_special.
    unfold Py.endswith in Hend. apply andb_true_iff in Hend.
    destruct Hend as [Hlen _]. apply Nat.leb_le in Hlen. simpl in Hlen. lia. }
  destruct Hdots as [Hd1 Hd2].
  assert (Hread : forall content,
             os.read_file bytes (fs w) (append "data/pkl/" n) = Ok content ->
             pickle_loads content = None).
  { intros content. unfold os.read_file.
    change (append "data/pkl/" n) with (append "data/" (append "pkl" (String "/" n))).
    rewrite (resolve_two_forward (fs w) "pkl" n eq_refl eq_refl eq_refl
               Hplain Hd1 Hd2).
    - change ["data"; "pkl"; n] with (["data"; "pkl"] ++ [n]).
      rewrite MoveFacts2.get_snoc, Hdir, Hx.
      destruct x as [b|sub]; [|discriminate].
      intro E. inversion E; subst. now apply Hbad.
    - unfold os.is_dir. now rewrite Hdir. }
  assert (Hin : In n (os.glob_suffix bytes (fs w) ["data"; "pkl"] ".pkl")).
  { unfold os.glob_suffix. rewrite Hdir. apply filter_In.
    split; [exact (lookup_In es n x Hx) | exact Hend]. }
  destruct (load_entries_raises w n _ Hin Hread) as [e He].
  assert (Hlist : get_company_list w = (Raise e, w)) by exact He.
  assert (Hnav : nav w = (Raise e, w)).
  { unfold nav, company_sidebar, bind. now rewrite Hlist. }
  exists e. split; [exact Hlist|]. split; [|split].
  - unfold index, bind. now rewrite Hnav.
  - unfold new_company, bind. now rewrite Hnav.
  - intro company_id. unfold company_page. unfold bind at 1. now rewrite Hnav.
Qed.

(** X17: without a directory [data/pkl] (a first start) the list is
    empty and raises nothing, and the sidebar holds the item "Add New"
    alone. *)
Theorem X17_no_store_gives_the_empty_list (w : World) :
  os.is_dir bytes (fs w) ["data"; "pkl"] = false ->
  get_company_list w = (Ok [], w)
  /\ company_sidebar w = (Ok (sidebar_of [add_button]), w)
  /\ nav w = (Ok [navbar; sidebar_of [add_button]], w).
Proof.
  intro H.
  assert (Hl : get_company_list w = (Ok [], w)).
  { unfold get_company_list, os.glob_suffix. unfold os.is_dir in H.
    destruct (os.get bytes (fs w) ["data"; "pkl"]) as [[b|es]|];
      [reflexivity | discriminate | reflexivity]. }
  assert (Hs : company_sidebar w = (Ok (sidebar_of [add_button]), w)).
  { unfold company_sidebar, bind. rewrite Hl. reflexivity. }
  split; [exact Hl|]. split; [exact Hs|].
  unfold nav, bind. rewrite Hs. reflexivity.
Qed.

End Navigation.

(* ------------------------------------------------------------------ *)
(** * The validation of a metric point                                   *)
(* ------------------------------------------------------------------ *)

Section Points.
Context {PF : PyFloat} {PD : Pydantic}.

Lemma optional_none {A : Type} (ms : list (string * json)) (k : string)
    (validate : json -> option A) (r : option A) :
  optional ms k validate = Some r ->
  (r = None <-> member k ms = None \/ member k ms = Some JNull).
Proof.
  unfold optional. intro H.
  destruct (member k ms) as [j|] eqn:E.
  - destruct j; try (cbn [Option.bind] in H; destruct (validate _) as [a|];
      [inversion H; subst; split; [discriminate | intros [?|?]; discriminate]
      | discriminate]).
    inversion H; subst. split; auto.
  - inversion H; subst. split; auto.
Qed.

(** X18: in a metric point that validates, a metric is absent exactly
    when the response leaves its key out or gives [null] for it (any other
    value, a zero too, stays a value); and the point is a forecast exactly
    when the response says ["forecast"]. *)
Theorem X18_absent_metrics_stay_absent
    (ms : list (string * json)) (m : FinancialMetrics) :
  validate_FinancialMetrics (JObject ms) = Some m ->
  (revenue m = None <-> member "revenue" ms = None \/ member "revenue" ms = Some JNull)
  /\ (ebitda m = None <-> member "ebitda" ms = None \/ member "ebitda" ms = Some JNull)
  /\ (margin m = None <-> member "margin" ms = None \/ member "margin" ms = Some JNull)
  /\ (debt m = None <-> member "debt" ms = None \/ member "debt" ms = Some JNull)
  /\ (type m = forecast <-> member "type" ms = Some (JString "forecast")).
Proof.
  unfold validate_FinancialMetrics. intro H.
  destruct (required ms "year" validate_int) as [y|]; [|discriminate].
  destruct (optional ms "revenue" validate_float) as [r|] eqn:Er; [|discriminate].
  destruct (optional ms "ebitda" validate_float) as [e|] eqn:Ee; [|discriminate].
  destruct (optional ms "margin" validate_float) as [g|] eqn:Eg; [|discriminate].
  destruct (optional ms "debt" validate_float) as [d|] eqn:Ed; [|discriminate].
  destruct (required ms "type" validate_type) as [t|] eqn:Et; [|discriminate].
  cbn [Option.bind] in H. inversion H; subst m. cbn [revenue ebitda margin debt type].
  split; [exact (optional_none _ _ _ _ Er)|].
  split; [exact (optional_none _ _ _ _ Ee)|].
  split; [exact (optional_none _ _ _ _ Eg)|].
  split; [exact (optional_none _ _ _ _ Ed)|].
  unfold required in Et.
  destruct (member "type" ms) as [j|]; [|discriminate].
  unfold validate_type in Et. destruct j; try discriminate.
  destruct (String.eqb s "actual") eqn:Ea.
  - apply String.eqb_eq in Ea. subst s. inversion Et; subst t.
    split; intro E; [discriminate | inversion E].
  - destruct (String.eqb s "forecast") eqn:Ef; [|discriminate].
    apply String.eqb_eq in Ef. subst s. inversion Et; subst t.
    split; reflexivity.
Qed.

End Points.

(* ------------------------------------------------------------------ *)
(** * The further properties, on the concrete instance                   *)
(* ------------------------------------------------------------------ *)

Module MoreExamples.
Import Demo MoreDemo.

Lemma X2_paths_example :
  os.path_exists contents
    (fs (@run integral pydantic no_answer
           [ @POST_upload_file integral no_answer (Some ("more.pdf", Raw "%PDF-1.4"));
             @thread_runs integral no_answer 0;
             @GET_copy integral no_answer "abc" "name" ]
           w_abc_upload))
    "data/temp/report.pdf" = true.
Proof.
  apply (@X2_only_a_submission_removes_a_path integral pydantic no_answer).
  - intros e [<-|[<-|[<-|[]]]]; reflexivity.
  - reflexivity.
Defined.

Lemma X3_copy_example :
  fs (@step integral pydantic no_answer (@GET_copy integral no_answer "abc" "name") w_abc)
    = root_abc
  /\ clipboard (@step integral pydantic no_answer
                  (@GET_copy integral no_answer "abc" "name") w_abc) = Some "Acme".
Proof.
  split; [|reflexivity].
  exact (proj1 (@X3_reads_change_nothing_but_the_clipboard integral pydantic no_answer
                  (@GET_copy integral no_answer "abc" "name") w_abc eq_refl)).
Defined.

Lemma X4_traffic_example :
  (forall e, In e traffic -> @plain_submission integral no_answer e = true)
  /\ @status integral no_answer (@run integral pydantic no_answer traffic w_abc_upload)
       "abc" = Ok (extraction_complete "abc").
Proof.
  assert (H : forall e, In e traffic -> @plain_submission integral no_answer e = true).
  { intros e Hin. unfold traffic in Hin. cbn [In] in Hin.
    repeat (destruct Hin as [<- | Hin]; [reflexivity|]). contradiction. }
  split; [exact H|].
  apply (@X4_complete_stays_complete_under_plain_submissions integral pydantic no_answer
           traffic w_abc_upload "abc"); [reflexivity | exact H | reflexivity].
Defined.

Lemma X5_submission_example :
  exists root2,
    @handle_extraction integral no_answer (Some "report.pdf") w_abc_upload
      = (Ok (extracting_data first_id),
         @Build_World integral no_answer root2 1 [first_id] None)
    /\ os.read_file contents root2 (append "data/pdf/" (append first_id ".pdf"))
       = Ok (Raw "%PDF-1.7")
    /\ os.path_exists contents root2 "data/temp/report.pdf" = false.
Proof.
  destruct (@X5_submission_moves_the_document integral no_answer w_abc_upload
              "report.pdf" (Raw "%PDF-1.7")
              [("report.pdf", os.File (Raw "%PDF-1.7"))])
    as (root2 & H1 & H2 & H3 & _); try reflexivity.
  - intros b. discriminate.
  - exists root2. cbv zeta in H1. split; [|split; assumption].
    rewrite H1. f_equal.
    unfold status_view.
    assert (E : root2 = fs (snd (@handle_extraction integral no_answer
                                   (Some "report.pdf") w_abc_upload)))
      by (rewrite H1; reflexivity).
    rewrite E. reflexivity.
Defined.

Lemma X6_upload_example :
  let w' := after (@handle_file_select integral no_answer
                     (Some ("more.pdf", Raw "%PDF-1.4"))) w_abc in
  os.read_file contents (fs w') "data/temp/more.pdf" = Ok (Raw "%PDF-1.4")
  /\ @missing_document integral no_answer (fs w') (Some "more.pdf") = false.
Proof.
  cbv zeta.
  destruct (@X6_upload_can_be_submitted integral no_answer w_abc
              (after (@handle_file_select integral no_answer
                        (Some ("more.pdf", Raw "%PDF-1.4"))) w_abc)
              "more.pdf" (Raw "%PDF-1.4")
              (match fst (@handle_file_select integral no_answer
                            (Some ("more.pdf", Raw "%PDF-1.4")) w_abc) with
               | Ok v => v
               | Raise _ => []
               end) eq_refl eq_refl) as (H1 & H2 & _).
  split; assumption.
Defined.

Lemma X7_extraction_example :
  let w' := after (@extract_company_data integral pydantic answers_in_schema "job1")
              w_job in
  @extract_company_data integral pydantic answers_in_schema "job1" w_job
    = (Ok "job1", w')
  /\ @status integral answers_in_schema w' "job1" = Ok (extraction_complete "job1").
Proof.
  cbv zeta. split; [reflexivity|].
  exact (proj1 (proj2 (proj2
           (@X7_extraction_that_returns_has_saved integral pydantic answers_in_schema
              w_job
              (after (@extract_company_data integral pydantic answers_in_schema "job1")
                 w_job)
              "job1" "job1" (fun c => eq_refl) eq_refl)))).
Defined.

Lemma X8_extraction_example :
  exists w',
    @extract_company_data integral pydantic answers_in_schema "job1" w_job
      = (Ok "job1", w')
    /\ @status integral answers_in_schema w' "job1" = Ok (extraction_complete "job1").
Proof.
  destruct (@X8_extraction_of_a_valid_response_completes integral pydantic
              answers_in_schema w_job "job1" (Raw "%PDF-1.7") "%PDF-1.7"
              (Some (response_with [("quality", JString "high")]))
              (match @parsed integral pydantic
                       (Some (response_with [("quality", JString "high")])) with
               | Some cb => cb
               | None => acme_base usd_2022
               end))
    as (w' & H1 & _ & H3); try reflexivity.
  - eexists _, _. split; [reflexivity|]. split; [reflexivity|]. now left.
  - exists w'. split; assumption.
Defined.

Lemma X9_generation_failure_example :
  @extract_company_data integral pydantic no_answer "job1" (world no_answer root_pdf)
  = (Raise ClientError, world no_answer root_pdf)
  /\ os.read_file contents (fs w_store_submitted) (append "data/pdf/" (append first_id ".pdf"))
     = Raise IsADirectoryError
  /\ @extract_company_data integral pydantic no_answer first_id w_store_submitted
     = (Raise FileNotFoundError, w_store_submitted).
Proof.
  split; [|split; [reflexivity|]].
  - apply (@X9_extraction_failure_before_the_response integral pydantic no_answer).
    right. exists (Raw "%PDF-1.7"). split; [reflexivity|].
    right. exists "%PDF-1.7". split; reflexivity.
  - apply (@X9_extraction_failure_before_the_response integral pydantic no_answer).
    left. split; reflexivity.
Defined.

Lemma X10_threads_example :
  subseq (threads (@run integral pydantic no_answer traffic w_abc_upload))
         (@drawn integral no_answer
            (uuid_calls (@run integral pydantic no_answer traffic w_abc_upload)))
  /\ threads (@run integral pydantic no_answer traffic w_abc_upload)
     = ["00000000000000000123456789abcdf0"].
Proof.
  split; [|reflexivity].
  apply (@X10_threads_are_of_drawn_identifiers integral pydantic no_answer
           traffic w_abc_upload).
  apply subseq_nil.
Defined.

Lemma X11_copy_example :
  @get_copy integral no_answer "abc" "strategy" w_abc
  = (Ok (check_icon "strategy"), @copied integral no_answer w_abc "Growth").
Proof.
  apply (@X11_copy_of_a_text_field integral no_answer w_abc "abc" (acme "abc") eq_refl
           "strategy" (strategy (acme_base usd_2022))).
  simpl. tauto.
Defined.

Lemma X12_copy_example :
  @get_copy integral no_answer "abc" "top_management" w_abc
  = (Raise AttributeError, w_abc).
Proof.
  apply (proj1 (proj2 (@X12_copy_that_fails_leaves_the_clipboard integral no_answer
                         w_abc "abc" "top_management")) (acme "abc") eq_refl).
  - unfold text_fields. cbn [In]. intros H.
    repeat (destruct H as [H | H]; [discriminate|]). exact H.
  - discriminate.
Defined.

Lemma X13_page_example :
  strategy (company_base acme_rewritten) <> strategy (company_base (acme "abc"))
  /\ @Company__ft__ integral (acme "abc") = @Company__ft__ integral acme_rewritten.
Proof.
  split; [discriminate|].
  apply (@X13_what_the_company_page_shows integral (acme "abc") acme_rewritten);
    try reflexivity.
  intros get Hin. cbn [In] in Hin.
  repeat (destruct Hin as [<- | Hin]; [split; reflexivity|]). contradiction.
Defined.

Lemma X14_button_example :
  nth_error (children (@Company__ft__ integral (acme "abc"))) 3
    = Some (field_card "abc" "Market" "market" (extracted [5%Z] medium)
              (Tag "Div" [Text "Deserts"] []))
  /\ @get_copy integral no_answer "abc" "market" w_abc
     = (Ok (check_icon "market"), @copied integral no_answer w_abc "Deserts").
Proof.
  destruct (proj1 (@X14_copy_buttons_copy_what_the_cards_show integral no_answer
                     w_abc (acme "abc") eq_refl)
              3 "Market" "market" (market (acme_base usd_2022)))
    as (H1 & _ & _ & H4).
  - simpl. tauto.
  - split; [exact H1 | exact H4].
Defined.

Lemma X15_sidebar_example :
  @company_sidebar integral no_answer w_abc
  = (Ok (sidebar_of
           [Tag "Li" [Tag "A" [Text "Acme"] [("href", "/company/abc")]] [];
            add_button]), w_abc).
Proof.
  apply (proj1 (@X15_sidebar_lists_the_store integral no_answer w_abc
                  [("abc", acme "abc")] (fun c => eq_refl) eq_refl
                  ltac:(repeat constructor; simpl; tauto)
                  ltac:(intros i c [E|[]]; inversion E; subst;
                        split; [reflexivity | discriminate]))).
Defined.

Lemma X16_bad_snapshot_example :
  exists e,
    @get_company_list integral no_answer (world no_answer root_bad_snapshot)
      = (Raise e, world no_answer root_bad_snapshot)
    /\ @company_page integral no_answer "abc" (world no_answer root_bad_snapshot)
       = (Raise e, world no_answer root_bad_snapshot).
Proof.
  destruct (@X16_one_bad_snapshot_fails_every_page integral no_answer
              (world no_answer root_bad_snapshot)
              [("abc.pkl", os.File (Pickled (acme "abc")));
               ("junk.pkl", os.File (Raw "junk"))]
              "junk.pkl" (os.File (Raw "junk")) eq_refl eq_refl eq_refl eq_refl)
    as (e & H1 & _ & _ & H4).
  - intros content E. inversion E. reflexivity.
  - exists e. split; [exact H1 | exact (H4 "abc")].
Defined.

Lemma X17_first_start_example :
  @get_company_list integral no_answer (world no_answer root_upload)
  = (Ok [], world no_answer root_upload).
Proof.
  exact (proj1 (@X17_no_store_gives_the_empty_list integral no_answer
                  (world no_answer root_upload) eq_refl)).
Defined.

Lemma X18_point_example :
  exists m,
    @validate_FinancialMetrics integral pydantic (JObject point_members) = Some m
    /\ @revenue integral m = Some 0%Z
    /\ @ebitda integral m = None
    /\ @margin integral m = None
    /\ @type integral m = forecast.
Proof.
  eexists. split; [reflexivity|].
  destruct (@X18_absent_metrics_stay_absent integral pydantic point_members _ eq_refl)
    as (_ & He & Hm & _ & Ht).
  split; [reflexivity|]. split; [|split].
  - apply He. now right.
  - apply Hm. now left.
  - apply Ht. reflexivity.
Defined.

End MoreExamples.
